(** * BizRadar: the scan-and-diff engine

    A shallow embedding of the core of BizRadar (the Foursquare client with
    its rate limiter, the monitoring service, the background monitor) and
    the properties its specification states about it.

    Conventions of the embedding.
    - A Python [float] is an exact rational ([Qc]); [None] is [option].
    - [time.time()] and [datetime.now()] read one clock, in whole seconds.
    - A [dict] is a [gmap]; a value the code keeps dynamically typed (the
      entries of [PlaceData.location]) is a [pyval].
    - A method that mutates [self] returns the new object next to its
      result; the database, the wall clock and the module-level
      [schedule] registry are explicit state. *)

From Stdlib Require Import ZArith QArith Qcanon String Ascii List Lia Bool.
From Stdlib Require Import Sorting.Sorted Sorting.Permutation.
From stdpp Require Import base decidable option numbers strings list gmap.

Open Scope string_scope.
Open Scope list_scope.
Open Scope Z_scope.

(** ** Values *)

(** The values a JSON object of the API carries under a location key. *)
Inductive pyval :=
  | PyNone
  | PyNum (q : Qc)
  | PyStr (s : string).

#[global] Instance pyval_eq_dec : EqDecision pyval.
Proof. solve_decision. Defined.

(** [d.get(key)] and [d.get(key, default)]. *)
Definition dict_get (d : gmap string pyval) (key : string) : pyval :=
  default PyNone (d !! key).

Definition dict_get_default (d : gmap string pyval) (key : string)
    (dflt : pyval) : pyval :=
  default dflt (d !! key).

(** Truth value of a dict: non-empty. *)
Definition dict_truthy (d : gmap string pyval) : bool :=
  negb (bool_decide (d = ∅)).

(** Truth value of an [Optional[float]]: present and not zero. *)
Definition float_truthy (x : option Qc) : bool :=
  match x with
  | Some q => negb (bool_decide (q = 0%Qc))
  | None => false
  end.

(** [x or 0] on an [Optional[float]]. *)
Definition float_or_zero (x : option Qc) : Qc :=
  if float_truthy x then default 0%Qc x else 0%Qc.

(** ** The clock

    [elapsed] is the last reading; [pending] lists how long the world
    waits before each of the next readings (nothing once exhausted). *)
Definition datetime := Z.

Record Clock := mkClock {
  elapsed : Z;
  pending : list N
}.

(** One reading of the clock: [time.time()], [datetime.now()]. *)
Definition tick (c : Clock) : datetime * Clock :=
  let t := elapsed c + Z.of_N (hd 0%N (pending c)) in
  (t, {| elapsed := t; pending := tl (pending c) |}).

(** [time.sleep(d)]. *)
Definition sleep (d : Z) (c : Clock) : Clock :=
  {| elapsed := elapsed c + d; pending := pending c |}.

(** ** models/business.py *)

Module Location.
Record t := mk {
  latitude : pyval;
  longitude : pyval;
  address : pyval;
  city : pyval;
  state : pyval;
  postal_code : pyval;
  country : pyval
}.

#[global] Instance eq_dec : EqDecision t.
Proof. solve_decision. Defined.
End Location.

Module BusinessHours.
Record t := mk {
  monday : option string;
  tuesday : option string;
  wednesday : option string;
  thursday : option string;
  friday : option string;
  saturday : option string;
  sunday : option string
}.

#[global] Instance eq_dec : EqDecision t.
Proof. solve_decision. Defined.
End BusinessHours.

(** api/foursquare_client.py: the record a fetch produces. *)
Module PlaceData.
Record t := mk {
  fsq_id : string;
  name : string;
  categories : list string;
  location : gmap string pyval;
  rating : option Qc;
  hours : option (gmap string string);
  website : option string;
  tel : option string;
  verified : bool;
  popularity : option Qc
}.

#[global] Instance eq_dec : EqDecision t.
Proof. solve_decision. Defined.
End PlaceData.

Module Business.
Record t := mk {
  fsq_id : string;
  name : string;
  categories : list string;
  location : Location.t;
  rating : option Qc;
  hours : option BusinessHours.t;
  website : option string;
  phone : option string;
  verified : bool;
  popularity : option Qc;
  first_seen : datetime;
  last_updated : datetime;
  is_competitor : bool;
  notes : option string
}.

#[global] Instance eq_dec : EqDecision t.
Proof. solve_decision. Defined.

(** The constructor with [__post_init__]: a timestamp left out is read
    from the clock, [first_seen] before [last_updated]. *)
Definition init (fsq_id : string) (name : string)
    (categories : list string) (location : Location.t)
    (rating : option Qc) (hours : option BusinessHours.t)
    (website phone : option string) (verified : bool)
    (popularity : option Qc) (first_seen last_updated : option datetime)
    (is_competitor : bool) (notes : option string)
    (c : Clock) : t * Clock :=
  let '(fs, c) :=
    match first_seen with
    | Some d => (d, c)
    | None => tick c
    end in
  let '(lu, c) :=
    match last_updated with
    | Some d => (d, c)
    | None => tick c
    end in
  (mk fsq_id name categories location rating hours website phone verified
      popularity fs lu is_competitor notes, c).

(** Assignments to one attribute. *)
Definition set_name (v : string) (b : t) : t :=
  mk (fsq_id b) v (categories b) (location b) (rating b) (hours b)
     (website b) (phone b) (verified b) (popularity b) (first_seen b)
     (last_updated b) (is_competitor b) (notes b).

Definition set_categories (v : list string) (b : t) : t :=
  mk (fsq_id b) (name b) v (location b) (rating b) (hours b)
     (website b) (phone b) (verified b) (popularity b) (first_seen b)
     (last_updated b) (is_competitor b) (notes b).

Definition set_location (v : Location.t) (b : t) : t :=
  mk (fsq_id b) (name b) (categories b) v (rating b) (hours b)
     (website b) (phone b) (verified b) (popularity b) (first_seen b)
     (last_updated b) (is_competitor b) (notes b).

Definition set_rating (v : option Qc) (b : t) : t :=
  mk (fsq_id b) (name b) (categories b) (location b) v (hours b)
     (website b) (phone b) (verified b) (popularity b) (first_seen b)
     (last_updated b) (is_competitor b) (notes b).

Definition set_website (v : option string) (b : t) : t :=
  mk (fsq_id b) (name b) (categories b) (location b) (rating b) (hours b)
     v (phone b) (verified b) (popularity b) (first_seen b)
     (last_updated b) (is_competitor b) (notes b).

Definition set_phone (v : option string) (b : t) : t :=
  mk (fsq_id b) (name b) (categories b) (location b) (rating b) (hours b)
     (website b) v (verified b) (popularity b) (first_seen b)
     (last_updated b) (is_competitor b) (notes b).

Definition set_verified (v : bool) (b : t) : t :=
  mk (fsq_id b) (name b) (categories b) (location b) (rating b) (hours b)
     (website b) (phone b) v (popularity b) (first_seen b)
     (last_updated b) (is_competitor b) (notes b).

Definition set_popularity (v : option Qc) (b : t) : t :=
  mk (fsq_id b) (name b) (categories b) (location b) (rating b) (hours b)
     (website b) (phone b) (verified b) v (first_seen b)
     (last_updated b) (is_competitor b) (notes b).

Definition set_last_updated (v : datetime) (b : t) : t :=
  mk (fsq_id b) (name b) (categories b) (location b) (rating b) (hours b)
     (website b) (phone b) (verified b) (popularity b) (first_seen b)
     v (is_competitor b) (notes b).

(** [if self.attr != new: self.attr = new; changes_made = True], on the
    pair of the object and the flag. *)
Definition assign_if_changed {A} `{EqDecision A} (get : t → A) (new : A)
    (set : A → t → t) (st : t * bool) : t * bool :=
  if bool_decide (get st.1 ≠ new) then (set new st.1, true) else st.

(** The same for the categories, compared as sets. *)
Definition assign_categories (new : list string) (st : t * bool)
    : t * bool :=
  if bool_decide ((list_to_set (categories st.1) : gset string)
                  ≠ list_to_set new)
  then (set_categories new st.1, true)
  else st.

(** The [Location] that [update_from_api_data] builds from a fetched
    location dict; latitude and longitude fall back on the stored ones. *)
Definition new_location (self : t) (api_location : gmap string pyval)
    : Location.t :=
  Location.mk
    (dict_get_default api_location "latitude"
       (Location.latitude (location self)))
    (dict_get_default api_location "longitude"
       (Location.longitude (location self)))
    (dict_get api_location "address")
    (dict_get api_location "locality")
    (dict_get api_location "region")
    (dict_get api_location "postcode")
    (dict_get api_location "country").

(** [if api_location: ... if new_location != self.location: ...]. *)
Definition assign_location (api_location : gmap string pyval)
    (st : t * bool) : t * bool :=
  if dict_truthy api_location then
    let new_loc := new_location st.1 api_location in
    if bool_decide (new_loc ≠ location st.1)
    then (set_location new_loc st.1, true)
    else st
  else st.

(** [Business.update_from_api_data]: the flag it returns, the object
    after the call, and the clock (read only when something changed). *)
Definition update_from_api_data (self : t) (api_data : PlaceData.t)
    (c : Clock) : (bool * t) * Clock :=
  let st := (self, false) in
  let st := assign_if_changed name (PlaceData.name api_data) set_name st in
  let st := assign_if_changed rating (PlaceData.rating api_data)
              set_rating st in
  let st := assign_if_changed popularity (PlaceData.popularity api_data)
              set_popularity st in
  let st := assign_if_changed verified (PlaceData.verified api_data)
              set_verified st in
  let st := assign_if_changed website (PlaceData.website api_data)
              set_website st in
  let st := assign_if_changed phone (PlaceData.tel api_data)
              set_phone st in
  let st := assign_categories (PlaceData.categories api_data) st in
  let st := assign_location (PlaceData.location api_data) st in
  if st.2 then
    let '(now, c) := tick c in
    ((true, set_last_updated now st.1), c)
  else ((false, st.1), c).
End Business.

(** ** models/monitoring.py *)

Inductive NotificationType :=
  | NEW_BUSINESS
  | BUSINESS_UPDATED
  | TRENDING_ACTIVITY
  | RATING_CHANGE
  | COMPETITOR_ALERT.

Inductive MonitoringStatus :=
  | ACTIVE
  | PAUSED
  | INACTIVE.

(** The value of a member of the two enumerations, and the member that
    [NotificationType(value)] and [MonitoringStatus(value)] give; [None]
    stands for the [ValueError] on a string that is no value. *)
Definition NotificationType_value (t : NotificationType) : string :=
  match t with
  | NEW_BUSINESS => "new_business"
  | BUSINESS_UPDATED => "business_updated"
  | TRENDING_ACTIVITY => "trending_activity"
  | RATING_CHANGE => "rating_change"
  | COMPETITOR_ALERT => "competitor_alert"
  end.

Definition NotificationType_of_value (v : string) : option NotificationType :=
  if bool_decide (v = "new_business") then Some NEW_BUSINESS
  else if bool_decide (v = "business_updated") then Some BUSINESS_UPDATED
  else if bool_decide (v = "trending_activity") then Some TRENDING_ACTIVITY
  else if bool_decide (v = "rating_change") then Some RATING_CHANGE
  else if bool_decide (v = "competitor_alert") then Some COMPETITOR_ALERT
  else None.

Definition MonitoringStatus_value (s : MonitoringStatus) : string :=
  match s with
  | ACTIVE => "active"
  | PAUSED => "paused"
  | INACTIVE => "inactive"
  end.

Definition MonitoringStatus_of_value (v : string) : option MonitoringStatus :=
  if bool_decide (v = "active") then Some ACTIVE
  else if bool_decide (v = "paused") then Some PAUSED
  else if bool_decide (v = "inactive") then Some INACTIVE
  else None.

#[global] Instance NotificationType_eq_dec : EqDecision NotificationType.
Proof. solve_decision. Defined.

#[global] Instance MonitoringStatus_eq_dec : EqDecision MonitoringStatus.
Proof. solve_decision. Defined.

Module MonitoringSettings.
Record t := mk {
  id : option Z;
  business_name : string;
  business_location_lat : Qc;
  business_location_lng : Qc;
  monitoring_radius : Z;
  scan_interval_minutes : Z;
  categories_to_monitor : list string;
  exclude_categories : list string;
  min_rating_threshold : option Qc;
  notify_new_businesses : bool;
  notify_rating_changes : bool;
  notify_trending : bool;
  status : MonitoringStatus;
  created_at : datetime;
  updated_at : datetime
}.

#[global] Instance eq_dec : EqDecision t.
Proof. solve_decision. Defined.
End MonitoringSettings.

(** An f-string before its numbers are rendered: the literal pieces and
    the values between them. *)
Definition fstring := list pyval.

Module Notification.
Record t := mk {
  id : option Z;
  type : NotificationType;
  title : string;
  message : fstring;
  business_fsq_id : option string;
  business_name : option string;
  created_at : datetime;
  read : bool;
  dismissed : bool
}.

#[global] Instance eq_dec : EqDecision t.
Proof. solve_decision. Defined.

(** The constructor as the services call it: [created_at] is read from
    the clock by [__post_init__]. *)
Definition init (type : NotificationType) (title : string)
    (message : fstring) (business_fsq_id business_name : option string)
    (c : Clock) : t * Clock :=
  let '(now, c) := tick c in
  (mk None type title message business_fsq_id business_name now
      false false, c).

Definition set_id (v : option Z) (n : t) : t :=
  mk v (type n) (title n) (message n) (business_fsq_id n)
     (business_name n) (created_at n) (read n) (dismissed n).

Definition set_created_at (v : datetime) (n : t) : t :=
  mk (id n) (type n) (title n) (message n) (business_fsq_id n)
     (business_name n) v (read n) (dismissed n).

Definition set_read (v : bool) (n : t) : t :=
  mk (id n) (type n) (title n) (message n) (business_fsq_id n)
     (business_name n) (created_at n) v (dismissed n).

Definition set_dismissed (v : bool) (n : t) : t :=
  mk (id n) (type n) (title n) (message n) (business_fsq_id n)
     (business_name n) (created_at n) (read n) v.
End Notification.

Module ScanHistory.
Record t := mk {
  id : option Z;
  scan_timestamp : datetime;
  businesses_found : nat;
  new_businesses : nat;
  updated_businesses : nat;
  scan_duration_seconds : Z;
  success : bool;
  error_message : option string
}.

#[global] Instance eq_dec : EqDecision t.
Proof. solve_decision. Defined.

(** [ScanHistory()]: every field at its default, the timestamp read
    from the clock. *)
Definition init (c : Clock) : t * Clock :=
  let '(now, c) := tick c in
  (mk None now 0%nat 0%nat 0%nat 0 true None, c).

Definition set_id (v : option Z) (s : t) : t :=
  mk v (scan_timestamp s) (businesses_found s) (new_businesses s)
     (updated_businesses s) (scan_duration_seconds s) (success s)
     (error_message s).

Definition set_scan_timestamp (v : datetime) (s : t) : t :=
  mk (id s) v (businesses_found s) (new_businesses s)
     (updated_businesses s) (scan_duration_seconds s) (success s)
     (error_message s).

Definition set_businesses_found (v : nat) (s : t) : t :=
  mk (id s) (scan_timestamp s) v (new_businesses s)
     (updated_businesses s) (scan_duration_seconds s) (success s)
     (error_message s).

Definition set_new_businesses (v : nat) (s : t) : t :=
  mk (id s) (scan_timestamp s) (businesses_found s) v
     (updated_businesses s) (scan_duration_seconds s) (success s)
     (error_message s).

Definition set_updated_businesses (v : nat) (s : t) : t :=
  mk (id s) (scan_timestamp s) (businesses_found s) (new_businesses s)
     v (scan_duration_seconds s) (success s) (error_message s).

Definition set_scan_duration_seconds (v : Z) (s : t) : t :=
  mk (id s) (scan_timestamp s) (businesses_found s) (new_businesses s)
     (updated_businesses s) v (success s) (error_message s).

Definition set_success (v : bool) (s : t) : t :=
  mk (id s) (scan_timestamp s) (businesses_found s) (new_businesses s)
     (updated_businesses s) (scan_duration_seconds s) v
     (error_message s).

Definition set_error_message (v : option string) (s : t) : t :=
  mk (id s) (scan_timestamp s) (businesses_found s) (new_businesses s)
     (updated_businesses s) (scan_duration_seconds s) (success s) v.
End ScanHistory.

(** ** utils/database.py

    The four tables, each the list of its rows in insertion order.  The
    database file is taken to be available, so a statement always runs
    and the [except] branches of [DatabaseManager] are not entered. *)
Module DatabaseManager.
Record t := mk {
  businesses : list Business.t;
  monitoring_settings : list MonitoringSettings.t;
  notifications : list Notification.t;
  scan_history : list ScanHistory.t
}.

Definition empty : t := mk [] [] [] [].

(** [INSERT OR REPLACE] under the primary key [fsq_id]: a row with the
    same key is deleted, the new row is added. *)
Definition insert_or_replace (b : Business.t) (rows : list Business.t)
    : list Business.t :=
  filter (λ r, Business.fsq_id r ≠ Business.fsq_id b) rows ++ [b].

Definition save_business (b : Business.t) (db : t) : bool * t :=
  (true, mk (insert_or_replace b (businesses db))
            (monitoring_settings db) (notifications db)
            (scan_history db)).

(** [SELECT * FROM businesses WHERE fsq_id = ?], first row. *)
Definition get_business (fsq_id : string) (db : t) : option Business.t :=
  find (λ r, bool_decide (Business.fsq_id r = fsq_id)) (businesses db).

(** [ORDER BY id DESC LIMIT 1]: ids grow with insertion, so the row
    inserted last. *)
Definition get_monitoring_settings (db : t)
    : option MonitoringSettings.t :=
  last (monitoring_settings db).

(** The id [AUTOINCREMENT] gives the next row of a table. *)
Definition lastrowid {A} (rows : list A) : Z :=
  Z.of_nat (length rows) + 1.

(** The two [INSERT]s below leave the id and the timestamp column to
    the database: the id is the next one, the timestamp is
    [CURRENT_TIMESTAMP], passed here as the reading of the clock. *)
Definition save_notification (current_timestamp : datetime)
    (n : Notification.t) (db : t) : Z * t :=
  let rowid := lastrowid (notifications db) in
  let row :=
    Notification.set_created_at current_timestamp
      (Notification.set_id (Some rowid) n) in
  (rowid, mk (businesses db) (monitoring_settings db)
             (notifications db ++ [row]) (scan_history db)).

Definition save_scan_history (current_timestamp : datetime)
    (s : ScanHistory.t) (db : t) : Z * t :=
  let rowid := lastrowid (scan_history db) in
  let row :=
    ScanHistory.set_scan_timestamp current_timestamp
      (ScanHistory.set_id (Some rowid) s) in
  (rowid, mk (businesses db) (monitoring_settings db) (notifications db)
             (scan_history db ++ [row])).
(** [get_all_businesses]: every row, or the rows with the given
    competitor flag. *)
Definition get_all_businesses (is_competitor : option bool) (db : t)
    : list Business.t :=
  match is_competitor with
  | Some v => filter (λ r, Business.is_competitor r = v) (businesses db)
  | None => businesses db
  end.

(** The row that [UPDATE monitoring_settings SET ... WHERE id = ?] leaves
    of a row with that id: every column but [id] and [created_at] is set,
    [updated_at] to the time of the call. *)
Definition updated_settings_row (now : datetime)
    (settings row : MonitoringSettings.t) : MonitoringSettings.t :=
  MonitoringSettings.mk (MonitoringSettings.id row)
    (MonitoringSettings.business_name settings)
    (MonitoringSettings.business_location_lat settings)
    (MonitoringSettings.business_location_lng settings)
    (MonitoringSettings.monitoring_radius settings)
    (MonitoringSettings.scan_interval_minutes settings)
    (MonitoringSettings.categories_to_monitor settings)
    (MonitoringSettings.exclude_categories settings)
    (MonitoringSettings.min_rating_threshold settings)
    (MonitoringSettings.notify_new_businesses settings)
    (MonitoringSettings.notify_rating_changes settings)
    (MonitoringSettings.notify_trending settings)
    (MonitoringSettings.status settings)
    (MonitoringSettings.created_at row) now.

(** The row that [INSERT INTO monitoring_settings] adds: the database
    gives the id and both timestamps. *)
Definition inserted_settings_row (rowid : Z) (now : datetime)
    (settings : MonitoringSettings.t) : MonitoringSettings.t :=
  MonitoringSettings.mk (Some rowid)
    (MonitoringSettings.business_name settings)
    (MonitoringSettings.business_location_lat settings)
    (MonitoringSettings.business_location_lng settings)
    (MonitoringSettings.monitoring_radius settings)
    (MonitoringSettings.scan_interval_minutes settings)
    (MonitoringSettings.categories_to_monitor settings)
    (MonitoringSettings.exclude_categories settings)
    (MonitoringSettings.min_rating_threshold settings)
    (MonitoringSettings.notify_new_businesses settings)
    (MonitoringSettings.notify_rating_changes settings)
    (MonitoringSettings.notify_trending settings)
    (MonitoringSettings.status settings) now now.

(** Truth value of [settings.id]: present and not zero. *)
Definition id_truthy (id : option Z) : bool :=
  match id with
  | Some n => negb (bool_decide (n = 0))
  | None => false
  end.

(** [save_monitoring_settings], [now] being the reading of the clock:
    an update of the rows with the id of the settings when they have
    one, an insertion otherwise. *)
Definition save_monitoring_settings (now : datetime)
    (settings : MonitoringSettings.t) (db : t) : Z * t :=
  if id_truthy (MonitoringSettings.id settings) then
    (default 0 (MonitoringSettings.id settings),
     mk (businesses db)
        ((λ row,
            if bool_decide (MonitoringSettings.id row
                            = MonitoringSettings.id settings)
            then updated_settings_row now settings row
            else row) <$> monitoring_settings db)
        (notifications db) (scan_history db))
  else
    let rowid := lastrowid (monitoring_settings db) in
    (rowid,
     mk (businesses db)
        (monitoring_settings db ++ [inserted_settings_row rowid now settings])
        (notifications db) (scan_history db)).

(** [UPDATE notifications SET read = TRUE WHERE id = ?]. *)
Definition mark_notification_read (notification_id : Z) (db : t)
    : bool * t :=
  (true,
   mk (businesses db) (monitoring_settings db)
      ((λ row, if bool_decide (Notification.id row = Some notification_id)
               then Notification.set_read true row else row)
         <$> notifications db)
      (scan_history db)).

(** [UPDATE notifications SET dismissed = TRUE WHERE id = ?]. *)
Definition dismiss_notification (notification_id : Z) (db : t)
    : bool * t :=
  (true,
   mk (businesses db) (monitoring_settings db)
      ((λ row, if bool_decide (Notification.id row = Some notification_id)
               then Notification.set_dismissed true row else row)
         <$> notifications db)
      (scan_history db)).

(** [abs] on a float. *)
Definition float_abs (x : Qc) : Qc :=
  if bool_decide (x < 0)%Qc then (- x)%Qc else x.

(** [a <= v] and [v <= a] for a float [a] and a stored coordinate [v];
    [None] stands for the [TypeError] on a coordinate that is no
    number. *)
Definition float_le_val (a : Qc) (v : pyval) : option bool :=
  match v with
  | PyNum q => Some (bool_decide (a ≤ q)%Qc)
  | _ => None
  end.

Definition val_le_float (v : pyval) (a : Qc) : option bool :=
  match v with
  | PyNum q => Some (bool_decide (q ≤ a)%Qc)
  | _ => None
  end.

(** The condition of the loop of [get_businesses_within_radius],
    [min_lat <= latitude <= max_lat and min_lng <= longitude <= max_lng],
    evaluated from the left and no further than needed. *)
Definition in_bounding_box (min_lat max_lat min_lng max_lng : Qc)
    (business : Business.t) : option bool :=
  let latitude := Location.latitude (Business.location business) in
  let longitude := Location.longitude (Business.location business) in
  match float_le_val min_lat latitude with
  | None => None
  | Some false => Some false
  | Some true =>
    match val_le_float latitude max_lat with
    | None => None
    | Some false => Some false
    | Some true =>
      match float_le_val min_lng longitude with
      | None => None
      | Some false => Some false
      | Some true => val_le_float longitude max_lng
      end
    end
  end.

(** The loop; [None] when a comparison raises. *)
Fixpoint filter_in_box (min_lat max_lat min_lng max_lng : Qc)
    (businesses : list Business.t) : option (list Business.t) :=
  match businesses with
  | [] => Some []
  | business :: businesses =>
    match in_bounding_box min_lat max_lat min_lng max_lng business with
    | None => None
    | Some inside =>
      match filter_in_box min_lat max_lat min_lng max_lng businesses with
      | None => None
      | Some filtered_businesses =>
        Some (if inside then business :: filtered_businesses
              else filtered_businesses)
      end
    end
  end.

(** [get_businesses_within_radius].  The division for [lng_delta] raises
    [ZeroDivisionError] at latitude 0, and every exception of the body
    ends in [return []]. *)
Definition get_businesses_within_radius (lat lng radius_km : Qc) (db : t)
    : list Business.t :=
  let lat_delta := (radius_km / Q2Qc 111)%Qc in
  if bool_decide ((Q2Qc 111 * float_abs lat)%Qc = 0%Qc) then []
  else
    let lng_delta := (radius_km / (Q2Qc 111 * float_abs lat))%Qc in
    let min_lat := (lat - lat_delta)%Qc in
    let max_lat := (lat + lat_delta)%Qc in
    let min_lng := (lng - lng_delta)%Qc in
    let max_lng := (lng + lng_delta)%Qc in
    default [] (filter_in_box min_lat max_lat min_lng max_lng
                  (get_all_businesses None db)).
End DatabaseManager.

(** ** api/foursquare_client.py *)

Module RateLimiter.
Record t := mk {
  max_requests : Z;
  time_window : Z;
  requests : list Z
}.

(** [RateLimiter(max_requests, time_window)]; the defaults are 50
    requests in 3600 seconds. *)
Definition init (max_requests time_window : Z) : t :=
  mk max_requests time_window [].

Definition default : t := init 50 3600.

(** [can_make_request], [now] being the reading of [time.time()]: the
    answer and the limiter with its old requests removed. *)
Definition can_make_request (now : Z) (self : t) : bool * t :=
  let kept :=
    filter (λ req_time, now - req_time < time_window self)
           (requests self) in
  (bool_decide (Z.of_nat (length kept) < max_requests self),
   mk (max_requests self) (time_window self) kept).

(** [record_request], [now] being the reading of [time.time()]. *)
Definition record_request (now : Z) (self : t) : t :=
  mk (max_requests self) (time_window self) (requests self ++ [now]).
End RateLimiter.

(** What the answer to one GET can be: a response with its status code
    and its body ([None] for a body that is not JSON, on which
    [response.json()] raises a [RequestException]), or a
    [RequestException] raised by the session. *)
Inductive HttpOutcome (Body : Type) :=
  | Response (status_code : Z) (json : option Body)
  | RequestException (msg : string).

Arguments Response {Body} status_code json.
Arguments RequestException {Body} msg.

(** One place object of a response, by the keys the client reads; [None]
    is a key that the object does not have.  A category is the value
    under its ["name"], when it has one. *)
Module RawResult.
Record t := mk {
  fsq_id : option string;
  name : option string;
  categories : option (list (option string));
  location : option (gmap string pyval);
  rating : option Qc;
  hours : option (gmap string string);
  website : option string;
  tel : option string;
  verified : option bool;
  popularity : option Qc
}.
End RawResult.

(** The body of a search response, by its one key that the client
    reads. *)
Record SearchBody := mkSearchBody {
  results : option (list RawResult.t)
}.

Module FoursquareClient.
(** A request: the endpoint and the query parameters. *)
Definition Request : Type := string * list (string * string).

(** The client with what it has done: the limiter, the clock, the
    requests sent so far and the sleeps taken so far, oldest first. *)
Record t := mk {
  rate_limiter : RateLimiter.t;
  clock : Clock;
  sent : list Request;
  slept : list Z
}.

Definition init (c : Clock) : t := mk RateLimiter.default c [] [].

Section MakeRequest.
Context {Body : Type}.

(** The server: the answer to the k-th GET of the session. *)
Variable server : nat → HttpOutcome Body.

(** [_make_request].  The recursion of the source is on nothing that
    decreases, so the embedding counts calls: [fuel] bounds the depth
    of the recursion and [None] is a call that needs more.  A result
    [Some r] is the return value [r], itself [None] for a failed
    request. *)
Fixpoint _make_request (fuel : nat) (endpoint : string)
    (params : list (string * string)) (self : t)
    : option (option Body) * t :=
  match fuel with
  | O => (None, self)
  | S fuel =>
    let '(now, c) := tick (clock self) in
    let '(ok, rl) := RateLimiter.can_make_request now
                       (rate_limiter self) in
    let '(c, naps) :=
      if ok then (c, slept self)
      else (sleep 60 c, slept self ++ [60]) in
    let response := server (length (sent self)) in
    let reqs := sent self ++ [(endpoint, params)] in
    match response with
    | RequestException _ => (Some None, mk rl c reqs naps)
    | Response status_code json =>
      let '(now, c) := tick c in
      let rl := RateLimiter.record_request now rl in
      if bool_decide (status_code = 200) then
        (Some json, mk rl c reqs naps)
      else if bool_decide (status_code = 429) then
        _make_request fuel endpoint params
          (mk rl (sleep 60 c) reqs (naps ++ [60]))
      else (Some None, mk rl c reqs naps)
    end
  end.
End MakeRequest.

(** The sort of [sorted(..., key=lambda x: x.popularity or 0,
    reverse=True)]: descending in the key, and stable, so that of two
    places with one key the one fetched first stays first. *)
Definition sort_key (place : PlaceData.t) : Qc :=
  float_or_zero (PlaceData.popularity place).

Fixpoint insert_desc (x : PlaceData.t) (l : list PlaceData.t)
    : list PlaceData.t :=
  match l with
  | [] => [x]
  | y :: l' =>
    if bool_decide (sort_key x < sort_key y)%Qc
    then y :: insert_desc x l'
    else x :: y :: l'
  end.

Definition sorted_desc (l : list PlaceData.t) : list PlaceData.t :=
  foldr insert_desc [] l.

(** The condition of the comprehension:
    [place.popularity and place.popularity > 0.7]. *)
Definition is_trending (place : PlaceData.t) : bool :=
  float_truthy (PlaceData.popularity place)
  && bool_decide (Q2Qc (7 # 10) < default 0%Qc
                                    (PlaceData.popularity place))%Qc.

(** [get_trending_places], on the list [places] that its call of
    [search_nearby] returned. *)
Definition get_trending_places (places : list PlaceData.t)
    : list PlaceData.t :=
  let trending := filter (λ place, is_trending place) places in
  take 10 (sorted_desc trending).
(** [[cat['name'] for cat in categories]]; [None] stands for the
    [KeyError] on a category without a name. *)
Fixpoint category_names (categories : list (option string))
    : option (list string) :=
  match categories with
  | [] => Some []
  | cat :: categories =>
    match cat with
    | None => None
    | Some name =>
      match category_names categories with
      | None => None
      | Some names => Some (name :: names)
      end
    end
  end.

(** The [PlaceData(...)] that [search_nearby] and [get_place_details]
    build from a place object; [None] stands for the [KeyError] that
    both catch. *)
Definition place_of_result (result : RawResult.t) : option PlaceData.t :=
  match RawResult.fsq_id result with
  | None => None
  | Some fsq_id =>
    match RawResult.name result with
    | None => None
    | Some name =>
      match category_names (default [] (RawResult.categories result)) with
      | None => None
      | Some categories =>
        Some (PlaceData.mk fsq_id name categories
                (default ∅ (RawResult.location result))
                (RawResult.rating result) (RawResult.hours result)
                (RawResult.website result) (RawResult.tel result)
                (default false (RawResult.verified result))
                (RawResult.popularity result))
      end
    end
  end.

(** [search_nearby], on what its call of [_make_request] returned.  A
    body without results is an empty dict or one whose default is the
    empty list: no place either way. *)
Definition search_nearby (response : option SearchBody)
    : list PlaceData.t :=
  match response with
  | None => []
  | Some body => omap place_of_result (default [] (results body))
  end.

(** [get_place_details], on what its call of [_make_request] returned.
    An empty dict has no ["fsq_id"]: no place either way. *)
Definition get_place_details (response : option RawResult.t)
    : option PlaceData.t :=
  match response with
  | None => None
  | Some result => place_of_result result
  end.
End FoursquareClient.

(** ** Strings *)

(** [str.lower()] on the ASCII letters. *)
Definition lower_ascii (a : ascii) : ascii :=
  let n := nat_of_ascii a in
  if (65 <=? n)%nat && (n <=? 90)%nat then ascii_of_nat (n + 32) else a.

Fixpoint lower (s : string) : string :=
  match s with
  | EmptyString => EmptyString
  | String a s' => String (lower_ascii a) (lower s')
  end.

(** [sub in s] on strings: [sub] occurs in [s] as a substring. *)
Fixpoint str_in (sub s : string) : bool :=
  String.prefix sub s
  || match s with
     | EmptyString => false
     | String _ s' => str_in sub s'
     end.

(** Truth value of a list: non-empty. *)
Definition list_truthy {A} (l : list A) : bool :=
  match l with
  | [] => false
  | _ :: _ => true
  end.

(** ** The state the services run in *)

Record World := mkWorld {
  db : DatabaseManager.t;
  clock : Clock;
  (** the jobs registered with the [schedule] module, by interval *)
  jobs : list Z;
  (** how many threads have been started *)
  threads : nat;
  (** the desktop notifications shown, oldest first *)
  desktop : list (string * fstring)
}.

Definition set_db (v : DatabaseManager.t) (w : World) : World :=
  mkWorld v (clock w) (jobs w) (threads w) (desktop w).

Definition set_clock (v : Clock) (w : World) : World :=
  mkWorld (db w) v (jobs w) (threads w) (desktop w).

(** What a call that can raise yields. *)
Inductive result (A : Type) :=
  | Return (a : A)
  | Raise (msg : string).

Arguments Return {A} a.
Arguments Raise {A} msg.

(** ** services/monitoring_service.py *)

Module MonitoringService.
Import MonitoringSettings.

(** [any(x.lower() in category.lower() for x in names)]. *)
Definition any_lower_in (names : list string) (category : string) : bool :=
  existsb (λ x, str_in (lower x) (lower category)) names.

Definition _should_exclude_business (place : PlaceData.t)
    (settings : MonitoringSettings.t) : bool :=
  if list_truthy (exclude_categories settings)
     && existsb (any_lower_in (exclude_categories settings))
                (PlaceData.categories place)
  then true
  else if float_truthy (min_rating_threshold settings)
          && float_truthy (PlaceData.rating place)
  then
    if bool_decide (default 0%Qc (PlaceData.rating place)
                    < default 0%Qc (min_rating_threshold settings))%Qc
    then true
    else false
  else false.

Definition _update_existing_business (business : Business.t)
    (place : PlaceData.t) (settings : MonitoringSettings.t) (c : Clock)
    : (bool * Business.t) * Clock :=
  Business.update_from_api_data business place c.

Definition _is_potential_competitor (place : PlaceData.t)
    (settings : MonitoringSettings.t) : bool :=
  if list_truthy (categories_to_monitor settings)
     && existsb (any_lower_in (categories_to_monitor settings))
                (PlaceData.categories place)
  then true
  else negb (list_truthy (categories_to_monitor settings)).

(** On the records of the embedding nothing in the [try] raises, so the
    result is never [None]. *)
Definition _create_business_from_place (place : PlaceData.t)
    (settings : MonitoringSettings.t) (c : Clock)
    : option Business.t * Clock :=
  let d := PlaceData.location place in
  let location :=
    Location.mk (dict_get_default d "latitude" (PyNum 0%Qc))
                (dict_get_default d "longitude" (PyNum 0%Qc))
                (dict_get d "address") (dict_get d "locality")
                (dict_get d "region") (dict_get d "postcode")
                (dict_get d "country") in
  let '(business, c) :=
    Business.init (PlaceData.fsq_id place) (PlaceData.name place)
      (PlaceData.categories place) location (PlaceData.rating place)
      None (PlaceData.website place) (PlaceData.tel place)
      (PlaceData.verified place) (PlaceData.popularity place)
      None None (_is_potential_competitor place settings) None c in
  (Some business, c).

(** [Notification(...)] followed by [db_manager.save_notification]. *)
Definition notify (type : NotificationType) (title : string)
    (message : fstring) (business : Business.t) (w : World) : World :=
  let '(notification, c) :=
    Notification.init type title message
      (Some (Business.fsq_id business)) (Some (Business.name business))
      (clock w) in
  let '(current_timestamp, c) := tick c in
  let '(_, d) :=
    DatabaseManager.save_notification current_timestamp notification
      (db w) in
  set_db d (set_clock c w).

(** [', '.join(categories)]. *)
Definition join_categories (categories : list string) : string :=
  String.concat ", " categories.

Definition _generate_notifications
    (new_businesses updated_businesses : list Business.t)
    (settings : MonitoringSettings.t) (w : World) : World :=
  let w :=
    if notify_new_businesses settings && list_truthy new_businesses then
      fold_left
        (λ w business,
           if Business.is_competitor business then
             notify NEW_BUSINESS "New Competitor Detected"
               [PyStr "A new business '"; PyStr (Business.name business);
                PyStr "' has opened nearby in the ";
                PyStr (join_categories (Business.categories business));
                PyStr " category."]
               business w
           else w)
        new_businesses w
    else w in
  if notify_rating_changes settings && list_truthy updated_businesses then
    fold_left
      (λ w business,
         notify BUSINESS_UPDATED "Competitor Updated"
           [PyStr "'"; PyStr (Business.name business);
            PyStr "' has updated information. Current rating: ";
            if float_truthy (Business.rating business)
            then PyNum (default 0%Qc (Business.rating business))
            else PyStr "N/A"]
           business w)
      updated_businesses w
  else w.

(** The variables of the loop of [perform_scan]. *)
Record Loop := mkLoop {
  new_businesses : list Business.t;
  updated_businesses : list Business.t;
  world : World
}.

(** One turn of [for place in places]. *)
Definition scan_place (settings : MonitoringSettings.t) (st : Loop)
    (place : PlaceData.t) : Loop :=
  if _should_exclude_business place settings then st
  else
    match DatabaseManager.get_business (PlaceData.fsq_id place)
            (db (world st)) with
    | Some existing_business =>
      let '((changed, existing_business), c) :=
        _update_existing_business existing_business place settings
          (clock (world st)) in
      if changed then
        let '(_, d) :=
          DatabaseManager.save_business existing_business
            (db (world st)) in
        mkLoop (new_businesses st)
               (updated_businesses st ++ [existing_business])
               (set_db d (set_clock c (world st)))
      else st
    | None =>
      let '(new_business, c) :=
        _create_business_from_place place settings (clock (world st)) in
      match new_business with
      | Some new_business =>
        let '(_, d) :=
          DatabaseManager.save_business new_business (db (world st)) in
        mkLoop (new_businesses st ++ [new_business])
               (updated_businesses st)
               (set_db d (set_clock c (world st)))
      | None =>
        mkLoop (new_businesses st) (updated_businesses st)
               (set_clock c (world st))
      end
    end.

Definition scan_places (settings : MonitoringSettings.t)
    (places : list PlaceData.t) (w : World) : Loop :=
  fold_left (scan_place settings) places (mkLoop [] [] w).

(** The [try] block of [perform_scan], on what its call of
    [search_nearby] yields: the places, or an exception.  It gives how
    the block ended, and [scan_result] and the world as they are then. *)
Definition scan_try (settings : MonitoringSettings.t)
    (search_nearby : result (list PlaceData.t))
    (scan_result : ScanHistory.t) (w : World)
    : result unit * ScanHistory.t * World :=
  match search_nearby with
  | Raise e => (Raise e, scan_result, w)
  | Return places =>
    let scan_result :=
      ScanHistory.set_businesses_found (length places) scan_result in
    let st := scan_places settings places w in
    let scan_result :=
      ScanHistory.set_new_businesses (length (new_businesses st))
        scan_result in
    let scan_result :=
      ScanHistory.set_updated_businesses
        (length (updated_businesses st)) scan_result in
    let w :=
      _generate_notifications (new_businesses st)
        (updated_businesses st) settings (world st) in
    let scan_result := ScanHistory.set_success true scan_result in
    (Return (), scan_result, w)
  end.

(** The [except Exception] and [finally] clauses and the [return] of
    [perform_scan], for a [try] block that ended in [outcome] and left
    [scan_result] and the world as given. *)
Definition scan_handlers (start_time : Z) (outcome : result unit)
    (scan_result : ScanHistory.t) (w : World) : ScanHistory.t * World :=
  let scan_result :=
    match outcome with
    | Raise e =>
      ScanHistory.set_error_message (Some e)
        (ScanHistory.set_success false scan_result)
    | Return _ => scan_result
    end in
  let '(now, c) := tick (clock w) in
  let scan_result :=
    ScanHistory.set_scan_duration_seconds (now - start_time)
      scan_result in
  let '(current_timestamp, c) := tick c in
  let '(_, d) :=
    DatabaseManager.save_scan_history current_timestamp scan_result
      (db w) in
  (scan_result, set_db d (set_clock c w)).

Definition perform_scan (settings : MonitoringSettings.t)
    (search_nearby : result (list PlaceData.t)) (w : World)
    : ScanHistory.t * World :=
  let '(start_time, c) := tick (clock w) in
  let '(scan_result, c) := ScanHistory.init c in
  let '(outcome, scan_result, w) :=
    scan_try settings search_nearby scan_result (set_clock c w) in
  scan_handlers start_time outcome scan_result w.
(** One turn of the loop of [get_trending_businesses]. *)
Definition trending_step (settings : MonitoringSettings.t)
    (st : list Business.t * World) (place : PlaceData.t)
    : list Business.t * World :=
  let '(trending_businesses, w) := st in
  match DatabaseManager.get_business (PlaceData.fsq_id place) (db w) with
  | Some business => (trending_businesses ++ [business], w)
  | None =>
    let '(new_business, c) :=
      _create_business_from_place place settings (clock w) in
    match new_business with
    | Some new_business =>
      let '(_, d) := DatabaseManager.save_business new_business (db w) in
      (trending_businesses ++ [new_business], set_db d (set_clock c w))
    | None => (trending_businesses, set_clock c w)
    end
  end.

(** [get_trending_businesses], on the places that its call of
    [get_trending_places] returned. *)
Definition get_trending_businesses (settings : MonitoringSettings.t)
    (trending_places : list PlaceData.t) (w : World)
    : list Business.t * World :=
  fold_left (trending_step settings) trending_places ([], w).
End MonitoringService.

(** ** services/notification_service.py *)

Module NotificationService.
Record t := mk {
  enable_desktop_notifications : bool
}.

Definition send_desktop_notification (title : string) (message : fstring)
    (self : t) (w : World) : World :=
  if enable_desktop_notifications self then
    mkWorld (db w) (clock w) (jobs w) (threads w)
            (desktop w ++ [(title, message)])
  else w.

Definition create_notification (notification_type : NotificationType)
    (title : string) (message : fstring)
    (business_fsq_id business_name : option string) (send_desktop : bool)
    (self : t) (w : World) : Z * World :=
  let '(notification, c) :=
    Notification.init notification_type title message business_fsq_id
      business_name (clock w) in
  let '(current_timestamp, c) := tick c in
  let '(notification_id, d) :=
    DatabaseManager.save_notification current_timestamp notification
      (db w) in
  let w := set_db d (set_clock c w) in
  if send_desktop && negb (bool_decide (notification_id = 0)) then
    (notification_id, send_desktop_notification title message self w)
  else (notification_id, w).
Definition create_competitor_alert (business_name business_fsq_id : string)
    (alert_type : string) (self : t) (w : World) : Z * World :=
  let '(title, message, notification_type) :=
    if bool_decide (alert_type = "new") then
      ("New Competitor Alert",
       [PyStr "A new competitor '"; PyStr business_name;
        PyStr "' has been detected in your monitoring area."],
       NEW_BUSINESS)
    else if bool_decide (alert_type = "updated") then
      ("Competitor Update",
       [PyStr "Competitor '"; PyStr business_name;
        PyStr "' has updated their information."],
       BUSINESS_UPDATED)
    else if bool_decide (alert_type = "trending") then
      ("Trending Competitor",
       [PyStr "'"; PyStr business_name;
        PyStr "' is showing increased activity and trending in your area."],
       TRENDING_ACTIVITY)
    else
      ("Competitor Alert",
       [PyStr "Activity detected for competitor '"; PyStr business_name;
        PyStr "'."],
       COMPETITOR_ALERT) in
  create_notification notification_type title message
    (Some business_fsq_id) (Some business_name) true self w.

(** The message of [create_rating_change_alert]; the ratings stand in it
    as numbers, their rendering with one decimal left out. *)
Definition rating_change_message (business_name : string)
    (old_rating new_rating : option Qc) : fstring :=
  match old_rating, new_rating with
  | None, Some new_rating =>
    [PyStr "'"; PyStr business_name; PyStr "' now has a rating of ";
     PyNum new_rating; PyStr " stars."]
  | Some _, None =>
    [PyStr "'"; PyStr business_name;
     PyStr "' no longer has a visible rating."]
  | Some old_rating, Some new_rating =>
    let change := (new_rating - old_rating)%Qc in
    let direction :=
      if bool_decide (0 < change)%Qc then "increased" else "decreased" in
    [PyStr "'"; PyStr business_name; PyStr "' rating "; PyStr direction;
     PyStr " from "; PyNum old_rating; PyStr " to "; PyNum new_rating;
     PyStr " stars."]
  | None, None =>
    [PyStr "Rating information updated for '"; PyStr business_name;
     PyStr "'."]
  end.

Definition create_rating_change_alert (business_name business_fsq_id : string)
    (old_rating new_rating : option Qc) (self : t) (w : World) : Z * World :=
  create_notification RATING_CHANGE "Rating Change Alert"
    (rating_change_message business_name old_rating new_rating)
    (Some business_fsq_id) (Some business_name) true self w.

Definition mark_notification_read (notification_id : Z) (w : World)
    : bool * World :=
  let '(ok, d) := DatabaseManager.mark_notification_read notification_id
                    (db w) in
  (ok, set_db d w).

Definition dismiss_notification (notification_id : Z) (w : World)
    : bool * World :=
  let '(ok, d) := DatabaseManager.dismiss_notification notification_id
                    (db w) in
  (ok, set_db d w).
End NotificationService.

(** ** services/background_monitor.py *)

Module BackgroundMonitor.
(** [monitor_thread] is the number of the thread the monitor started
    last; [stop_event] is whether the event is set.  The loop of the
    thread runs beside the caller and is not part of [start]. *)
Record t := mk {
  notification_service : NotificationService.t;
  monitor_thread : option nat;
  stop_event : bool;
  is_running : bool;
  current_settings : option MonitoringSettings.t;
  scheduler_running : bool
}.

Definition init (notification_service : NotificationService.t) : t :=
  mk notification_service None false false None false.

Definition set_current_settings (v : option MonitoringSettings.t)
    (self : t) : t :=
  mk (notification_service self) (monitor_thread self) (stop_event self)
     (is_running self) v (scheduler_running self).

(** [BackgroundMonitor.start]: what it returns, the monitor and the
    world after the call. *)
Definition start (self : t) (w : World) : bool * t * World :=
  if is_running self then (false, self, w)
  else
    let self :=
      set_current_settings (DatabaseManager.get_monitoring_settings (db w))
        self in
    match current_settings self with
    | None => (false, self, w)
    | Some settings =>
      if bool_decide (MonitoringSettings.status settings ≠ ACTIVE)
      then (false, self, w)
      else
        (* schedule.clear(); schedule.every(interval).minutes.do(...) *)
        let interval := MonitoringSettings.scan_interval_minutes settings in
        let w := mkWorld (db w) (clock w) [interval] (threads w)
                         (desktop w) in
        (* stop_event.clear(); Thread(...).start() *)
        let self :=
          mk (notification_service self) (Some (threads w)) false true
             (current_settings self) (scheduler_running self) in
        let w := mkWorld (db w) (clock w) (jobs w) (S (threads w))
                         (desktop w) in
        let '(_, w) :=
          NotificationService.create_notification COMPETITOR_ALERT
            "Monitoring Started"
            [PyStr "Background monitoring started for ";
             PyStr (MonitoringSettings.business_name settings)]
            None None true (notification_service self) w in
        (true, self, w)
    end.
(** An integer as it stands in an f-string. *)
Definition PyInt (n : nat) : pyval :=
  PyNum (Q2Qc (inject_Z (Z.of_nat n))).

(** [BackgroundMonitor.stop].  Waiting for the thread has no effect on
    the state kept here. *)
Definition stop (self : t) (w : World) : t * World :=
  if negb (is_running self) then (self, w)
  else
    (* stop_event.set(); schedule.clear() *)
    let w := mkWorld (db w) (clock w) [] (threads w) (desktop w) in
    let self :=
      mk (notification_service self) (monitor_thread self) true false
         (current_settings self) false in
    let '(_, w) :=
      NotificationService.create_notification COMPETITOR_ALERT
        "Monitoring Stopped"
        [PyStr "Background monitoring has been stopped"]
        None None true (notification_service self) w in
    (self, w).

(** [BackgroundMonitor.restart]. *)
Definition restart (self : t) (w : World) : bool * t * World :=
  let '(self, w) := stop self w in
  let w := set_clock (sleep 1 (clock w)) w in
  start self w.

(** [BackgroundMonitor.update_settings]. *)
Definition update_settings (new_settings : MonitoringSettings.t) (self : t)
    (w : World) : t * World :=
  let old_interval :=
    match current_settings self with
    | Some settings => MonitoringSettings.scan_interval_minutes settings
    | None => 0
    end in
  let old_status :=
    match current_settings self with
    | Some settings => MonitoringSettings.status settings
    | None => INACTIVE
    end in
  let self := set_current_settings (Some new_settings) self in
  if is_running self
     && (bool_decide (MonitoringSettings.scan_interval_minutes new_settings
                      ≠ old_interval)
         || bool_decide (MonitoringSettings.status new_settings
                         ≠ old_status))
  then
    if bool_decide (MonitoringSettings.status new_settings = ACTIVE) then
      let '(_, self, w) := restart self w in (self, w)
    else stop self w
  else (self, w).

(** [BackgroundMonitor.run_scheduled_scan], on what the call of
    [search_nearby] inside the scan yields. *)
Definition run_scheduled_scan
    (search_nearby : result (list PlaceData.t)) (self : t) (w : World)
    : World :=
  match DatabaseManager.get_monitoring_settings (db w) with
  | None => w
  | Some current_settings =>
    if bool_decide (MonitoringSettings.status current_settings ≠ ACTIVE)
    then w
    else
      let '(scan_result, w) :=
        MonitoringService.perform_scan current_settings search_nearby w in
      if ScanHistory.success scan_result then
        if (0 <? ScanHistory.new_businesses scan_result)%nat
           || (5 <? ScanHistory.updated_businesses scan_result)%nat
        then
          (NotificationService.create_notification COMPETITOR_ALERT
             "Scan Summary"
             [PyStr "Scan found ";
              PyInt (ScanHistory.new_businesses scan_result);
              PyStr " new and ";
              PyInt (ScanHistory.updated_businesses scan_result);
              PyStr " updated businesses"]
             None None true (notification_service self) w).2
        else w
      else
        (NotificationService.create_notification COMPETITOR_ALERT
           "Scan Failed"
           [PyStr "Scheduled scan failed: ";
            match ScanHistory.error_message scan_result with
            | Some e => PyStr e
            | None => PyNone
            end]
           None None true (notification_service self) w).2
  end.

(** [BackgroundMonitor.run_manual_scan], on what the call of
    [search_nearby] inside the scan yields. *)
Definition run_manual_scan (search_nearby : result (list PlaceData.t))
    (self : t) (w : World) : bool * t * World :=
  let self :=
    match current_settings self with
    | Some _ => self
    | None =>
      set_current_settings
        (DatabaseManager.get_monitoring_settings (db w)) self
    end in
  match current_settings self with
  | None => (false, self, w)
  | Some settings =>
    let '(scan_result, w) :=
      MonitoringService.perform_scan settings search_nearby w in
    (ScanHistory.success scan_result, self, w)
  end.
End BackgroundMonitor.

(** * What the specification says, in terms of the code *)

(** The location a fetched place carries, read against the stored
    business: none when the place has an empty location dict. *)
Definition fetched_location (b : Business.t) (p : PlaceData.t)
    : option Location.t :=
  if dict_truthy (PlaceData.location p)
  then Some (Business.new_location b (PlaceData.location p))
  else None.

Definition categories_differ (b : Business.t) (p : PlaceData.t) : Prop :=
  (list_to_set (Business.categories b) : gset string)
  ≠ list_to_set (PlaceData.categories p).

(** Some mutable field of the stored business differs from the fetched
    place. *)
Definition differs (b : Business.t) (p : PlaceData.t) : Prop :=
  Business.name b ≠ PlaceData.name p
  ∨ Business.rating b ≠ PlaceData.rating p
  ∨ Business.popularity b ≠ PlaceData.popularity p
  ∨ Business.verified b ≠ PlaceData.verified p
  ∨ Business.website b ≠ PlaceData.website p
  ∨ Business.phone b ≠ PlaceData.tel p
  ∨ categories_differ b p
  ∨ (∃ l, fetched_location b p = Some l ∧ l ≠ Business.location b).

(** The flag and the business that the comparisons of
    [update_from_api_data] leave, before the clock is read. *)
Definition merged (b : Business.t) (p : PlaceData.t) : Business.t :=
  Business.mk (Business.fsq_id b) (PlaceData.name p)
    (if decide (categories_differ b p) then PlaceData.categories p
     else Business.categories b)
    (default (Business.location b) (fetched_location b p))
    (PlaceData.rating p) (Business.hours b) (PlaceData.website p)
    (PlaceData.tel p) (PlaceData.verified p) (PlaceData.popularity p)
    (Business.first_seen b) (Business.last_updated b)
    (Business.is_competitor b) (Business.notes b).

(** The flag that the comparisons leave. *)
Definition changed_flag (b : Business.t) (p : PlaceData.t) : bool :=
  bool_decide (Business.name b ≠ PlaceData.name p)
  || bool_decide (Business.rating b ≠ PlaceData.rating p)
  || bool_decide (Business.popularity b ≠ PlaceData.popularity p)
  || bool_decide (Business.verified b ≠ PlaceData.verified p)
  || bool_decide (Business.website b ≠ PlaceData.website p)
  || bool_decide (Business.phone b ≠ PlaceData.tel p)
  || bool_decide (categories_differ b p)
  || (dict_truthy (PlaceData.location p)
      && bool_decide (Business.new_location b (PlaceData.location p)
                      ≠ Business.location b)).

(** A run of a rate limiter: the calls made on it, each with the time
    the clock has advanced since the call before. *)
Inductive LimiterCall :=
  | CanMakeRequest
  | RecordRequest.

(** The limiter and the clock reading after the calls, from the reading
    [now]. *)
Fixpoint limiter_run (calls : list (N * LimiterCall)) (now : Z)
    (self : RateLimiter.t) : RateLimiter.t * Z :=
  match calls with
  | [] => (self, now)
  | (d, CanMakeRequest) :: calls =>
    limiter_run calls (now + Z.of_N d)
      (RateLimiter.can_make_request (now + Z.of_N d) self).2
  | (d, RecordRequest) :: calls =>
    limiter_run calls (now + Z.of_N d)
      (RateLimiter.record_request (now + Z.of_N d) self)
  end.

(** The readings at which the calls recorded a request. *)
Fixpoint recorded (calls : list (N * LimiterCall)) (now : Z) : list Z :=
  match calls with
  | [] => []
  | (d, CanMakeRequest) :: calls => recorded calls (now + Z.of_N d)
  | (d, RecordRequest) :: calls =>
    (now + Z.of_N d) :: recorded calls (now + Z.of_N d)
  end.

(** A recorded request is inside the window at the reading [now]. *)
Definition in_window (window now : Z) (req_time : Z) : Prop :=
  now - req_time < window.

#[global] Instance in_window_dec window now req_time :
  Decision (in_window window now req_time).
Proof. unfold in_window. apply _. Defined.

(** [x] does not come after [y] in descending order of popularity. *)
Definition pop_ge (x y : PlaceData.t) : Prop :=
  (FoursquareClient.sort_key y ≤ FoursquareClient.sort_key x)%Qc.

(** The popularity is present and strictly greater than 0.7. *)
Definition popular (place : PlaceData.t) : Prop :=
  ∃ q, PlaceData.popularity place = Some q ∧ (Q2Qc (7 # 10) < q)%Qc.

(** The place [p] with another popularity. *)
Definition with_popularity (q : Qc) (p : PlaceData.t) : PlaceData.t :=
  PlaceData.mk (PlaceData.fsq_id p) (PlaceData.name p)
    (PlaceData.categories p) (PlaceData.location p) (PlaceData.rating p)
    (PlaceData.hours p) (PlaceData.website p) (PlaceData.tel p)
    (PlaceData.verified p) (Some q).

#[global] Instance popular_dec place : Decision (popular place).
Proof.
  unfold popular. destruct (PlaceData.popularity place) as [q|].
  - destruct (decide (Q2Qc (7 # 10) < q)%Qc) as [Hlt|Hlt].
    + left. eauto.
    + right. intros (q' & [= <-] & Hq). done.
  - right. intros (q & [=] & _).
Defined.

(** [sub] occurs in [s] when the case of the letters is ignored. *)
Definition contains_ci (sub s : string) : Prop :=
  ∃ pre post,
    lower s = String.append pre (String.append (lower sub) post).

(** Some category of the place contains some excluded category. *)
Definition category_excluded (place : PlaceData.t)
    (settings : MonitoringSettings.t) : Prop :=
  ∃ category excluded,
    category ∈ PlaceData.categories place
    ∧ excluded ∈ MonitoringSettings.exclude_categories settings
    ∧ contains_ci excluded category.

(** The rating and the threshold are both present and the rating is
    below the threshold. *)
Definition rating_below (place : PlaceData.t)
    (settings : MonitoringSettings.t) : Prop :=
  ∃ r t, PlaceData.rating place = Some r
         ∧ MonitoringSettings.min_rating_threshold settings = Some t
         ∧ (r < t)%Qc.

(** The same, with neither of the two being zero. *)
Definition nonzero_rating_below (place : PlaceData.t)
    (settings : MonitoringSettings.t) : Prop :=
  ∃ r t, PlaceData.rating place = Some r
         ∧ MonitoringSettings.min_rating_threshold settings = Some t
         ∧ r ≠ 0%Qc ∧ t ≠ 0%Qc ∧ (r < t)%Qc.

(** The place [p] with other categories, and with another rating. *)
Definition with_categories (cs : list string) (p : PlaceData.t)
    : PlaceData.t :=
  PlaceData.mk (PlaceData.fsq_id p) (PlaceData.name p) cs
    (PlaceData.location p) (PlaceData.rating p) (PlaceData.hours p)
    (PlaceData.website p) (PlaceData.tel p) (PlaceData.verified p)
    (PlaceData.popularity p).

Definition with_rating (r : option Qc) (p : PlaceData.t) : PlaceData.t :=
  PlaceData.mk (PlaceData.fsq_id p) (PlaceData.name p)
    (PlaceData.categories p) (PlaceData.location p) r (PlaceData.hours p)
    (PlaceData.website p) (PlaceData.tel p) (PlaceData.verified p)
    (PlaceData.popularity p).

(** The settings [s] with other excluded categories, and with another
    rating threshold. *)
Definition with_exclude_categories (cs : list string)
    (s : MonitoringSettings.t) : MonitoringSettings.t :=
  MonitoringSettings.mk (MonitoringSettings.id s)
    (MonitoringSettings.business_name s)
    (MonitoringSettings.business_location_lat s)
    (MonitoringSettings.business_location_lng s)
    (MonitoringSettings.monitoring_radius s)
    (MonitoringSettings.scan_interval_minutes s)
    (MonitoringSettings.categories_to_monitor s) cs
    (MonitoringSettings.min_rating_threshold s)
    (MonitoringSettings.notify_new_businesses s)
    (MonitoringSettings.notify_rating_changes s)
    (MonitoringSettings.notify_trending s) (MonitoringSettings.status s)
    (MonitoringSettings.created_at s) (MonitoringSettings.updated_at s).

Definition with_min_rating_threshold (t : option Qc)
    (s : MonitoringSettings.t) : MonitoringSettings.t :=
  MonitoringSettings.mk (MonitoringSettings.id s)
    (MonitoringSettings.business_name s)
    (MonitoringSettings.business_location_lat s)
    (MonitoringSettings.business_location_lng s)
    (MonitoringSettings.monitoring_radius s)
    (MonitoringSettings.scan_interval_minutes s)
    (MonitoringSettings.categories_to_monitor s)
    (MonitoringSettings.exclude_categories s) t
    (MonitoringSettings.notify_new_businesses s)
    (MonitoringSettings.notify_rating_changes s)
    (MonitoringSettings.notify_trending s) (MonitoringSettings.status s)
    (MonitoringSettings.created_at s) (MonitoringSettings.updated_at s).

(** A place and settings to try the code on. *)
Definition a_place : PlaceData.t :=
  PlaceData.mk "4b5a" "Corner Cafe" ["Cafe"] ∅ None None None None false
    None.

Definition some_settings : MonitoringSettings.t :=
  MonitoringSettings.mk (Some 1) "My Shop" 0%Qc 0%Qc 1000 60 [] [] None
    true true true ACTIVE 0 0.

(** The loop skips excluded places. *)
Definition not_excluded (settings : MonitoringSettings.t)
    (place : PlaceData.t) : Prop :=
  MonitoringService._should_exclude_business place settings = false.

#[global] Instance not_excluded_dec settings place :
  Decision (not_excluded settings place).
Proof. unfold not_excluded. apply _. Defined.

(** A place rated 0.0, and settings that ask for a rating of 3.0. *)
Definition unrated_place : PlaceData.t := with_rating (Some 0%Qc) a_place.

Definition demanding_settings : MonitoringSettings.t :=
  with_min_rating_threshold (Some (Q2Qc 3)) some_settings.

(** The rows of the businesses table. *)
Definition businesses_of (w : World) : list Business.t :=
  DatabaseManager.businesses (db w).

(** The preconditions of [BackgroundMonitor.start]: the store holds
    monitoring settings and their status is [ACTIVE]. *)
Definition startable (w : World) : Prop :=
  match DatabaseManager.get_monitoring_settings (db w) with
  | Some settings => MonitoringSettings.status settings = ACTIVE
  | None => False
  end.

(** A clock at rest, an empty world, and a world whose only settings are
    paused. *)
Definition clock0 : Clock := mkClock 0 [].

Definition empty_world : World :=
  mkWorld DatabaseManager.empty clock0 [] 0 [].

Definition paused_settings : MonitoringSettings.t :=
  MonitoringSettings.mk (Some 1) "My Shop" 0%Qc 0%Qc 1000 60 [] [] None
    true true true PAUSED 0 0.

Definition paused_world : World :=
  mkWorld (DatabaseManager.mk [] [paused_settings] [] []) clock0 [] 0 [].

(** What [_make_request] returns on an answer that ends the call. *)
Definition returned {Body} (answer : HttpOutcome Body) : option Body :=
  match answer with
  | Response 200 json => json
  | _ => None
  end.

(** The answer is a response with status 429. *)
Definition is_429 {Body} (answer : HttpOutcome Body) : bool :=
  match answer with
  | Response status_code _ => bool_decide (status_code = 429)
  | RequestException _ => false
  end.

(** A single retry, in the words of the specification: a call that
    starts with a 429 makes no more than two attempts, and fails when the
    second answer is a 429 too. *)
Definition retries_once {Body} (server : nat → HttpOutcome Body)
    (endpoint : string) (params : list (string * string))
    (self : FoursquareClient.t) : Prop :=
  is_429 (server (length (FoursquareClient.sent self))) = true →
  ∀ fuel r self',
    FoursquareClient._make_request server fuel endpoint params self
    = (Some r, self') →
    (length (FoursquareClient.sent self')
     ≤ length (FoursquareClient.sent self) + 2)%nat
    ∧ (is_429 (server (S (length (FoursquareClient.sent self)))) = true →
       r = None).

(** A server that answers 429 twice and then 200 with a body. *)
Definition busy_twice (k : nat) : HttpOutcome string :=
  if (k <? 2)%nat then Response 429 None else Response 200 (Some "ok").

(** A server that answers 429 for ever. *)
Definition always_busy (k : nat) : HttpOutcome string := Response 429 None.

(** The client after an attempt that was answered 429: the limiter has
    pruned and recorded, the request is in the log, and the client has
    slept 60 seconds (another 60 before the GET when the limiter said
    no). *)
Definition after_busy (endpoint : string) (params : list (string * string))
    (self : FoursquareClient.t) : FoursquareClient.t :=
  let '(now, c) := tick (FoursquareClient.clock self) in
  let '(ok, rl) :=
    RateLimiter.can_make_request now (FoursquareClient.rate_limiter self) in
  let '(c, naps) :=
    if ok then (c, FoursquareClient.slept self)
    else (sleep 60 c, FoursquareClient.slept self ++ [60]) in
  let '(now, c) := tick c in
  FoursquareClient.mk (RateLimiter.record_request now rl) (sleep 60 c)
    (FoursquareClient.sent self ++ [(endpoint, params)]) (naps ++ [60]).

(** The rows of the scan history and of the notifications table. *)
Definition history_of (w : World) : list ScanHistory.t :=
  DatabaseManager.scan_history (db w).

Definition notifications_of (w : World) : list Notification.t :=
  DatabaseManager.notifications (db w).

(** The row that [save_scan_history] writes for a record: the record with
    the two columns the database fills in. *)
Definition is_row_of (scan : ScanHistory.t) (row : ScanHistory.t) : Prop :=
  ∃ rowid current_timestamp,
    row = ScanHistory.set_scan_timestamp current_timestamp
            (ScanHistory.set_id (Some rowid) scan).

(** The world in which the [try] block of [perform_scan] starts: the
    clock has been read for [start_time] and for the timestamp of the
    record. *)
Definition scan_start (w : World) : World :=
  set_clock (ScanHistory.init (tick (clock w)).2).2 w.

(** The invariant of the timestamps, and the form that a scan keeps:
    the business was first seen no later than it was last updated, and
    was not updated later than the clock has come. *)
Definition ordered (b : Business.t) : Prop :=
  Business.first_seen b ≤ Business.last_updated b.

Definition timely (now : Z) (b : Business.t) : Prop :=
  Business.first_seen b ≤ Business.last_updated b
  ∧ Business.last_updated b ≤ now.

Definition all_timely (w : World) : Prop :=
  ∀ b, b ∈ businesses_of w → timely (elapsed (clock w)) b.

(** A sequence of scans, each with its settings and with what the fetch
    yields, run one after the other. *)
Definition run_scans
    (scans : list (MonitoringSettings.t * result (list PlaceData.t)))
    (w : World) : World :=
  fold_left (λ w scan, (MonitoringService.perform_scan scan.1 scan.2 w).2)
            scans w.

(** A world with an empty database. *)
Definition fresh_world (c : Clock) : World :=
  mkWorld DatabaseManager.empty c [] 0 [].

(** Two scans in a row with the same settings and the same fetched
    places: the second reports no new and no updated business. *)
Definition second_scan_finds_nothing (settings : MonitoringSettings.t)
    (places : list PlaceData.t) (w : World) : Prop :=
  let r1 := MonitoringService.perform_scan settings (Return places) w in
  let r2 := MonitoringService.perform_scan settings (Return places) r1.2 in
  ScanHistory.new_businesses r2.1 = 0%nat
  ∧ ScanHistory.updated_businesses r2.1 = 0%nat.

(** The place [p] under another name. *)
Definition with_name (n : string) (p : PlaceData.t) : PlaceData.t :=
  PlaceData.mk (PlaceData.fsq_id p) n (PlaceData.categories p)
    (PlaceData.location p) (PlaceData.rating p) (PlaceData.hours p)
    (PlaceData.website p) (PlaceData.tel p) (PlaceData.verified p)
    (PlaceData.popularity p).

(** Another place to try the code on. *)
Definition another_place : PlaceData.t :=
  PlaceData.mk "4c7d" "Book Shop" ["Bookstore"]
    {[ "latitude" := PyNum (Q2Qc 40); "address" := PyStr "1 Main St" ]}
    (Some (Q2Qc (45 # 10))) None None (Some "555-0100") true
    (Some (Q2Qc (8 # 10))).

(** No identifier is fetched twice with different data: two of the places
    with one identifier are the same record. *)
Definition unambiguous (places : list PlaceData.t) : Prop :=
  Forall (λ p, Forall (λ q, PlaceData.fsq_id p = PlaceData.fsq_id q → p = q)
                      places)
         places.

(** The places that the loop does not pass over. *)
Definition scanned (settings : MonitoringSettings.t)
    (places : list PlaceData.t) : list PlaceData.t :=
  filter (not_excluded settings) places.

(** The database has nothing to learn from the place: it is passed over,
    or a business is stored under its identifier that the place would
    not change. *)
Definition settled (settings : MonitoringSettings.t) (rows : list Business.t)
    (place : PlaceData.t) : Prop :=
  MonitoringService._should_exclude_business place settings = true
  ∨ ∃ b, find (λ r, bool_decide (Business.fsq_id r = PlaceData.fsq_id place))
              rows = Some b
         ∧ changed_flag b place = false.

(** ** Further notions *)

(** The identifiers of the rows of the businesses table. *)
Definition business_ids (w : World) : list string :=
  Business.fsq_id <$> businesses_of w.

(** A place object has what the client needs of it: an identifier, a
    name, and a name for each of its categories. *)
Definition well_formed (result : RawResult.t) : Prop :=
  is_Some (RawResult.fsq_id result)
  ∧ is_Some (RawResult.name result)
  ∧ Forall is_Some (default [] (RawResult.categories result)).

#[global] Instance well_formed_dec result : Decision (well_formed result).
Proof. unfold well_formed. apply _. Defined.

(** Some category of the place contains some monitored category. *)
Definition category_monitored (place : PlaceData.t)
    (settings : MonitoringSettings.t) : Prop :=
  ∃ category monitored,
    category ∈ PlaceData.categories place
    ∧ monitored ∈ MonitoringSettings.categories_to_monitor settings
    ∧ contains_ci monitored category.

(** The notifications that [_generate_notifications] is to write: one for
    each new competitor when new businesses are to be notified, then one
    for each updated business when changes are. *)
Definition to_notify (new_bs updated_bs : list Business.t)
    (settings : MonitoringSettings.t) : list (NotificationType * Business.t) :=
  (if MonitoringSettings.notify_new_businesses settings
   then (λ b, (NEW_BUSINESS, b))
          <$> filter (λ b, Business.is_competitor b = true) new_bs
   else [])
  ++ (if MonitoringSettings.notify_rating_changes settings
      then (λ b, (BUSINESS_UPDATED, b)) <$> updated_bs
      else []).

(** What a stored notification says of the business it is about. *)
Definition notified (n : Notification.t)
    : NotificationType * option string * option string :=
  (Notification.type n, Notification.business_fsq_id n,
   Notification.business_name n).

(** The ids of the notifications are 1, 2, ... in the order of the rows,
    as [AUTOINCREMENT] gives them. *)
Definition sequential_ids (rows : list Notification.t) : Prop :=
  ∀ i row, rows !! i = Some row → Notification.id row = Some (Z.of_nat i + 1).

(** The coordinates of every stored business are numbers. *)
Definition numeric_coordinates (db : DatabaseManager.t) : Prop :=
  ∀ b, b ∈ DatabaseManager.businesses db →
    ∃ x y, Location.latitude (Business.location b) = PyNum x
           ∧ Location.longitude (Business.location b) = PyNum y.

(** The box of [get_businesses_within_radius] around a point. *)
Definition inside_box (lat lng radius_km : Qc) (b : Business.t) : Prop :=
  ∃ x y,
    Location.latitude (Business.location b) = PyNum x
    ∧ Location.longitude (Business.location b) = PyNum y
    ∧ (lat - radius_km / Q2Qc 111 ≤ x)%Qc
    ∧ (x ≤ lat + radius_km / Q2Qc 111)%Qc
    ∧ (lng - radius_km / (Q2Qc 111 * DatabaseManager.float_abs lat) ≤ y)%Qc
    ∧ (y ≤ lng + radius_km / (Q2Qc 111 * DatabaseManager.float_abs lat))%Qc.

(** What can be done with a background monitor and its store, one call
    after the other. *)
Inductive MonitorCall :=
  | CallStart
  | CallStop
  | CallRestart
  | CallUpdateSettings (new_settings : MonitoringSettings.t)
  | CallSaveSettings (settings : MonitoringSettings.t)
  | CallScheduledScan (search_nearby : result (list PlaceData.t))
  | CallManualScan (search_nearby : result (list PlaceData.t)).

Definition monitor_call (call : MonitorCall)
    (st : BackgroundMonitor.t * World) : BackgroundMonitor.t * World :=
  let '(self, w) := st in
  match call with
  | CallStart => let '(_, self, w) := BackgroundMonitor.start self w in (self, w)
  | CallStop => BackgroundMonitor.stop self w
  | CallRestart =>
    let '(_, self, w) := BackgroundMonitor.restart self w in (self, w)
  | CallUpdateSettings new_settings =>
    BackgroundMonitor.update_settings new_settings self w
  | CallSaveSettings settings =>
    let '(now, c) := tick (clock w) in
    (self,
     set_db (DatabaseManager.save_monitoring_settings now settings (db w)).2
            (set_clock c w))
  | CallScheduledScan search_nearby =>
    (self, BackgroundMonitor.run_scheduled_scan search_nearby self w)
  | CallManualScan search_nearby =>
    let '(_, self, w) :=
      BackgroundMonitor.run_manual_scan search_nearby self w in
    (self, w)
  end.

Definition monitor_calls (calls : list MonitorCall)
    (st : BackgroundMonitor.t * World) : BackgroundMonitor.t * World :=
  fold_left (λ st call, monitor_call call st) calls st.

(** The monitor and the registry of jobs agree: a running monitor has
    cached active settings and the one job of their interval, a stopped
    one has no job. *)
Definition scheduled (st : BackgroundMonitor.t * World) : Prop :=
  if BackgroundMonitor.is_running st.1 then
    ∃ settings,
      BackgroundMonitor.current_settings st.1 = Some settings
      ∧ MonitoringSettings.status settings = ACTIVE
      ∧ jobs st.2 = [MonitoringSettings.scan_interval_minutes settings]
  else jobs st.2 = [].

(** The titles of the stored notifications. *)
Definition titles_of (w : World) : list string :=
  Notification.title <$> notifications_of w.

(** Settings that were never saved: they have no id yet. *)
Definition unsaved_settings : MonitoringSettings.t :=
  MonitoringSettings.mk None "My Shop" 0%Qc 0%Qc 1000 30 [] [] None
    true true true ACTIVE 0 0.


(** A client whose limiter allows one request in an hour and has one
    recorded, and servers that answer 200 with a body and that raise. *)
Definition spent_client : FoursquareClient.t :=
  FoursquareClient.mk (RateLimiter.mk 1 3600 [0]) (mkClock 10 []) [] [].

Definition always_ok (k : nat) : HttpOutcome string :=
  Response 200 (Some "ok").

Definition always_down (k : nat) : HttpOutcome string :=
  RequestException "connection refused".

(** The requests that the limiter of the client keeps when it is asked at
    the next reading of the clock. *)
Definition kept_requests (self : FoursquareClient.t) : list Z :=
  RateLimiter.requests
    (RateLimiter.can_make_request (tick (FoursquareClient.clock self)).1
       (FoursquareClient.rate_limiter self)).2.

(** A server of searches that is out of order. *)
Definition search_down (k : nat) : HttpOutcome SearchBody :=
  Response 500 None.

(** From [w] to [w'] the notifications [added] were stored and nothing
    else of the store, the schedule, the threads or the desktop has
    changed. *)
Definition notes_added (w w' : World) (added : list Notification.t) : Prop :=
  notifications_of w' = notifications_of w ++ added
  ∧ businesses_of w' = businesses_of w
  ∧ history_of w' = history_of w
  ∧ DatabaseManager.monitoring_settings (db w')
    = DatabaseManager.monitoring_settings (db w)
  ∧ jobs w' = jobs w ∧ threads w' = threads w ∧ desktop w' = desktop w.

(** The rows have the ids that follow [k] rows. *)
Definition numbered_from (k : nat) (rows : list Notification.t) : Prop :=
  ∀ i row, rows !! i = Some row →
    Notification.id row = Some (Z.of_nat (k + i) + 1).

(** The notification is of the given type, about the given business, and
    neither read nor dismissed. *)
Definition tells (n : Notification.t) (tb : NotificationType * Business.t)
    : Prop :=
  notified n = (tb.1, Some (Business.fsq_id tb.2), Some (Business.name tb.2))
  ∧ Notification.read n = false
  ∧ Notification.dismissed n = false.

(** [b'] is a later state of the stored business [b]: what no scan
    writes is as it was. *)
Definition continues (b b' : Business.t) : Prop :=
  Business.fsq_id b' = Business.fsq_id b
  ∧ Business.first_seen b' = Business.first_seen b
  ∧ Business.is_competitor b' = Business.is_competitor b
  ∧ Business.notes b' = Business.notes b
  ∧ Business.hours b' = Business.hours b.

(** A business as a scan stores it, and a world whose database holds
    it. *)
Definition stored_business : Business.t :=
  (Business.init "4b5a" "Corner Cafe" ["Cafe"]
     (Location.mk (PyNum 0%Qc) (PyNum 0%Qc) PyNone PyNone PyNone PyNone
        PyNone)
     None None None None false None None None true None clock0).1.

Definition stored_world : World :=
  mkWorld (DatabaseManager.mk [stored_business] [] [] []) clock0 [] 0 [].

(** A monitor that runs on the settings [some_settings], and a world
    whose database holds them and whose schedule has their job. *)
Definition running_monitor : BackgroundMonitor.t :=
  BackgroundMonitor.mk (NotificationService.mk true) (Some 0%nat) false true
    (Some some_settings) true.

Definition active_world : World :=
  mkWorld (DatabaseManager.mk [] [some_settings] [] []) clock0 [60] 1 [].

(** The settings that a manual scan uses: the cached ones, and the stored
    ones when none are cached. *)
Definition manual_settings (self : BackgroundMonitor.t) (w : World)
    : option MonitoringSettings.t :=
  match BackgroundMonitor.current_settings self with
  | Some settings => Some settings
  | None => DatabaseManager.get_monitoring_settings (db w)
  end.

(** * Properties *)

(** ** Business.update_from_api_data *)

Lemma tick_elapsed c : elapsed (tick c).2 = (tick c).1.
Proof. reflexivity. Qed.

Lemma tick_mono c : elapsed c ≤ (tick c).1.
Proof. unfold tick; simpl. lia. Qed.

Lemma tick_inv c now c' :
  tick c = (now, c') → elapsed c ≤ now ∧ elapsed c' = now.
Proof. unfold tick. intros [= <- <-]. simpl. lia. Qed.

(** A conditional assignment is the assignment, and the flag records
    whether the value was new. *)
Lemma assign_if_changed_eq {A} `{EqDecision A} (get : Business.t → A)
    (new : A) (set : A → Business.t → Business.t) (b : Business.t)
    (f : bool) :
  set (get b) b = b →
  Business.assign_if_changed get new set (b, f)
  = (set new b, f || bool_decide (get b ≠ new)).
Proof.
  intros Hid. unfold Business.assign_if_changed. simpl.
  case_bool_decide as Hne.
  - by rewrite orb_true_r.
  - subst new. by rewrite Hid, orb_false_r.
Qed.

Lemma assign_categories_eq (new : list string) (b : Business.t) (f : bool) :
  Business.assign_categories new (b, f)
  = (if bool_decide ((list_to_set (Business.categories b) : gset string)
                     ≠ list_to_set new)
     then Business.set_categories new b else b,
     f || bool_decide ((list_to_set (Business.categories b) : gset string)
                       ≠ list_to_set new)).
Proof.
  unfold Business.assign_categories. simpl.
  case_bool_decide; by rewrite ?orb_true_r, ?orb_false_r.
Qed.

Lemma assign_location_eq (d : gmap string pyval) (b : Business.t)
    (f : bool) :
  Business.assign_location d (b, f)
  = (if dict_truthy d
     then Business.set_location (Business.new_location b d) b else b,
     f || (dict_truthy d
           && bool_decide (Business.new_location b d ≠ Business.location b))).
Proof.
  unfold Business.assign_location. destruct (dict_truthy d); simpl.
  - case_bool_decide as Hne; rewrite ?orb_true_r, ?orb_false_r; [done|].
    rewrite Hne. by destruct b.
  - by rewrite orb_false_r.
Qed.

Lemma update_from_api_data_unfold (b : Business.t) (p : PlaceData.t)
    (c : Clock) :
  Business.update_from_api_data b p c
  = if changed_flag b p
    then ((true, Business.set_last_updated (tick c).1 (merged b p)),
          (tick c).2)
    else ((false, merged b p), c).
Proof.
  unfold Business.update_from_api_data.
  rewrite (assign_if_changed_eq _ _ Business.set_name) by (by destruct b).
  rewrite (assign_if_changed_eq _ _ Business.set_rating) by (by destruct b).
  rewrite (assign_if_changed_eq _ _ Business.set_popularity)
    by (by destruct b).
  rewrite (assign_if_changed_eq _ _ Business.set_verified)
    by (by destruct b).
  rewrite (assign_if_changed_eq _ _ Business.set_website) by (by destruct b).
  rewrite (assign_if_changed_eq _ _ Business.set_phone) by (by destruct b).
  rewrite assign_categories_eq, assign_location_eq.
  destruct b as [i n cs l r h w ph v po fs lu ic no].
  unfold changed_flag, merged, fetched_location, categories_differ.
  cbn -[tick].
  destruct (decide ((list_to_set cs : gset string)
                    ≠ list_to_set (PlaceData.categories p))) as [Hc|Hc];
    [rewrite ?(bool_decide_eq_true_2 _ Hc)
    |rewrite ?(bool_decide_eq_false_2 _ Hc)];
    destruct (dict_truthy (PlaceData.location p)); cbn -[tick];
    rewrite ?orb_false_r; by destruct (tick c).
Qed.

Lemma changed_flag_differs (b : Business.t) (p : PlaceData.t) :
  changed_flag b p = true ↔ differs b p.
Proof.
  unfold changed_flag, differs, fetched_location.
  rewrite !orb_true_iff, andb_true_iff, !bool_decide_eq_true.
  destruct (dict_truthy (PlaceData.location p)).
  - split; [|intros H; decompose [or] H; clear H; try tauto].
    + intros H; decompose [or and] H; clear H; try tauto.
      do 7 right. eauto.
    + destruct H0 as (l & [= <-] & Hne). tauto.
  - split; [intros H; decompose [or and] H; clear H; try tauto; done|].
    intros H; decompose [or] H; clear H; try tauto.
    by destruct H0 as (l & [=] & _).
Qed.

Lemma merged_id (b : Business.t) (p : PlaceData.t) :
  changed_flag b p = false → merged b p = b.
Proof.
  unfold changed_flag, merged, fetched_location.
  rewrite !orb_false_iff, andb_false_iff, !bool_decide_eq_false.
  intros (((((((Hn & Hr) & Hp) & Hv) & Hw) & Hph) & Hc) & Hl).
  apply dec_stable in Hn, Hr, Hp, Hv, Hw, Hph.
  rewrite decide_False by done.
  destruct b as [i n cs l r h w ph v po fs lu ic no]; simpl in *. subst.
  f_equal. destruct Hl as [->| Hl]; [done|].
  destruct (dict_truthy _); [|done]. simpl. by apply dec_stable in Hl.
Qed.

(** C1. [_update_existing_business] is [update_from_api_data], which
    returns true exactly when a mutable field
    (name, rating, popularity, verified, website, phone, the categories
    as a set, the location) differs from the fetched one.  When it
    returns true every such field holds the fetched value (the category
    list is replaced when the sets differ), [last_updated] is the reading
    of the clock, and [first_seen] and the fields the API does not carry
    are as they were; when it returns false the business and the clock
    are as they were. *)
Theorem update_from_api_data_spec (b : Business.t) (p : PlaceData.t)
    (c : Clock) :
  let r := Business.update_from_api_data b p c in
  let b' := r.1.2 in
  (∀ settings,
     MonitoringService._update_existing_business b p settings c = r)
  ∧ (r.1.1 = true ↔ differs b p)
  ∧ if r.1.1 then
      Business.name b' = PlaceData.name p
      ∧ Business.rating b' = PlaceData.rating p
      ∧ Business.popularity b' = PlaceData.popularity p
      ∧ Business.verified b' = PlaceData.verified p
      ∧ Business.website b' = PlaceData.website p
      ∧ Business.phone b' = PlaceData.tel p
      ∧ Business.categories b'
        = (if decide (categories_differ b p) then PlaceData.categories p
           else Business.categories b)
      ∧ Business.location b'
        = default (Business.location b) (fetched_location b p)
      ∧ Business.last_updated b' = (tick c).1
      ∧ r.2 = (tick c).2
      ∧ Business.first_seen b' = Business.first_seen b
      ∧ Business.fsq_id b' = Business.fsq_id b
      ∧ Business.hours b' = Business.hours b
      ∧ Business.is_competitor b' = Business.is_competitor b
      ∧ Business.notes b' = Business.notes b
    else b' = b ∧ r.2 = c.
Proof.
  cbv zeta. split; [done|]. rewrite update_from_api_data_unfold.
  pose proof (changed_flag_differs b p) as Hiff.
  pose proof (merged_id b p) as Hid.
  destruct (changed_flag b p); cbn -[tick].
  - split; [done|]. by repeat split.
  - split; [by rewrite <- Hiff|]. by rewrite Hid.
Qed.

(** ** RateLimiter *)

Lemma can_make_request_requests now self :
  RateLimiter.requests (RateLimiter.can_make_request now self).2
  = filter (in_window (RateLimiter.time_window self) now)
           (RateLimiter.requests self).
Proof. reflexivity. Qed.

Lemma can_make_request_answer now self :
  (RateLimiter.can_make_request now self).1
  = bool_decide
      (Z.of_nat (length (filter (in_window (RateLimiter.time_window self) now)
                                (RateLimiter.requests self)))
       < RateLimiter.max_requests self).
Proof. reflexivity. Qed.

Lemma can_make_request_time_window now self :
  RateLimiter.time_window (RateLimiter.can_make_request now self).2
  = RateLimiter.time_window self.
Proof. reflexivity. Qed.

Lemma in_window_later window now now' req_time :
  now ≤ now' → in_window window now' req_time →
  in_window window now req_time.
Proof. unfold in_window. lia. Qed.

Lemma filter_filter_window window now now' (l : list Z) :
  now ≤ now' →
  filter (in_window window now') (filter (in_window window now) l)
  = filter (in_window window now') l.
Proof.
  intros Hle. induction l as [|x l IH]; [done|].
  rewrite !filter_cons.
  destruct (decide (in_window window now x)) as [Hx|Hx].
  - rewrite filter_cons. case_decide; by rewrite IH.
  - rewrite decide_False; [done|]. eauto using in_window_later.
Qed.

(** Pruning loses nothing that a later reading would still count: what
    the limiter remembers and what was ever recorded agree inside every
    later window. *)
Lemma limiter_run_window calls : ∀ now self rec,
  (∀ now', now ≤ now' →
     filter (in_window (RateLimiter.time_window self) now')
            (RateLimiter.requests self)
     = filter (in_window (RateLimiter.time_window self) now') rec) →
  let r := limiter_run calls now self in
  RateLimiter.max_requests r.1 = RateLimiter.max_requests self
  ∧ RateLimiter.time_window r.1 = RateLimiter.time_window self
  ∧ now ≤ r.2
  ∧ ∀ now', r.2 ≤ now' →
      filter (in_window (RateLimiter.time_window self) now')
             (RateLimiter.requests r.1)
      = filter (in_window (RateLimiter.time_window self) now')
               (rec ++ recorded calls now).
Proof.
  induction calls as [|[d [|]] calls IH]; intros now self rec Hinv; simpl.
  - rewrite app_nil_r. repeat split; [lia|done].
  - edestruct (IH (now + Z.of_N d)
                 (RateLimiter.can_make_request (now + Z.of_N d) self).2 rec)
      as (Hm & Hw & Hle & Hf).
    { intros now' Hle.
      rewrite can_make_request_time_window, can_make_request_requests.
      rewrite filter_filter_window by done. apply Hinv. lia. }
    simpl in *. repeat split; [done|done|lia|done].
  - edestruct (IH (now + Z.of_N d)
                 (RateLimiter.record_request (now + Z.of_N d) self)
                 (rec ++ [now + Z.of_N d]))
      as (Hm & Hw & Hle & Hf).
    { intros now' Hle. simpl. rewrite !filter_app.
      f_equal. apply Hinv. lia. }
    simpl in *. repeat split; [done|done|lia|].
    intros now' Hnow'. rewrite Hf by done. by rewrite <- app_assoc.
Qed.

Lemma limiter_run_answer calls max_requests time_window start (d : N) :
  let r := limiter_run calls start
             (RateLimiter.init max_requests time_window) in
  let now := r.2 + Z.of_N d in
  (RateLimiter.can_make_request now r.1).1
  = bool_decide
      (Z.of_nat (length (filter (in_window time_window now)
                                (recorded calls start)))
       < max_requests).
Proof.
  cbv zeta.
  destruct (limiter_run_window calls start
              (RateLimiter.init max_requests time_window) [])
    as (Hm & Hw & Hle & Hf); [done|].
  rewrite can_make_request_answer, Hm, Hw. simpl.
  by rewrite Hf by lia.
Qed.

Lemma can_make_request_length now self :
  (length (RateLimiter.requests (RateLimiter.can_make_request now self).2)
   ≤ length (RateLimiter.requests self))%nat.
Proof. rewrite can_make_request_requests. apply length_filter. Qed.

Lemma record_request_length now self :
  length (RateLimiter.requests (RateLimiter.record_request now self))
  = S (length (RateLimiter.requests self)).
Proof. simpl. rewrite length_app. simpl. lia. Qed.

Lemma can_make_request_few now self :
  Z.of_nat (length (RateLimiter.requests self))
  < RateLimiter.max_requests self →
  (RateLimiter.can_make_request now self).1 = true.
Proof.
  intros Hlt. rewrite can_make_request_answer.
  apply bool_decide_eq_true_2.
  pose proof (length_filter (in_window (RateLimiter.time_window self) now)
                (RateLimiter.requests self)).
  lia.
Qed.

(** C7. [can_make_request] keeps exactly the recorded requests that are
    younger than the window, in their order, and answers whether fewer
    than the cap are left.  Over any run of calls from a fresh limiter it
    therefore answers whether fewer than the cap of all the requests ever
    recorded are younger than the window.  With a cap of 3 and a window
    of 60, three requests are each permitted, and a fourth is permitted
    exactly once 60 seconds have passed since the first. *)
Theorem rate_limiter_spec :
  (∀ now self,
     let r := RateLimiter.can_make_request now self in
     RateLimiter.requests r.2
     = filter (λ req_time, now - req_time < RateLimiter.time_window self)
              (RateLimiter.requests self)
     ∧ (∀ req_time,
          req_time ∈ RateLimiter.requests r.2
          ↔ req_time ∈ RateLimiter.requests self
            ∧ ¬ (RateLimiter.time_window self ≤ now - req_time))
     ∧ r.1 = bool_decide (Z.of_nat (length (RateLimiter.requests r.2))
                          < RateLimiter.max_requests self)
     ∧ RateLimiter.max_requests r.2 = RateLimiter.max_requests self
     ∧ RateLimiter.time_window r.2 = RateLimiter.time_window self)
  ∧ (∀ calls max_requests time_window start (d : N),
       let r := limiter_run calls start
                  (RateLimiter.init max_requests time_window) in
       let now := r.2 + Z.of_N d in
       (RateLimiter.can_make_request now r.1).1
       = bool_decide
           (Z.of_nat (length (filter (in_window time_window now)
                                     (recorded calls start)))
            < max_requests))
  ∧ (∀ (t1 : Z) (d1 d2 d3 : N),
       let t2 := t1 + Z.of_N d1 in
       let t3 := t2 + Z.of_N d2 in
       let t4 := t3 + Z.of_N d3 in
       let a1 := RateLimiter.can_make_request t1 (RateLimiter.init 3 60) in
       let a2 := RateLimiter.can_make_request t2
                   (RateLimiter.record_request t1 a1.2) in
       let a3 := RateLimiter.can_make_request t3
                   (RateLimiter.record_request t2 a2.2) in
       let a4 := RateLimiter.can_make_request t4
                   (RateLimiter.record_request t3 a3.2) in
       a1.1 = true ∧ a2.1 = true ∧ a3.1 = true
       ∧ a4.1 = bool_decide (60 ≤ t4 - t1)).
Proof.
  split; [|split].
  - intros now self. cbv zeta. split; [reflexivity|].
    split; [|by repeat split].
    intros req_time.
    rewrite can_make_request_requests, list_elem_of_filter.
    unfold in_window. split; intros [? ?]; split; (done || lia).
  - apply limiter_run_answer.
  - intros t1 d1 d2 d3. cbv zeta.
    set (rl1 := RateLimiter.record_request t1 _).
    set (rl2 := RateLimiter.record_request (t1 + Z.of_N d1) _).
    set (rl3 := RateLimiter.record_request (t1 + Z.of_N d1 + Z.of_N d2) _).
    assert (H1 : (length (RateLimiter.requests rl1) ≤ 1)%nat).
    { unfold rl1. rewrite record_request_length.
      pose proof (can_make_request_length t1 (RateLimiter.init 3 60)).
      simpl in *. lia. }
    assert (H2 : (length (RateLimiter.requests rl2) ≤ 2)%nat).
    { unfold rl2. rewrite record_request_length.
      pose proof (can_make_request_length (t1 + Z.of_N d1) rl1). lia. }
    split; [by apply can_make_request_few|].
    split;
      [apply can_make_request_few;
       change (RateLimiter.max_requests rl1) with 3; lia|].
    split;
      [apply can_make_request_few;
       change (RateLimiter.max_requests rl2) with 3; lia|].
    pose proof (limiter_run_answer
                  [(0%N, CanMakeRequest); (0%N, RecordRequest);
                   (d1, CanMakeRequest); (0%N, RecordRequest);
                   (d2, CanMakeRequest); (0%N, RecordRequest)]
                  3 60 t1 d3) as Ha.
    cbn [limiter_run recorded fst snd] in Ha.
    change (Z.of_N 0) with 0 in Ha. rewrite !Z.add_0_r in Ha.
    fold rl1 in Ha. fold rl2 in Ha. fold rl3 in Ha. rewrite Ha.
    rewrite !filter_cons, filter_nil. unfold in_window.
    repeat case_decide; apply bool_decide_ext; simpl; lia.
Qed.

(** ** FoursquareClient.get_trending_places *)

Lemma is_trending_popular place :
  FoursquareClient.is_trending place = true ↔ popular place.
Proof.
  unfold FoursquareClient.is_trending, popular, float_truthy.
  destruct (PlaceData.popularity place) as [q|]; simpl.
  - rewrite andb_true_iff, negb_true_iff, bool_decide_eq_false,
      bool_decide_eq_true.
    split.
    + intros [_ Hlt]. eauto.
    + intros (q' & [= <-] & Hlt). split; [|done].
      intros ->. by apply Qclt_alt in Hlt.
  - split; [done|]. by intros (q & [=] & _).
Qed.

Lemma insert_desc_perm x l :
  Permutation (FoursquareClient.insert_desc x l) (x :: l).
Proof.
  induction l as [|y l IH]; simpl; [done|].
  case_bool_decide; [|done].
  rewrite IH. apply perm_swap.
Qed.

Lemma sorted_desc_perm l : Permutation (FoursquareClient.sorted_desc l) l.
Proof.
  induction l as [|x l IH]; simpl; [done|].
  rewrite insert_desc_perm. by constructor.
Qed.

Lemma pop_ge_trans x y z : pop_ge x y → pop_ge y z → pop_ge x z.
Proof. unfold pop_ge. intros. by etrans. Qed.

Lemma insert_desc_sorted x l :
  StronglySorted pop_ge l →
  StronglySorted pop_ge (FoursquareClient.insert_desc x l).
Proof.
  induction 1 as [|y l Hl IH Hy]; simpl.
  - repeat constructor.
  - case_bool_decide as Hlt.
    + constructor; [done|].
      rewrite Forall_forall. intros z Hz.
      rewrite insert_desc_perm in Hz.
      apply elem_of_cons in Hz as [->|Hz].
      * unfold pop_ge. by apply Qclt_le_weak.
      * rewrite Forall_forall in Hy. by apply Hy.
    + apply Qcnot_lt_le in Hlt.
      constructor; [by constructor|].
      constructor; [done|].
      eapply Forall_impl; [exact Hy|].
      intros z Hz. by eapply pop_ge_trans.
Qed.

Lemma sorted_desc_sorted l :
  StronglySorted pop_ge (FoursquareClient.sorted_desc l).
Proof.
  induction l as [|x l IH]; simpl; [constructor|].
  by apply insert_desc_sorted.
Qed.

(** The sort is stable: the places of one popularity keep their order. *)
Lemma insert_desc_stable (k : Qc) x l :
  filter (λ y, FoursquareClient.sort_key y = k)
         (FoursquareClient.insert_desc x l)
  = filter (λ y, FoursquareClient.sort_key y = k) (x :: l).
Proof.
  induction l as [|y l IH]; [done|].
  cbn [FoursquareClient.insert_desc].
  case_bool_decide as Hlt; [|done].
  rewrite filter_cons, IH, !filter_cons.
  destruct (decide (FoursquareClient.sort_key y = k)) as [Hy|Hy];
    destruct (decide (FoursquareClient.sort_key x = k)) as [Hx|Hx];
    try done.
  rewrite Hx, Hy in Hlt. by apply Qclt_not_eq in Hlt.
Qed.

Lemma sorted_desc_stable (k : Qc) l :
  filter (λ y, FoursquareClient.sort_key y = k)
         (FoursquareClient.sorted_desc l)
  = filter (λ y, FoursquareClient.sort_key y = k) l.
Proof.
  induction l as [|x l IH]; [done|].
  cbn [FoursquareClient.sorted_desc foldr].
  rewrite insert_desc_stable, !filter_cons.
  fold (FoursquareClient.sorted_desc l). by rewrite IH.
Qed.

Lemma StronglySorted_app_cross {A} (R : A → A → Prop) (l1 l2 : list A) :
  StronglySorted R (l1 ++ l2) →
  StronglySorted R l1 ∧ ∀ x y, x ∈ l1 → y ∈ l2 → R x y.
Proof.
  induction l1 as [|a l1 IH]; simpl; intros Hs.
  - split; [constructor|]. intros x y Hx. by apply elem_of_nil in Hx.
  - inversion Hs as [|? ? Hs' Ha]; subst.
    destruct (IH Hs') as [Hl1 Hc]. split.
    + constructor; [done|]. rewrite Forall_app in Ha. tauto.
    + intros x y Hx Hy. apply elem_of_cons in Hx as [->|Hx]; [|by eauto].
      rewrite Forall_forall in Ha. apply Ha.
      apply elem_of_app. by right.
Qed.

Lemma filter_trending_popular (places : list PlaceData.t) :
  filter (λ place, FoursquareClient.is_trending place) places
  = filter popular places.
Proof.
  apply list_filter_iff. intros x. rewrite <- is_trending_popular.
  apply Is_true_true.
Qed.

(** C5. [get_trending_places] returns places that were fetched and whose
    popularity is present and above 0.7, at most 10 of them and all of
    them when there are no more than 10, in descending order of
    popularity; the places left out are no more popular than any
    returned one, and places of one popularity keep the order in which
    they were fetched.  On four places of popularity 0.9, 0.8, 0.6 and 0.5
    it returns the first two, in that order, also when they are fetched
    in another order. *)
Theorem get_trending_places_spec :
  (∀ places : list PlaceData.t,
     let r := FoursquareClient.get_trending_places places in
     (∀ x, x ∈ r → x ∈ places ∧ popular x)
     ∧ StronglySorted pop_ge r
     ∧ length r = Nat.min 10 (length (filter popular places))
     ∧ (∃ rest, Permutation (r ++ rest) (filter popular places)
                ∧ ∀ x y, x ∈ r → y ∈ rest → pop_ge x y)
     ∧ (∀ k, filter (λ y, FoursquareClient.sort_key y = k) r
             `prefix_of` filter (λ y, FoursquareClient.sort_key y = k)
                                (filter popular places)))
  ∧ (∀ p1 p2 p3 p4,
       FoursquareClient.get_trending_places
         [with_popularity (Q2Qc (9 # 10)) p1;
          with_popularity (Q2Qc (8 # 10)) p2;
          with_popularity (Q2Qc (6 # 10)) p3;
          with_popularity (Q2Qc (5 # 10)) p4]
       = [with_popularity (Q2Qc (9 # 10)) p1;
          with_popularity (Q2Qc (8 # 10)) p2])
  ∧ (∀ p1 p2 p3 p4,
       FoursquareClient.get_trending_places
         [with_popularity (Q2Qc (8 # 10)) p1;
          with_popularity (Q2Qc (6 # 10)) p2;
          with_popularity (Q2Qc (9 # 10)) p3;
          with_popularity (Q2Qc (5 # 10)) p4]
       = [with_popularity (Q2Qc (9 # 10)) p3;
          with_popularity (Q2Qc (8 # 10)) p1]).
Proof.
  split; [|split; intros; vm_compute; reflexivity].
  intros places. cbv zeta. unfold FoursquareClient.get_trending_places.
  rewrite filter_trending_popular.
  set (l := filter popular places).
  pose proof (sorted_desc_perm l) as Hperm.
  pose proof (sorted_desc_sorted l) as Hsorted.
  rewrite <- (take_drop 10 (FoursquareClient.sorted_desc l)) in Hperm, Hsorted.
  apply StronglySorted_app_cross in Hsorted as [Hs Hcross].
  repeat split.
  - apply (list_elem_of_filter popular places).
    fold l. rewrite <- Hperm. apply elem_of_app. by left.
  - apply (list_elem_of_filter popular places x).
    fold l. rewrite <- Hperm. apply elem_of_app. by left.
  - done.
  - rewrite length_take. f_equal. by rewrite sorted_desc_perm.
  - exists (drop 10 (FoursquareClient.sorted_desc l)). by split.
  - intros k. rewrite <- (sorted_desc_stable k l).
    rewrite <- (take_drop 10 (FoursquareClient.sorted_desc l)) at 2.
    rewrite filter_app. by apply prefix_app_r.
Qed.

(** ** MonitoringService._should_exclude_business *)

Lemma prefix_spec sub s :
  String.prefix sub s = true ↔ ∃ post, s = String.append sub post.
Proof.
  revert s. induction sub as [|a sub IH]; intros [|b s]; simpl.
  - split; [by exists ""|done].
  - split; [by exists (String b s)|done].
  - split; [done|]. by intros (post & [=]).
  - destruct (ascii_dec a b) as [->|Hne].
    + rewrite IH.
      split; intros (post & Heq); exists post;
        change (String b sub +:+ post) with (String b (sub +:+ post)) in *;
        congruence.
    + split; [done|]. intros (post & Heq).
      change (String a sub +:+ post) with (String a (sub +:+ post)) in Heq.
      congruence.
Qed.

Lemma str_in_spec sub s :
  str_in sub s = true
  ↔ ∃ pre post, s = String.append pre (String.append sub post).
Proof.
  induction s as [|b s IH]; cbn [str_in]; rewrite orb_true_iff, prefix_spec.
  - split.
    + intros [(post & Heq)|]; [|done]. by exists "", post.
    + intros (pre & post & Heq). left.
      destruct pre; [by exists post|done].
  - rewrite IH. split.
    + intros [(post & Heq)|(pre & post & ->)].
      * by exists "", post.
      * by exists (String b pre), post.
    + intros (pre & post & Heq). destruct pre as [|c pre].
      * left. eauto.
      * right.
        change (String c pre +:+ sub +:+ post)
          with (String c (pre +:+ sub +:+ post)) in Heq.
        injection Heq as -> ->. eauto.
Qed.

Lemma any_lower_in_spec names category :
  MonitoringService.any_lower_in names category = true
  ↔ ∃ excluded, excluded ∈ names ∧ contains_ci excluded category.
Proof.
  unfold MonitoringService.any_lower_in, contains_ci.
  rewrite existsb_exists. setoid_rewrite str_in_spec.
  setoid_rewrite <- list_elem_of_In. done.
Qed.

Lemma categories_check_spec place settings :
  list_truthy (MonitoringSettings.exclude_categories settings)
  && existsb (MonitoringService.any_lower_in
                (MonitoringSettings.exclude_categories settings))
             (PlaceData.categories place) = true
  ↔ category_excluded place settings.
Proof.
  unfold category_excluded.
  rewrite andb_true_iff, existsb_exists.
  setoid_rewrite any_lower_in_spec. setoid_rewrite <- list_elem_of_In.
  split.
  - intros (_ & category & Hc & excluded & He & Hin). eauto 6.
  - intros (category & excluded & Hc & He & Hin). split; [|eauto].
    destruct (MonitoringSettings.exclude_categories settings); [|done].
    by apply elem_of_nil in He.
Qed.

Lemma float_truthy_spec x :
  float_truthy x = true ↔ ∃ q, x = Some q ∧ q ≠ 0%Qc.
Proof.
  destruct x as [q|]; simpl.
  - rewrite negb_true_iff, bool_decide_eq_false. split; [eauto|].
    by intros (q' & [= <-] & Hq).
  - split; [done|]. by intros (q & [=] & _).
Qed.

Lemma _should_exclude_business_iff place settings :
  MonitoringService._should_exclude_business place settings = true
  ↔ category_excluded place settings ∨ nonzero_rating_below place settings.
Proof.
  unfold MonitoringService._should_exclude_business.
  rewrite <- categories_check_spec.
  destruct (list_truthy _ && existsb _ _); [by intuition|].
  unfold nonzero_rating_below.
  destruct (float_truthy (MonitoringSettings.min_rating_threshold settings))
    eqn:Ht; simpl.
  - destruct (float_truthy (PlaceData.rating place)) eqn:Hr.
    + apply float_truthy_spec in Ht as (t & -> & Ht).
      apply float_truthy_spec in Hr as (r & -> & Hr). simpl.
      case_bool_decide as Hlt.
      * split; [|done]. intros _. right. by exists r, t.
      * split; [done|]. intros [[=]|(r' & t' & [= <-] & [= <-] & _ & _ & ?)].
        done.
    + split; [done|].
      intros [[=]|(r & t & Hr' & _ & Hnz & _)].
      assert (float_truthy (PlaceData.rating place) = true) as Hr''
        by (apply float_truthy_spec; eauto).
      congruence.
  - split; [done|].
    intros [[=]|(r & t & _ & Ht' & _ & Hnz & _)].
    assert (float_truthy (MonitoringSettings.min_rating_threshold settings)
            = true) as Ht''
      by (apply float_truthy_spec; eauto).
    congruence.
Qed.

Lemma scan_place_excluded settings st place :
  MonitoringService._should_exclude_business place settings = true →
  MonitoringService.scan_place settings st place = st.
Proof. intros He. unfold MonitoringService.scan_place. by rewrite He. Qed.

Lemma fold_scan_place_filter settings places : ∀ st,
  fold_left (MonitoringService.scan_place settings) places st
  = fold_left (MonitoringService.scan_place settings)
              (filter (not_excluded settings) places) st.
Proof.
  induction places as [|p places IH]; intros st; [done|].
  rewrite filter_cons. unfold not_excluded at 1.
  destruct (decide _) as [He|He]; simpl; [apply IH|].
  apply not_false_is_true in He.
  rewrite scan_place_excluded by done. apply IH.
Qed.

(** As the specification words it, with the rating and the threshold only
    present,
    the equivalence fails: a place rated 0.0 is below a threshold of 3.0
    and is not excluded. *)
Lemma should_exclude_zero_rating_counterexample :
  ¬ (MonitoringService._should_exclude_business unrated_place
       demanding_settings = true
     ↔ category_excluded unrated_place demanding_settings
       ∨ rating_below unrated_place demanding_settings).
Proof.
  intros [_ Hex].
  assert (MonitoringService._should_exclude_business unrated_place
            demanding_settings = false) as Hf by (vm_compute; reflexivity).
  rewrite Hf in Hex. enough (false = true) by done. apply Hex.
  right. exists 0%Qc, (Q2Qc 3). repeat split.
Qed.

(** What a scan does to the businesses table is what its loop does. *)
Lemma fold_left_preserve {A B} (P : A → Prop) (f : A → B → A) (l : list B) :
  (∀ a x, P a → P (f a x)) → ∀ a, P a → P (fold_left f l a).
Proof. intros Hf. induction l as [|x l IH]; simpl; eauto. Qed.

Lemma notify_businesses type title message business w :
  businesses_of (MonitoringService.notify type title message business w)
  = businesses_of w.
Proof. reflexivity. Qed.

Lemma fold_left_businesses {B} (f : World → B → World) (l : list B) w :
  (∀ w x, businesses_of (f w x) = businesses_of w) →
  businesses_of (fold_left f l w) = businesses_of w.
Proof.
  intros Hf.
  by apply (fold_left_preserve (λ w', businesses_of w' = businesses_of w));
    [intros w' x <-|].
Qed.

Lemma _generate_notifications_businesses new_bs updated_bs settings w :
  businesses_of
    (MonitoringService._generate_notifications new_bs updated_bs settings w)
  = businesses_of w.
Proof.
  unfold MonitoringService._generate_notifications.
  destruct (MonitoringSettings.notify_new_businesses settings
            && list_truthy new_bs);
    destruct (MonitoringSettings.notify_rating_changes settings
              && list_truthy updated_bs);
    rewrite ?fold_left_businesses; try done.
  all: intros w' b; by destruct (Business.is_competitor b).
Qed.

Lemma scan_handlers_businesses start_time outcome scan_result w :
  businesses_of
    (MonitoringService.scan_handlers start_time outcome scan_result w).2
  = businesses_of w.
Proof. reflexivity. Qed.

Lemma perform_scan_businesses settings places w :
  businesses_of
    (MonitoringService.perform_scan settings (Return places) w).2
  = businesses_of
      (MonitoringService.world
         (MonitoringService.scan_places settings places (scan_start w))).
Proof.
  unfold MonitoringService.perform_scan, MonitoringService.scan_try,
    scan_start.
  destruct (tick (clock w)) as [start_time c] eqn:Ht.
  cbn [snd]. destruct (ScanHistory.init c) as [scan_result c'] eqn:Hi.
  cbn [snd]. rewrite scan_handlers_businesses.
  apply _generate_notifications_businesses.
Qed.

(** C6 (amended).  [_should_exclude_business] returns true exactly when
    some category of the place contains, case ignored, some excluded
    category as a substring, or the rating is below the threshold with
    both present and neither zero.  A place of categories
    ["Gas Station"] is excluded under the excluded categories ["Gas"]; the
    loop of the scan passes over an excluded place without any effect,
    so a scan that fetches only such a place leaves the businesses table
    as it was and reports no new business. *)
Theorem should_exclude_business_spec :
  (∀ place settings,
     MonitoringService._should_exclude_business place settings = true
     ↔ category_excluded place settings
       ∨ nonzero_rating_below place settings)
  ∧ (∀ place settings,
       MonitoringService._should_exclude_business
         (with_categories ["Gas Station"] place)
         (with_exclude_categories ["Gas"] settings) = true)
  ∧ (∀ settings places w,
       MonitoringService.scan_places settings places w
       = MonitoringService.scan_places settings
           (filter (not_excluded settings) places) w)
  ∧ (∀ place settings w,
       let r := MonitoringService.perform_scan
                  (with_exclude_categories ["Gas"] settings)
                  (Return [with_categories ["Gas Station"] place]) w in
       businesses_of r.2 = businesses_of w
       ∧ ScanHistory.new_businesses r.1 = 0%nat
       ∧ ScanHistory.updated_businesses r.1 = 0%nat).
Proof.
  assert (Hgas : ∀ place settings,
            MonitoringService._should_exclude_business
              (with_categories ["Gas Station"] place)
              (with_exclude_categories ["Gas"] settings) = true).
  { intros place settings. apply _should_exclude_business_iff. left.
    exists "Gas Station", "Gas".
    split; [apply elem_of_cons; by left|].
    split; [apply elem_of_cons; by left|].
    by exists "", " station". }
  split; [exact _should_exclude_business_iff|].
  split; [exact Hgas|].
  split; [intros; apply fold_scan_place_filter|].
  intros place settings w. cbv zeta. split.
  - rewrite perform_scan_businesses.
    unfold MonitoringService.scan_places. simpl fold_left.
    by rewrite scan_place_excluded by apply Hgas.
  - unfold MonitoringService.perform_scan, MonitoringService.scan_try,
      MonitoringService.scan_places.
    destruct (tick (clock w)) as [start_time c].
    destruct (ScanHistory.init c) as [scan_result c'].
    simpl fold_left. rewrite scan_place_excluded by apply Hgas.
    done.
Qed.

(** C10. The rating check looks at truth values: a place rated exactly
    0.0 is not excluded by it whatever the threshold, and a threshold of
    exactly 0.0 excludes nothing, so that in both cases
    [_should_exclude_business] returns true only through the excluded
    categories. *)
Theorem should_exclude_zero_is_unrated place settings :
  PlaceData.rating place = Some 0%Qc
  ∨ MonitoringSettings.min_rating_threshold settings = Some 0%Qc →
  MonitoringService._should_exclude_business place settings = true
  ↔ category_excluded place settings.
Proof.
  intros Hzero. rewrite _should_exclude_business_iff.
  split; [|by left].
  intros [Hc|(r & t & Hr & Ht & Hrz & Htz & _)]; [done|].
  destruct Hzero as [Hz|Hz]; congruence.
Qed.

Lemma should_exclude_zero_is_unrated_witness :
  MonitoringService._should_exclude_business unrated_place
    demanding_settings = true
  ↔ category_excluded unrated_place demanding_settings.
Proof.
  apply (should_exclude_zero_is_unrated unrated_place demanding_settings).
  left. reflexivity.
Defined.

(** ** BackgroundMonitor.start *)

(** C9. When the store holds no monitoring settings, or settings whose
    status is not [ACTIVE], [start] returns false and leaves the world as
    it was: no job is scheduled, no thread is started, no notification is
    stored or shown.  Of the monitor only the cached settings change:
    [is_running] stays as it was (false for a stopped monitor), and so do
    the thread and the stop event. *)
Theorem start_requires_active_settings self w :
  ¬ startable w →
  let r := BackgroundMonitor.start self w in
  r.1.1 = false
  ∧ r.2 = w
  ∧ BackgroundMonitor.is_running r.1.2 = BackgroundMonitor.is_running self
  ∧ BackgroundMonitor.monitor_thread r.1.2
    = BackgroundMonitor.monitor_thread self
  ∧ BackgroundMonitor.stop_event r.1.2 = BackgroundMonitor.stop_event self
  ∧ BackgroundMonitor.scheduler_running r.1.2
    = BackgroundMonitor.scheduler_running self
  ∧ BackgroundMonitor.notification_service r.1.2
    = BackgroundMonitor.notification_service self.
Proof.
  unfold startable, BackgroundMonitor.start. intros Hno. cbv zeta.
  destruct (BackgroundMonitor.is_running self) eqn:Hrun; [done|].
  cbn [BackgroundMonitor.set_current_settings
       BackgroundMonitor.current_settings].
  destruct (DatabaseManager.get_monitoring_settings (db w)) as [settings|];
    [|done].
  by rewrite bool_decide_eq_true_2.
Qed.

Lemma start_requires_active_settings_witness :
  (BackgroundMonitor.start
     (BackgroundMonitor.init (NotificationService.mk true)) paused_world).1.1
  = false
  ∧ (BackgroundMonitor.start
       (BackgroundMonitor.init (NotificationService.mk true)) paused_world).2
    = paused_world.
Proof.
  assert (H : ¬ startable paused_world) by (vm_compute; discriminate).
  pose proof (start_requires_active_settings
                (BackgroundMonitor.init (NotificationService.mk true))
                paused_world H) as Hs.
  cbv zeta in Hs. tauto.
Defined.

(** With the preconditions met a stopped monitor does start: the one job
    is the scan at the configured interval, one thread is started and
    "Monitoring Started" is stored. *)
Lemma start_when_active self w settings :
  BackgroundMonitor.is_running self = false →
  DatabaseManager.get_monitoring_settings (db w) = Some settings →
  MonitoringSettings.status settings = ACTIVE →
  let r := BackgroundMonitor.start self w in
  r.1.1 = true
  ∧ BackgroundMonitor.is_running r.1.2 = true
  ∧ jobs r.2 = [MonitoringSettings.scan_interval_minutes settings]
  ∧ threads r.2 = S (threads w)
  ∧ Notification.title
      <$> DatabaseManager.notifications (db r.2)
    = (Notification.title <$> DatabaseManager.notifications (db w))
      ++ ["Monitoring Started"].
Proof.
  intros Hrun Hget Hact. unfold BackgroundMonitor.start. cbv zeta.
  rewrite Hrun.
  cbn [BackgroundMonitor.set_current_settings
       BackgroundMonitor.current_settings].
  rewrite Hget, bool_decide_eq_false_2 by (by intros ?).
  unfold NotificationService.create_notification,
    NotificationService.send_desktop_notification.
  simpl. repeat case_match; simplify_eq; simpl; by rewrite ?fmap_app.
Qed.

(** ** FoursquareClient._make_request *)

Section MakeRequestProperties.
Context {Body : Type} (server : nat → HttpOutcome Body).
Variables (endpoint : string) (params : list (string * string)).

Lemma make_request_busy fuel self :
  is_429 (server (length (FoursquareClient.sent self))) = true →
  FoursquareClient._make_request server (S fuel) endpoint params self
  = FoursquareClient._make_request server fuel endpoint params
      (after_busy endpoint params self).
Proof.
  intros Hbusy. unfold after_busy. cbn [FoursquareClient._make_request].
  destruct (tick (FoursquareClient.clock self)) as [now c].
  destruct (RateLimiter.can_make_request now _) as [ok rl].
  destruct (server (length (FoursquareClient.sent self)))
    as [status_code json|msg]; [|done].
  simpl in Hbusy. apply bool_decide_eq_true in Hbusy as ->.
  destruct ok; destruct (tick _) as [now' c']; done.
Qed.

Lemma make_request_answered fuel self :
  is_429 (server (length (FoursquareClient.sent self))) = false →
  let r := FoursquareClient._make_request server (S fuel) endpoint params
             self in
  r.1 = Some (returned (server (length (FoursquareClient.sent self))))
  ∧ FoursquareClient.sent r.2
    = FoursquareClient.sent self ++ [(endpoint, params)]
  ∧ (FoursquareClient.slept r.2 = FoursquareClient.slept self
     ∨ FoursquareClient.slept r.2 = FoursquareClient.slept self ++ [60])
  ∧ elapsed (FoursquareClient.clock self)
    ≤ elapsed (FoursquareClient.clock r.2).
Proof.
  intros Hans. cbv zeta. cbn [FoursquareClient._make_request].
  destruct (tick (FoursquareClient.clock self)) as [now c] eqn:Ht.
  apply tick_inv in Ht as [Hm1 Hc].
  destruct (RateLimiter.can_make_request now _) as [ok rl].
  destruct (server (length (FoursquareClient.sent self)))
    as [status_code json|msg].
  - simpl in Hans. apply bool_decide_eq_false in Hans.
    set (c1 := if ok then _ else _).
    assert (c1.2 = FoursquareClient.slept self
            ∨ c1.2 = FoursquareClient.slept self ++ [60]) as Hnap
      by (destruct ok; simpl; auto).
    assert (elapsed (FoursquareClient.clock self) ≤ elapsed c1.1) as Hm2
      by (destruct ok; simpl in *; lia).
    destruct c1 as [c1 naps]. simpl in Hnap, Hm2.
    destruct (tick c1) as [now' c2] eqn:Ht2.
    apply tick_inv in Ht2 as [Hm3 Hc2].
    case_bool_decide as H200;
      [subst status_code; simpl; split_and!; auto; lia|].
    rewrite bool_decide_eq_false_2 by done. simpl.
    split_and!; auto; [|lia].
    destruct status_code as [|[]|]; try done.
    repeat (match goal with |- context [match ?p with _ => _ end] =>
              destruct p; try done end).
  - destruct ok; simpl in *; split_and!; auto; lia.
Qed.

Lemma after_busy_spec self :
  let self' := after_busy endpoint params self in
  FoursquareClient.sent self'
  = FoursquareClient.sent self ++ [(endpoint, params)]
  ∧ (FoursquareClient.slept self' = FoursquareClient.slept self ++ [60]
     ∨ FoursquareClient.slept self'
       = FoursquareClient.slept self ++ [60; 60])
  ∧ elapsed (FoursquareClient.clock self) + 60
    ≤ elapsed (FoursquareClient.clock self').
Proof.
  cbv zeta. unfold after_busy.
  destruct (tick (FoursquareClient.clock self)) as [now c] eqn:Ht.
  apply tick_inv in Ht as [Hm1 Hc].
  destruct (RateLimiter.can_make_request now _) as [[] rl].
  - destruct (tick c) as [now' c2] eqn:Ht2.
    apply tick_inv in Ht2 as [Hm3 Hc2]. simpl. split_and!; auto; lia.
  - destruct (tick (sleep 60 c)) as [now' c2] eqn:Ht2.
    apply tick_inv in Ht2 as [Hm3 Hc2]. simpl in *.
    rewrite <- app_assoc. split_and!; auto; lia.
Qed.

(** Every 429 is followed by a sleep and one more attempt, whatever
    their number: after [k] of them the call is in its [k+1]-th
    attempt. *)
Lemma retries_until_answered k : ∀ self fuel,
  (∀ i, (i < k)%nat →
     is_429 (server (length (FoursquareClient.sent self) + i)) = true) →
  is_429 (server (length (FoursquareClient.sent self) + k)) = false →
  (k < fuel)%nat →
  let r := FoursquareClient._make_request server fuel endpoint params
             self in
  r.1 = Some (returned (server (length (FoursquareClient.sent self) + k)))
  ∧ FoursquareClient.sent r.2
    = FoursquareClient.sent self ++ replicate (S k) (endpoint, params)
  ∧ (∃ naps, FoursquareClient.slept r.2
             = FoursquareClient.slept self ++ naps
             ∧ Forall (λ d, d = 60) naps
             ∧ (k ≤ length naps ≤ 2 * k + 1)%nat)
  ∧ elapsed (FoursquareClient.clock self) + 60 * Z.of_nat k
    ≤ elapsed (FoursquareClient.clock r.2).
Proof.
  induction k as [|k IH]; intros self fuel Hbusy Hans Hfuel;
    (destruct fuel as [|fuel]; [lia|]).
  - rewrite Nat.add_0_r in Hans.
    destruct (make_request_answered fuel self Hans)
      as (Hr & Hsent & Hnap & Hclock).
    cbv zeta. rewrite Nat.add_0_r. split_and!; [done|done| |lia].
    destruct Hnap as [Hnap|Hnap].
    + exists []. rewrite app_nil_r. split_and!; simpl; auto; lia.
    + exists [60]. split_and!; simpl; auto; lia.
  - cbv zeta. rewrite make_request_busy
      by (rewrite <- (Nat.add_0_r (length _)); apply Hbusy; lia).
    destruct (after_busy_spec self) as (Hsent & Hnap & Hclock).
    cbv zeta in Hsent, Hnap, Hclock.
    destruct (IH (after_busy endpoint params self) fuel)
      as (Hr & Hsent' & (naps & Hnaps & Hall & Hlen) & Hclock').
    { intros i Hi. rewrite Hsent, length_app. simpl.
      replace (length (FoursquareClient.sent self) + 1 + i)%nat
        with (length (FoursquareClient.sent self) + S i)%nat by lia.
      apply Hbusy. lia. }
    { rewrite Hsent, length_app. simpl.
      by replace (length (FoursquareClient.sent self) + 1 + k)%nat
        with (length (FoursquareClient.sent self) + S k)%nat by lia. }
    { lia. }
    rewrite Hr, Hsent', Hsent, length_app. simpl length.
    replace (length (FoursquareClient.sent self) + 1 + k)%nat
      with (length (FoursquareClient.sent self) + S k)%nat by lia.
    split_and!; [done|by rewrite <- app_assoc| |lia].
    rewrite Hnaps. destruct Hnap as [->| ->]; rewrite <- app_assoc.
    + exists ([60] ++ naps). split_and!; [done| |simpl; lia..].
      by constructor.
    + exists ([60; 60] ++ naps). split_and!; [done| |simpl; lia..].
      by repeat constructor.
Qed.

(** While the answers are 429 the call goes on: [fuel] attempts are not
    enough for a call whose first [fuel] answers are 429. *)
Lemma make_request_busy_goes_on fuel : ∀ self,
  (∀ i, (i < fuel)%nat →
     is_429 (server (length (FoursquareClient.sent self) + i)) = true) →
  let r := FoursquareClient._make_request server fuel endpoint params
             self in
  r.1 = None
  ∧ length (FoursquareClient.sent r.2)
    = (length (FoursquareClient.sent self) + fuel)%nat.
Proof.
  induction fuel as [|fuel IH]; intros self Hbusy; [simpl; split; [done|lia]|].
  cbv zeta. rewrite make_request_busy
    by (rewrite <- (Nat.add_0_r (length _)); apply Hbusy; lia).
  destruct (after_busy_spec self) as (Hsent & _).
  cbv zeta in Hsent.
  destruct (IH (after_busy endpoint params self)) as [Hr Hlen].
  { intros i Hi. rewrite Hsent, length_app. simpl.
    replace (length (FoursquareClient.sent self) + 1 + i)%nat
      with (length (FoursquareClient.sent self) + S i)%nat by lia.
    apply Hbusy. lia. }
  split; [done|]. rewrite Hlen, Hsent, length_app. simpl. lia.
Qed.
End MakeRequestProperties.

(** As the specification words it the call would end after one retry.  On
    a server
    that answers 429, 429, 200 the call makes three attempts and returns
    the body of the third answer. *)
Lemma single_retry_counterexample :
  ¬ retries_once busy_twice "search" [] (FoursquareClient.init clock0).
Proof.
  unfold retries_once. intros Honce.
  destruct (FoursquareClient._make_request busy_twice 3 "search" []
              (FoursquareClient.init clock0)) as [r self'] eqn:Hrun.
  vm_compute in Hrun. injection Hrun as <- <-.
  destruct (Honce eq_refl 3%nat (Some "ok") _ eq_refl) as [Hlen _].
  vm_compute in Hlen. lia.
Qed.

(** C2 (amended).  On a 429 [_make_request] sleeps 60 seconds and sends
    the same request again, and it does so after every 429: when the
    first [k] answers are 429 and the next one is not, the call returns
    what that answer gives (the body of a 200, [None] otherwise) after
    exactly [k+1] attempts, all with the same endpoint and parameters,
    and at least [k] sleeps of 60 seconds. *)
Theorem make_request_retries {Body} (server : nat → HttpOutcome Body)
    (endpoint : string) (params : list (string * string))
    (self : FoursquareClient.t) (k fuel : nat) :
  (∀ i, (i < k)%nat →
     is_429 (server (length (FoursquareClient.sent self) + i)%nat) = true) →
  is_429 (server (length (FoursquareClient.sent self) + k)%nat) = false →
  (k < fuel)%nat →
  let r := FoursquareClient._make_request server fuel endpoint params self in
  r.1 = Some (returned (server (length (FoursquareClient.sent self) + k)%nat))
  ∧ FoursquareClient.sent r.2
    = FoursquareClient.sent self ++ replicate (S k) (endpoint, params)
  ∧ (∃ naps, FoursquareClient.slept r.2
             = FoursquareClient.slept self ++ naps
             ∧ Forall (λ d, d = 60) naps
             ∧ (k ≤ length naps ≤ 2 * k + 1)%nat)
  ∧ elapsed (FoursquareClient.clock self) + 60 * Z.of_nat k
    ≤ elapsed (FoursquareClient.clock r.2).
Proof. apply retries_until_answered. Qed.

Lemma make_request_retries_witness :
  (FoursquareClient._make_request busy_twice 3 "search" []
     (FoursquareClient.init clock0)).1
  = Some (Some "ok").
Proof.
  refine (proj1 (make_request_retries busy_twice "search" []
                   (FoursquareClient.init clock0) 2 3 _ _ _)).
  - intros i Hi. destruct i as [|[|i]]; [reflexivity..|lia].
  - reflexivity.
  - lia.
Defined.

(** The number of attempts has no bound: on a server that answers 429
    for ever every call is still going after any number of attempts. *)
Lemma make_request_always_busy fuel self :
  let r := FoursquareClient._make_request always_busy fuel "search" []
             self in
  r.1 = None
  ∧ length (FoursquareClient.sent r.2)
    = (length (FoursquareClient.sent self) + fuel)%nat.
Proof. by apply make_request_busy_goes_on. Qed.

(** ** MonitoringService.perform_scan: the record of a scan *)

(** The loop writes to the businesses table and reads the clock, and
    nothing else. *)
Lemma scan_place_frame settings st place :
  let w := MonitoringService.world st in
  let w' := MonitoringService.world
              (MonitoringService.scan_place settings st place) in
  history_of w' = history_of w
  ∧ notifications_of w' = notifications_of w
  ∧ DatabaseManager.monitoring_settings (db w')
    = DatabaseManager.monitoring_settings (db w)
  ∧ jobs w' = jobs w ∧ threads w' = threads w ∧ desktop w' = desktop w.
Proof.
  cbv zeta. unfold MonitoringService.scan_place.
  destruct (MonitoringService._should_exclude_business place settings);
    [done|].
  destruct (DatabaseManager.get_business _ _) as [existing|].
  - destruct (MonitoringService._update_existing_business _ _ _ _)
      as [[[] b'] c]; done.
  - unfold MonitoringService._create_business_from_place.
    destruct (Business.init _ _ _ _ _ _ _ _ _ _ _ _ _ _ _) as [b c]. done.
Qed.

Lemma scan_places_frame settings places w :
  let w' := MonitoringService.world
              (MonitoringService.scan_places settings places w) in
  history_of w' = history_of w
  ∧ notifications_of w' = notifications_of w
  ∧ DatabaseManager.monitoring_settings (db w')
    = DatabaseManager.monitoring_settings (db w)
  ∧ jobs w' = jobs w ∧ threads w' = threads w ∧ desktop w' = desktop w.
Proof.
  cbv zeta. unfold MonitoringService.scan_places.
  apply (fold_left_preserve
           (λ st, let w' := MonitoringService.world st in
                  history_of w' = history_of w
                  ∧ notifications_of w' = notifications_of w
                  ∧ DatabaseManager.monitoring_settings (db w')
                    = DatabaseManager.monitoring_settings (db w)
                  ∧ jobs w' = jobs w ∧ threads w' = threads w
                  ∧ desktop w' = desktop w)); [|done].
  intros st p (H1 & H2 & H3 & H4 & H5 & H6).
  destruct (scan_place_frame settings st p) as (G1 & G2 & G3 & G4 & G5 & G6).
  cbv zeta in *. split_and!; congruence.
Qed.

Lemma _generate_notifications_history new_bs updated_bs settings w :
  history_of
    (MonitoringService._generate_notifications new_bs updated_bs settings w)
  = history_of w.
Proof.
  unfold MonitoringService._generate_notifications.
  destruct (MonitoringSettings.notify_new_businesses settings
            && list_truthy new_bs);
    destruct (MonitoringSettings.notify_rating_changes settings
              && list_truthy updated_bs);
    repeat (apply (fold_left_preserve (λ w', history_of w' = _));
            [intros w' b <-; by destruct (Business.is_competitor b)|]);
    done.
Qed.

(** The [except] and [finally] clauses, for every way the [try] block can
    have ended. *)
Lemma scan_handlers_spec start_time outcome scan_result w :
  let r := MonitoringService.scan_handlers start_time outcome scan_result w in
  (∃ row, history_of r.2 = history_of w ++ [row] ∧ is_row_of r.1 row)
  ∧ businesses_of r.2 = businesses_of w
  ∧ notifications_of r.2 = notifications_of w
  ∧ ScanHistory.businesses_found r.1 = ScanHistory.businesses_found scan_result
  ∧ ScanHistory.new_businesses r.1 = ScanHistory.new_businesses scan_result
  ∧ ScanHistory.updated_businesses r.1
    = ScanHistory.updated_businesses scan_result
  ∧ match outcome with
    | Raise e =>
      ScanHistory.success r.1 = false
      ∧ ScanHistory.error_message r.1 = Some e
    | Return _ =>
      ScanHistory.success r.1 = ScanHistory.success scan_result
      ∧ ScanHistory.error_message r.1 = ScanHistory.error_message scan_result
    end.
Proof.
  cbv zeta. unfold MonitoringService.scan_handlers, is_row_of.
  destruct outcome as [[]|e]; simpl; split_and!; eauto.
Qed.

(** C8. [perform_scan] is a total function: it returns a record for
    every outcome of the fetch.  The [except] and [finally] clauses add
    exactly one row to the scan history, the row of the record returned,
    however the [try] block ended; after an exception the record has
    [success = False] and the text of the exception, and the counts that
    the block had set so far.  For a fetch that raises these counts are
    zero and neither a business nor a notification is written; for a
    fetch that returns, the record has [success = True], no error text
    and the counts of the loop. *)
Theorem perform_scan_records_once :
  (∀ start_time outcome scan_result w,
     let r := MonitoringService.scan_handlers start_time outcome
                scan_result w in
     (∃ row, history_of r.2 = history_of w ++ [row] ∧ is_row_of r.1 row)
     ∧ ScanHistory.new_businesses r.1
       = ScanHistory.new_businesses scan_result
     ∧ ScanHistory.updated_businesses r.1
       = ScanHistory.updated_businesses scan_result
     ∧ match outcome with
       | Raise e =>
         ScanHistory.success r.1 = false
         ∧ ScanHistory.error_message r.1 = Some e
       | Return _ =>
         ScanHistory.success r.1 = ScanHistory.success scan_result
         ∧ ScanHistory.error_message r.1
           = ScanHistory.error_message scan_result
       end)
  ∧ (∀ settings search_nearby w,
       let r := MonitoringService.perform_scan settings search_nearby w in
       (∃ row, history_of r.2 = history_of w ++ [row] ∧ is_row_of r.1 row)
       ∧ match search_nearby with
         | Raise e =>
           ScanHistory.success r.1 = false
           ∧ ScanHistory.error_message r.1 = Some e
           ∧ ScanHistory.businesses_found r.1 = 0%nat
           ∧ ScanHistory.new_businesses r.1 = 0%nat
           ∧ ScanHistory.updated_businesses r.1 = 0%nat
           ∧ businesses_of r.2 = businesses_of w
           ∧ notifications_of r.2 = notifications_of w
         | Return places =>
           let st := MonitoringService.scan_places settings places
                       (scan_start w) in
           ScanHistory.success r.1 = true
           ∧ ScanHistory.error_message r.1 = None
           ∧ ScanHistory.businesses_found r.1 = length places
           ∧ ScanHistory.new_businesses r.1
             = length (MonitoringService.new_businesses st)
           ∧ ScanHistory.updated_businesses r.1
             = length (MonitoringService.updated_businesses st)
         end).
Proof.
  split.
  - intros start_time outcome scan_result w.
    pose proof (scan_handlers_spec start_time outcome scan_result w) as H.
    cbv zeta in *. tauto.
  - intros settings search w. cbv zeta.
    unfold MonitoringService.perform_scan, scan_start.
    destruct (tick (clock w)) as [start_time c].
    cbn [snd]. unfold ScanHistory.init.
    destruct (tick c) as [now c']. cbn [snd].
    destruct search as [places|e]; cbn [MonitoringService.scan_try].
    + match goal with
      | |- context [MonitoringService.scan_handlers ?t ?o ?sr ?w'] =>
        pose proof (scan_handlers_spec t o sr w')
          as ((row & Hrow & His) & _ & _ & Hf & Hn & Hu & Hs & He)
      end.
      cbv zeta in *. split.
      * exists row. split; [|done]. rewrite Hrow. f_equal.
        rewrite _generate_notifications_history.
        by destruct (scan_places_frame settings places (set_clock c' w))
          as [Hh _].
      * by rewrite Hf, Hn, Hu, Hs, He.
    + match goal with
      | |- context [MonitoringService.scan_handlers ?t ?o ?sr ?w'] =>
        pose proof (scan_handlers_spec t o sr w')
          as ((row & Hrow & His) & Hb & Hnt & Hf & Hn & Hu & Hs & He)
      end.
      cbv zeta in *. split; [by exists row|].
      by rewrite Hf, Hn, Hu, Hs, He, Hb, Hnt.
Qed.

(** ** The timestamps of a business *)

Lemma timely_later now now' b : now ≤ now' → timely now b → timely now' b.
Proof. unfold timely. lia. Qed.

Lemma all_timely_later w w' :
  businesses_of w' = businesses_of w →
  elapsed (clock w) ≤ elapsed (clock w') →
  all_timely w → all_timely w'.
Proof.
  unfold all_timely. intros -> Hle Hw b Hb.
  eapply timely_later; [exact Hle|by apply Hw].
Qed.

Lemma init_fresh_timely fsq_id name categories location rating hours
    website phone verified popularity is_competitor notes c :
  let r := Business.init fsq_id name categories location rating hours
             website phone verified popularity None None is_competitor
             notes c in
  timely (elapsed r.2) r.1 ∧ elapsed c ≤ Business.first_seen r.1.
Proof.
  cbv zeta. unfold Business.init, timely.
  destruct (tick c) as [fs c1] eqn:H1. apply tick_inv in H1 as [? ?].
  destruct (tick c1) as [lu c2] eqn:H2. apply tick_inv in H2 as [? ?].
  simpl. lia.
Qed.

Lemma update_from_api_data_timely b p c :
  timely (elapsed c) b →
  let r := Business.update_from_api_data b p c in
  timely (elapsed r.2) r.1.2
  ∧ elapsed c ≤ elapsed r.2
  ∧ Business.first_seen r.1.2 = Business.first_seen b
  ∧ Business.last_updated b ≤ Business.last_updated r.1.2
  ∧ Business.fsq_id r.1.2 = Business.fsq_id b.
Proof.
  intros [Hfs Hlu]. cbv zeta. rewrite update_from_api_data_unfold.
  destruct (changed_flag b p) eqn:Hflag.
  - destruct (tick c) as [now c'] eqn:Ht. apply tick_inv in Ht as [? ?].
    unfold timely. simpl. split_and!; try done; lia.
  - rewrite merged_id by done. unfold timely. simpl.
    split_and!; try done; lia.
Qed.

Lemma get_business_elem fsq_id d b :
  DatabaseManager.get_business fsq_id d = Some b →
  b ∈ DatabaseManager.businesses d ∧ Business.fsq_id b = fsq_id.
Proof.
  unfold DatabaseManager.get_business. intros Hfind.
  apply find_some in Hfind as [Hin Hid].
  apply bool_decide_eq_true in Hid. by rewrite list_elem_of_In.
Qed.

Lemma elem_of_insert_or_replace b b' rows :
  b ∈ DatabaseManager.insert_or_replace b' rows →
  b = b' ∨ b ∈ rows.
Proof.
  unfold DatabaseManager.insert_or_replace.
  rewrite elem_of_app, list_elem_of_filter, list_elem_of_singleton. tauto.
Qed.

Lemma scan_place_timely settings st place :
  all_timely (MonitoringService.world st) →
  let st' := MonitoringService.scan_place settings st place in
  all_timely (MonitoringService.world st')
  ∧ elapsed (clock (MonitoringService.world st))
    ≤ elapsed (clock (MonitoringService.world st')).
Proof.
  intros Hinv. cbv zeta. unfold MonitoringService.scan_place.
  destruct (MonitoringService._should_exclude_business place settings);
    [done|].
  destruct (DatabaseManager.get_business _ _) as [existing|] eqn:Hget.
  - apply get_business_elem in Hget as [Hin _].
    unfold MonitoringService._update_existing_business.
    pose proof (update_from_api_data_timely existing place
                  (clock (MonitoringService.world st)) (Hinv _ Hin))
      as (Ht & Hle & _).
    cbv zeta in Ht, Hle.
    destruct (Business.update_from_api_data _ _ _) as [[[] b'] c];
      [|done].
    simpl in *. split; [|done].
    intros b Hb. apply elem_of_insert_or_replace in Hb as [->|Hb]; [done|].
    eapply timely_later; [exact Hle|by apply Hinv].
  - unfold MonitoringService._create_business_from_place.
    match goal with
    | |- context [Business.init ?a1 ?a2 ?a3 ?a4 ?a5 ?a6 ?a7 ?a8 ?a9 ?a10
                    None None ?a11 ?a12 ?c] =>
      pose proof (init_fresh_timely a1 a2 a3 a4 a5 a6 a7 a8 a9 a10 a11 a12 c)
        as [Ht Hfs];
      destruct (Business.init a1 a2 a3 a4 a5 a6 a7 a8 a9 a10 None None
                  a11 a12 c) as [nb c']
    end.
    simpl in *. destruct Ht as [Ht1 Ht2].
    split; [|lia].
    intros b Hb. apply elem_of_insert_or_replace in Hb as [->|Hb]; [done|].
    eapply timely_later; [|by apply Hinv]. simpl. lia.
Qed.

Lemma scan_places_timely settings places w :
  all_timely w →
  let st := MonitoringService.scan_places settings places w in
  all_timely (MonitoringService.world st)
  ∧ elapsed (clock w) ≤ elapsed (clock (MonitoringService.world st)).
Proof.
  intros Hinv. cbv zeta. unfold MonitoringService.scan_places.
  apply (fold_left_preserve
           (λ st, all_timely (MonitoringService.world st)
                  ∧ elapsed (clock w)
                    ≤ elapsed (clock (MonitoringService.world st))));
    [|by split].
  intros st p [Hst Hle].
  destruct (scan_place_timely settings st p Hst) as [Hst' Hle'].
  split; [done|lia].
Qed.

Lemma notify_clock type title message business w :
  elapsed (clock w)
  ≤ elapsed (clock (MonitoringService.notify type title message business w)).
Proof.
  unfold MonitoringService.notify, Notification.init.
  destruct (tick (clock w)) as [now c] eqn:H1. apply tick_inv in H1 as [? ?].
  destruct (tick c) as [ts c'] eqn:H2. apply tick_inv in H2 as [? ?].
  simpl. lia.
Qed.

Lemma _generate_notifications_clock new_bs updated_bs settings w :
  elapsed (clock w)
  ≤ elapsed (clock (MonitoringService._generate_notifications new_bs
                      updated_bs settings w)).
Proof.
  unfold MonitoringService._generate_notifications.
  set (w1 := if MonitoringSettings.notify_new_businesses settings
                && list_truthy new_bs then _ else w).
  assert (elapsed (clock w) ≤ elapsed (clock w1)) as H1.
  { unfold w1. destruct (_ && _); [|done].
    apply (fold_left_preserve (λ w', elapsed (clock w) ≤ elapsed (clock w')));
      [|done].
    intros w' b Hw'. destruct (Business.is_competitor b); [|done].
    etrans; [exact Hw'|apply notify_clock]. }
  clearbody w1.
  destruct (_ && _); [|done].
  apply (fold_left_preserve (λ w', elapsed (clock w) ≤ elapsed (clock w')));
    [|done].
  intros w' b Hw'. etrans; [exact Hw'|apply notify_clock].
Qed.

Lemma scan_handlers_clock start_time outcome scan_result w :
  elapsed (clock w)
  ≤ elapsed (clock (MonitoringService.scan_handlers start_time outcome
                      scan_result w).2).
Proof.
  unfold MonitoringService.scan_handlers.
  destruct (tick (clock w)) as [now c] eqn:H1. apply tick_inv in H1 as [? ?].
  destruct (tick c) as [ts c'] eqn:H2. apply tick_inv in H2 as [? ?].
  simpl. lia.
Qed.

Lemma scan_start_clock w :
  businesses_of (scan_start w) = businesses_of w
  ∧ elapsed (clock w) ≤ elapsed (clock (scan_start w)).
Proof.
  unfold scan_start, ScanHistory.init.
  destruct (tick (clock w)) as [now c] eqn:H1. apply tick_inv in H1 as [? ?].
  simpl. destruct (tick c) as [ts c'] eqn:H2. apply tick_inv in H2 as [? ?].
  simpl. split; [done|lia].
Qed.

Lemma perform_scan_unfold settings search_nearby w :
  MonitoringService.perform_scan settings search_nearby w
  = let r := MonitoringService.scan_try settings search_nearby
               (ScanHistory.init (tick (clock w)).2).1 (scan_start w) in
    MonitoringService.scan_handlers (tick (clock w)).1 r.1.1 r.1.2 r.2.
Proof.
  unfold MonitoringService.perform_scan, scan_start.
  destruct (tick (clock w)) as [start_time c]. cbn [fst snd].
  destruct (ScanHistory.init c) as [scan_result c']. cbn [fst snd].
  cbv zeta.
  by destruct (MonitoringService.scan_try _ _ _ _) as [[outcome sr] w'].
Qed.

Lemma perform_scan_timely settings search_nearby w :
  all_timely w →
  all_timely (MonitoringService.perform_scan settings search_nearby w).2.
Proof.
  intros Hinv. rewrite perform_scan_unfold. cbv zeta.
  destruct (scan_start_clock w) as [Hb Hc].
  assert (all_timely (scan_start w)) as Hinv'
    by (by eapply all_timely_later).
  eapply all_timely_later;
    [apply scan_handlers_businesses|apply scan_handlers_clock|].
  destruct search_nearby as [places|e]; [|done].
  cbn [MonitoringService.scan_try fst snd].
  destruct (scan_places_timely settings places (scan_start w) Hinv')
    as [Hst _].
  eapply all_timely_later;
    [apply _generate_notifications_businesses
    |apply _generate_notifications_clock|done].
Qed.

Lemma run_scans_timely scans : ∀ w,
  all_timely w → all_timely (run_scans scans w).
Proof.
  unfold run_scans. induction scans as [|[settings search] scans IH];
    intros w Hinv; [done|].
  simpl. apply IH. by apply perform_scan_timely.
Qed.

(** C4. A business that the scan creates has [first_seen] no later than
    [last_updated]; [update_from_api_data] keeps [first_seen] and moves
    [last_updated] only forward, to the reading of the clock, so that it
    keeps the order for a business whose timestamps are not ahead of the
    clock; and after every sequence of scans on a database that starts
    empty, every stored business has [first_seen] no later than
    [last_updated]. *)
Theorem first_seen_le_last_updated :
  (∀ fsq_id name categories location rating hours website phone verified
     popularity is_competitor notes c,
     ordered (Business.init fsq_id name categories location rating hours
                website phone verified popularity None None is_competitor
                notes c).1)
  ∧ (∀ b p c,
       timely (elapsed c) b →
       let r := Business.update_from_api_data b p c in
       ordered r.1.2
       ∧ Business.first_seen r.1.2 = Business.first_seen b
       ∧ Business.last_updated b ≤ Business.last_updated r.1.2)
  ∧ (∀ settings search_nearby w,
       all_timely w →
       all_timely (MonitoringService.perform_scan settings search_nearby w).2)
  ∧ (∀ scans c b,
       b ∈ businesses_of (run_scans scans (fresh_world c)) → ordered b).
Proof.
  split_and!.
  - intros. eapply init_fresh_timely.
  - intros b p c Ht.
    destruct (update_from_api_data_timely b p c Ht) as ([? ?] & _ & ? & ? & _).
    by split_and!.
  - apply perform_scan_timely.
  - intros scans c b Hb.
    eapply (run_scans_timely scans (fresh_world c)); [|exact Hb].
    intros b' Hb'. by apply elem_of_nil in Hb'.
Qed.

(** ** Idempotence of the scan *)

(** With one identifier fetched twice under two names, every scan renames
    the business twice. *)
Lemma second_scan_counterexample :
  ¬ second_scan_finds_nothing some_settings
      [a_place; with_name "Corner Coffee" a_place] empty_world.
Proof.
  unfold second_scan_finds_nothing. cbv zeta.
  assert (ScanHistory.updated_businesses
            (MonitoringService.perform_scan some_settings
               (Return [a_place; with_name "Corner Coffee" a_place])
               (MonitoringService.perform_scan some_settings
                  (Return [a_place; with_name "Corner Coffee" a_place])
                  empty_world).2).1 = 2%nat) as Hupdated
    by (vm_compute; reflexivity).
  rewrite Hupdated. intros [_ Hzero]. discriminate Hzero.
Qed.

Lemma find_insert_or_replace_eq b rows :
  find (λ r, bool_decide (Business.fsq_id r = Business.fsq_id b))
       (DatabaseManager.insert_or_replace b rows) = Some b.
Proof.
  unfold DatabaseManager.insert_or_replace.
  induction rows as [|r rows IH]; simpl.
  - by rewrite bool_decide_eq_true_2.
  - rewrite filter_cons. case_decide as Hne; [|done].
    simpl. by rewrite bool_decide_eq_false_2.
Qed.

Lemma find_insert_or_replace_ne k b rows :
  k ≠ Business.fsq_id b →
  find (λ r, bool_decide (Business.fsq_id r = k))
       (DatabaseManager.insert_or_replace b rows)
  = find (λ r, bool_decide (Business.fsq_id r = k)) rows.
Proof.
  intros Hk. unfold DatabaseManager.insert_or_replace.
  induction rows as [|r rows IH]; simpl.
  - by rewrite bool_decide_eq_false_2.
  - rewrite filter_cons. case_decide as Hne; simpl.
    + by rewrite IH.
    + rewrite IH. by rewrite bool_decide_eq_false_2 by congruence.
Qed.

Lemma dict_get_default_idem d key dflt :
  dict_get_default d key (dict_get_default d key dflt)
  = dict_get_default d key dflt.
Proof. unfold dict_get_default. by destruct (d !! key). Qed.

(** A business merged with a place has nothing more to take from it. *)
Lemma changed_flag_merged now b p :
  changed_flag (Business.set_last_updated now (merged b p)) p = false.
Proof.
  unfold changed_flag, merged, fetched_location, categories_differ.
  cbn [Business.set_last_updated Business.name Business.rating
       Business.popularity Business.verified Business.website
       Business.phone Business.categories Business.location].
  rewrite !(bool_decide_eq_false_2 (_ ≠ _)) by (by intros ?).
  assert (bool_decide
            ((list_to_set
                (if decide ((list_to_set (Business.categories b)
                             : gset string)
                            ≠ list_to_set (PlaceData.categories p))
                 then PlaceData.categories p else Business.categories b)
              : gset string)
             ≠ list_to_set (PlaceData.categories p)) = false) as ->.
  { apply bool_decide_eq_false_2. intros Hne. apply Hne.
    by case_decide as Hc. }
  cbn [orb]. destruct (dict_truthy (PlaceData.location p)); [|done].
  cbn [andb default]. apply bool_decide_eq_false_2. intros Hne. apply Hne.
  clear Hne. unfold Business.new_location.
  cbn -[dict_get_default dict_get].
  by rewrite !dict_get_default_idem.
Qed.

(** Neither has a business just created from it. *)
Lemma changed_flag_created p settings c :
  ∀ b c', MonitoringService._create_business_from_place p settings c
          = (Some b, c') →
  changed_flag b p = false ∧ Business.fsq_id b = PlaceData.fsq_id p.
Proof.
  intros b c'. unfold MonitoringService._create_business_from_place,
    Business.init.
  destruct (tick c) as [fs c1]. destruct (tick c1) as [lu c2].
  intros [= <- <-]. split; [|done].
  unfold changed_flag, categories_differ.
  cbn [Business.name Business.rating Business.popularity Business.verified
       Business.website Business.phone Business.categories
       Business.location].
  rewrite !(bool_decide_eq_false_2 (_ ≠ _)) by (by intros ?).
  cbn [orb]. destruct (dict_truthy (PlaceData.location p)); [|done].
  cbn [andb]. apply bool_decide_eq_false_2. intros Hne. apply Hne.
  clear Hne. unfold Business.new_location.
  cbn -[dict_get_default dict_get].
  by rewrite !dict_get_default_idem.
Qed.

Lemma update_from_api_data_fsq_id b p c :
  Business.fsq_id (Business.update_from_api_data b p c).1.2
  = Business.fsq_id b.
Proof.
  rewrite update_from_api_data_unfold.
  by destruct (changed_flag b p).
Qed.

(** After its turn of the loop a place is settled. *)
Lemma scan_place_settles settings st place :
  settled settings
    (businesses_of
       (MonitoringService.world
          (MonitoringService.scan_place settings st place)))
    place.
Proof.
  unfold MonitoringService.scan_place.
  destruct (MonitoringService._should_exclude_business place settings)
    eqn:Hex; [by left|right].
  destruct (DatabaseManager.get_business _ _) as [existing|] eqn:Hget.
  - unfold MonitoringService._update_existing_business.
    pose proof Hget as [_ Hid]%get_business_elem.
    rewrite update_from_api_data_unfold.
    destruct (changed_flag existing place) eqn:Hflag.
    + cbn [fst snd]. eexists. split; [|apply changed_flag_merged].
      unfold businesses_of. simpl. rewrite <- Hid.
      apply (find_insert_or_replace_eq
               (Business.set_last_updated _ (merged existing place))).
    + exists existing. by split.
  - destruct (MonitoringService._create_business_from_place _ _ _)
      as [[nb|] c] eqn:Hc.
    + apply changed_flag_created in Hc as [Hflag Hid].
      exists nb. split; [|done]. unfold businesses_of. simpl.
      rewrite <- Hid. apply find_insert_or_replace_eq.
    + unfold MonitoringService._create_business_from_place in Hc.
      by destruct (Business.init _ _ _ _ _ _ _ _ _ _ _ _ _ _ _).
Qed.

(** The turn of another place does not unsettle it. *)
Lemma scan_place_keeps_settled settings st place q :
  (MonitoringService._should_exclude_business place settings = false →
   PlaceData.fsq_id q ≠ PlaceData.fsq_id place) →
  settled settings (businesses_of (MonitoringService.world st)) q →
  settled settings
    (businesses_of
       (MonitoringService.world
          (MonitoringService.scan_place settings st place)))
    q.
Proof.
  intros Hne [Hex|(b & Hfind & Hflag)]; [by left|].
  unfold MonitoringService.scan_place.
  destruct (MonitoringService._should_exclude_business place settings);
    [right; eauto|].
  specialize (Hne eq_refl). right. exists b. split; [|done].
  unfold businesses_of in *.
  destruct (DatabaseManager.get_business _ _) as [existing|] eqn:Hget.
  - apply get_business_elem in Hget as [_ Hid].
    unfold MonitoringService._update_existing_business.
    pose proof (update_from_api_data_fsq_id existing place
                  (clock (MonitoringService.world st))) as Hid'.
    destruct (Business.update_from_api_data _ _ _) as [[[] b'] c];
      [|done].
    simpl in *. rewrite find_insert_or_replace_ne by congruence. done.
  - destruct (MonitoringService._create_business_from_place _ _ _)
      as [[nb|] c] eqn:Hc; [|done].
    apply changed_flag_created in Hc as [_ Hid].
    simpl. rewrite find_insert_or_replace_ne by congruence. done.
Qed.

(** A first scan settles every place it fetched, when no identifier
    comes with two different records among the places it does not pass
    over. *)
Lemma scan_places_settles settings places : ∀ st,
  unambiguous (scanned settings places) →
  ∀ q, q ∈ places →
    settled settings
      (businesses_of
         (MonitoringService.world
            (fold_left (MonitoringService.scan_place settings) places st)))
      q.
Proof.
  unfold unambiguous, scanned.
  induction places as [|p places IH] using rev_ind; intros st Hun q Hq.
  - by apply elem_of_nil in Hq.
  - rewrite fold_left_app. simpl.
    apply elem_of_app in Hq as [Hq|Hq];
      [|apply list_elem_of_singleton in Hq as ->; apply scan_place_settles].
    destruct (MonitoringService._should_exclude_business q settings)
      eqn:Hqx; [by left|].
    destruct (MonitoringService._should_exclude_business p settings)
      eqn:Hpx.
    { rewrite scan_place_excluded by done. apply IH; [|done].
      rewrite filter_app, filter_cons, decide_False, filter_nil, app_nil_r
        in Hun; [done|].
      unfold not_excluded. congruence. }
    destruct (decide (PlaceData.fsq_id q = PlaceData.fsq_id p)) as [Heq|Hne].
    + rewrite Forall_forall in Hun.
      assert (q = p) as ->; [|apply scan_place_settles].
      assert (q ∈ filter (not_excluded settings) (places ++ [p])) as Hq'.
      { apply list_elem_of_filter. split; [done|].
        apply elem_of_app. by left. }
      assert (p ∈ filter (not_excluded settings) (places ++ [p])) as Hp'.
      { apply list_elem_of_filter. split; [done|].
        apply elem_of_app. right. by apply list_elem_of_singleton. }
      specialize (Hun q Hq'). rewrite Forall_forall in Hun. by apply Hun.
    + apply scan_place_keeps_settled; [done|].
      apply IH; [|done].
      rewrite filter_app in Hun. apply Forall_app in Hun as [Hun _].
      eapply Forall_impl; [exact Hun|]. intros x Hx.
      by apply Forall_app in Hx as [Hx _].
Qed.

(** A settled place costs its turn of the loop nothing. *)
Lemma scan_place_settled settings st place :
  settled settings (businesses_of (MonitoringService.world st)) place →
  MonitoringService.scan_place settings st place = st.
Proof.
  intros [Hex|(b & Hfind & Hflag)]; unfold MonitoringService.scan_place.
  - by rewrite Hex.
  - destruct (MonitoringService._should_exclude_business place settings);
      [done|].
    unfold DatabaseManager.get_business. fold (businesses_of
                                                 (MonitoringService.world st)).
    rewrite Hfind. unfold MonitoringService._update_existing_business.
    by rewrite update_from_api_data_unfold, Hflag.
Qed.

Lemma scan_places_settled settings places : ∀ st,
  (∀ q, q ∈ places →
     settled settings (businesses_of (MonitoringService.world st)) q) →
  fold_left (MonitoringService.scan_place settings) places st = st.
Proof.
  induction places as [|p places IH]; intros st Hall; [done|].
  simpl. rewrite scan_place_settled by (apply Hall, elem_of_cons; by left).
  apply IH. intros q Hq. apply Hall, elem_of_cons. by right.
Qed.

Lemma perform_scan_counts settings places w :
  let r := MonitoringService.perform_scan settings (Return places) w in
  let st := MonitoringService.scan_places settings places (scan_start w) in
  ScanHistory.new_businesses r.1
  = length (MonitoringService.new_businesses st)
  ∧ ScanHistory.updated_businesses r.1
    = length (MonitoringService.updated_businesses st).
Proof. cbv zeta. by rewrite perform_scan_unfold. Qed.

(** C3 (amended).  When no identifier comes with two different records
    among the fetched places that the scan does not pass over, a scan
    followed by a scan with the same settings and the same fetched places
    reports no new and no updated business the second time, and the
    second scan leaves the businesses table as the first left it. *)
Theorem second_scan_idempotent settings places w :
  unambiguous (scanned settings places) →
  second_scan_finds_nothing settings places w
  ∧ businesses_of
      (MonitoringService.perform_scan settings (Return places)
         (MonitoringService.perform_scan settings (Return places) w).2).2
    = businesses_of
        (MonitoringService.perform_scan settings (Return places) w).2.
Proof.
  intros Hnd. unfold second_scan_finds_nothing. cbv zeta.
  set (w1 := (MonitoringService.perform_scan settings (Return places) w).2).
  assert (∀ q, q ∈ places → settled settings (businesses_of w1) q)
    as Hsettled.
  { intros q Hq. unfold w1. rewrite perform_scan_businesses.
    by apply scan_places_settles. }
  assert (MonitoringService.scan_places settings places (scan_start w1)
          = MonitoringService.mkLoop [] [] (scan_start w1)) as Hloop.
  { apply scan_places_settled. intros q Hq. simpl.
    destruct (scan_start_clock w1) as [-> _]. by apply Hsettled. }
  destruct (perform_scan_counts settings places w1) as [Hnew Hupd].
  cbv zeta in Hnew, Hupd. rewrite Hloop in Hnew, Hupd.
  split; [by split|].
  rewrite perform_scan_businesses, Hloop. simpl.
  by destruct (scan_start_clock w1) as [-> _].
Qed.

Lemma second_scan_idempotent_witness :
  second_scan_finds_nothing some_settings
    [a_place; another_place; a_place] empty_world.
Proof.
  refine (proj1 (second_scan_idempotent some_settings
                   [a_place; another_place; a_place] empty_world _)).
  apply (bool_decide_unpack _). by vm_compute.
Defined.

(** ** Examples *)

(** A stored rating of 4.0 and a fetched rating of 4.5: the business is
    reported changed, its rating becomes 4.5, [last_updated] becomes the
    reading of the clock and [first_seen] stays. *)
Example update_rating_example :
  let stored :=
    Business.mk "4b5a" "Corner Cafe" ["Cafe"]
      (Location.mk (PyNum 0%Qc) (PyNum 0%Qc) PyNone PyNone PyNone PyNone
         PyNone)
      (Some (Q2Qc 4)) None None None false None 100 100 true None in
  let fetched := with_rating (Some (Q2Qc (45 # 10))) a_place in
  let r := Business.update_from_api_data stored fetched
             (mkClock 500 [7%N]) in
  r.1.1 = true
  ∧ Business.rating r.1.2 = Some (Q2Qc (45 # 10))
  ∧ Business.last_updated r.1.2 = 507
  ∧ Business.first_seen r.1.2 = 100.
Proof. vm_compute. repeat split. Qed.

(** Two places under the default settings, scanned twice from an empty
    database: two new businesses, then nothing. *)
Example scan_twice_example :
  let r1 := MonitoringService.perform_scan some_settings
              (Return [a_place; another_place]) empty_world in
  let r2 := MonitoringService.perform_scan some_settings
              (Return [a_place; another_place]) r1.2 in
  ScanHistory.new_businesses r1.1 = 2%nat
  ∧ ScanHistory.updated_businesses r1.1 = 0%nat
  ∧ ScanHistory.new_businesses r2.1 = 0%nat
  ∧ ScanHistory.updated_businesses r2.1 = 0%nat
  ∧ length (history_of r2.2) = 2%nat
  ∧ length (notifications_of r2.2) = 2%nat.
Proof. vm_compute. repeat split. Qed.

(** The same through a scan: the stored business is found, merged and
    saved, and the scan reports one updated business. *)
Example scan_updates_rating_example :
  let stored :=
    Business.mk "4b5a" "Corner Cafe" ["Cafe"]
      (Location.mk (PyNum 0%Qc) (PyNum 0%Qc) PyNone PyNone PyNone PyNone
         PyNone)
      (Some (Q2Qc 4)) None None None false None 100 100 true None in
  let w := mkWorld (DatabaseManager.mk [stored] [] [] [])
                   (mkClock 500 [1%N; 1%N; 1%N]) [] 0 [] in
  let r := MonitoringService.perform_scan some_settings
             (Return [with_rating (Some (Q2Qc (45 # 10))) a_place]) w in
  ScanHistory.new_businesses r.1 = 0%nat
  ∧ ScanHistory.updated_businesses r.1 = 1%nat
  ∧ (Business.rating <$> DatabaseManager.get_business "4b5a" (db r.2))
    = Some (Some (Q2Qc (45 # 10)))
  ∧ (Business.first_seen <$> DatabaseManager.get_business "4b5a" (db r.2))
    = Some 100
  ∧ (Business.last_updated <$> DatabaseManager.get_business "4b5a" (db r.2))
    = Some 503.
Proof. vm_compute. repeat split. Qed.

(** * Further properties *)

(** ** DatabaseManager: businesses *)

Lemma get_business_find k d :
  DatabaseManager.get_business k d
  = find (λ r, bool_decide (Business.fsq_id r = k))
         (DatabaseManager.businesses d).
Proof. reflexivity. Qed.

(** X1. A business that was saved is the one found under its identifier,
    and what is found under every other identifier is as before the
    save. *)
Theorem save_business_then_get (b : Business.t) (d : DatabaseManager.t)
    (k : string) :
  DatabaseManager.get_business k (DatabaseManager.save_business b d).2
  = if decide (k = Business.fsq_id b) then Some b
    else DatabaseManager.get_business k d.
Proof.
  rewrite !get_business_find. simpl. case_decide as Hk.
  - subst k. apply find_insert_or_replace_eq.
  - by apply find_insert_or_replace_ne.
Qed.

Lemma insert_or_replace_ids b rows :
  Business.fsq_id <$> DatabaseManager.insert_or_replace b rows
  = filter (λ k, k ≠ Business.fsq_id b) (Business.fsq_id <$> rows)
    ++ [Business.fsq_id b].
Proof.
  unfold DatabaseManager.insert_or_replace. rewrite fmap_app. f_equal.
  induction rows as [|r rows IH]; [done|].
  rewrite fmap_cons, !filter_cons.
  case_decide; rewrite ?fmap_cons, IH; done.
Qed.

Lemma insert_or_replace_NoDup b rows :
  NoDup (Business.fsq_id <$> rows) →
  NoDup (Business.fsq_id <$> DatabaseManager.insert_or_replace b rows).
Proof.
  intros Hnd. rewrite insert_or_replace_ids. apply NoDup_app.
  split_and!.
  - by apply NoDup_filter.
  - intros k Hk Hk'. apply list_elem_of_filter in Hk as [Hne _].
    by apply list_elem_of_singleton in Hk'.
  - apply NoDup_singleton.
Qed.

Lemma scan_place_ids_NoDup settings st place :
  NoDup (business_ids (MonitoringService.world st)) →
  NoDup (business_ids
           (MonitoringService.world
              (MonitoringService.scan_place settings st place))).
Proof.
  intros Hnd. unfold MonitoringService.scan_place.
  destruct (MonitoringService._should_exclude_business place settings);
    [done|].
  destruct (DatabaseManager.get_business _ _) as [existing|].
  - destruct (MonitoringService._update_existing_business _ _ _ _)
      as [[[] b'] c]; [|done].
    by apply insert_or_replace_NoDup.
  - destruct (MonitoringService._create_business_from_place _ _ _)
      as [[nb|] c]; [|done].
    by apply insert_or_replace_NoDup.
Qed.

Lemma perform_scan_ids_NoDup settings search_nearby w :
  NoDup (business_ids w) →
  NoDup (business_ids
           (MonitoringService.perform_scan settings search_nearby w).2).
Proof.
  intros Hnd. unfold business_ids in *.
  destruct search_nearby as [places|e].
  - rewrite perform_scan_businesses.
    apply (fold_left_preserve
             (λ st, NoDup (business_ids (MonitoringService.world st)))).
    + intros st p. apply scan_place_ids_NoDup.
    + unfold business_ids. simpl.
      by destruct (scan_start_clock w) as [-> _].
  - rewrite perform_scan_unfold. cbv zeta.
    rewrite scan_handlers_businesses. simpl.
    by destruct (scan_start_clock w) as [-> _].
Qed.

(** X2. The identifier is a key of the businesses table: a save keeps
    the identifiers of the rows distinct, so does a scan, and after every
    sequence of scans on a database that starts empty no two stored
    businesses have one identifier. *)
Theorem business_ids_distinct :
  (∀ b d,
     NoDup (Business.fsq_id <$> DatabaseManager.businesses d) →
     NoDup (Business.fsq_id
              <$> DatabaseManager.businesses
                    (DatabaseManager.save_business b d).2))
  ∧ (∀ settings search_nearby w,
       NoDup (business_ids w) →
       NoDup (business_ids
                (MonitoringService.perform_scan settings search_nearby w).2))
  ∧ (∀ scans c, NoDup (business_ids (run_scans scans (fresh_world c)))).
Proof.
  split_and!.
  - intros b d. apply insert_or_replace_NoDup.
  - apply perform_scan_ids_NoDup.
  - intros scans c. unfold run_scans.
    apply (fold_left_preserve (λ w, NoDup (business_ids w))).
    + intros w [settings search]. apply perform_scan_ids_NoDup.
    + apply NoDup_nil_2.
Qed.

(** ** DatabaseManager: monitoring settings *)

Lemma last_fmap {A B} (f : A → B) (l : list A) :
  last (f <$> l) = f <$> last l.
Proof.
  induction l as [|x l IH] using rev_ind; [done|].
  rewrite fmap_app. simpl. by rewrite !last_snoc.
Qed.

Lemma get_after_insert now settings d :
  DatabaseManager.id_truthy (MonitoringSettings.id settings) = false →
  DatabaseManager.get_monitoring_settings
    (DatabaseManager.save_monitoring_settings now settings d).2
  = Some (DatabaseManager.inserted_settings_row
            (DatabaseManager.lastrowid
               (DatabaseManager.monitoring_settings d))
            now settings).
Proof.
  intros Hid.
  unfold DatabaseManager.save_monitoring_settings,
    DatabaseManager.get_monitoring_settings.
  rewrite Hid. simpl. apply last_snoc.
Qed.

(** X3. Settings saved without an id are inserted under the next id, and
    [get_monitoring_settings] then returns them, whatever was stored
    before; that id is not zero, so the next save of what was returned
    is an update.  Settings saved with an id update the rows of that id
    in place: the number of rows stays, and [get_monitoring_settings]
    returns the newest row as before, changed only when it has that
    id. *)
Theorem save_monitoring_settings_then_get (now : datetime)
    (settings : MonitoringSettings.t) (d : DatabaseManager.t) :
  let r := DatabaseManager.save_monitoring_settings now settings d in
  if DatabaseManager.id_truthy (MonitoringSettings.id settings) then
    MonitoringSettings.id settings = Some r.1
    ∧ length (DatabaseManager.monitoring_settings r.2)
      = length (DatabaseManager.monitoring_settings d)
    ∧ DatabaseManager.get_monitoring_settings r.2
      = (λ row, if bool_decide (MonitoringSettings.id row = Some r.1)
                then DatabaseManager.updated_settings_row now settings row
                else row)
          <$> DatabaseManager.get_monitoring_settings d
  else
    DatabaseManager.get_monitoring_settings r.2
    = Some (DatabaseManager.inserted_settings_row r.1 now settings)
    ∧ r.1 = Z.of_nat (length (DatabaseManager.monitoring_settings d)) + 1
    ∧ DatabaseManager.id_truthy (Some r.1) = true
    ∧ DatabaseManager.monitoring_settings r.2
      = DatabaseManager.monitoring_settings d
        ++ [DatabaseManager.inserted_settings_row r.1 now settings].
Proof.
  cbv zeta. destruct (DatabaseManager.id_truthy _) eqn:Hid.
  - unfold DatabaseManager.save_monitoring_settings.
    rewrite Hid. cbn [fst snd].
    destruct (MonitoringSettings.id settings) as [n|] eqn:Hn; [|done].
    split_and!; [done|apply length_fmap|].
    unfold DatabaseManager.get_monitoring_settings. simpl.
    apply last_fmap.
  - rewrite get_after_insert by done.
    unfold DatabaseManager.save_monitoring_settings. rewrite Hid.
    cbn [fst snd]. split_and!; try done.
    unfold DatabaseManager.lastrowid, DatabaseManager.id_truthy.
    apply negb_true_iff, bool_decide_eq_false. lia.
Qed.



(** ** DatabaseManager: notifications *)

(** X5. Marking a notification read and dismissing one change no table
    but the notifications, remove and add no row, and leave every row as
    it was but for the flag, which is set on the rows of the given id and
    is never cleared.  Doing either twice is doing it once, and the two
    can be done in either order. *)
Theorem mark_read_and_dismiss :
  (∀ n d,
     let d' := (DatabaseManager.mark_notification_read n d).2 in
     DatabaseManager.businesses d' = DatabaseManager.businesses d
     ∧ DatabaseManager.monitoring_settings d'
       = DatabaseManager.monitoring_settings d
     ∧ DatabaseManager.scan_history d' = DatabaseManager.scan_history d
     ∧ length (DatabaseManager.notifications d')
       = length (DatabaseManager.notifications d)
     ∧ ∀ i row,
         DatabaseManager.notifications d !! i = Some row →
         ∃ row',
           DatabaseManager.notifications d' !! i = Some row'
           ∧ Notification.set_read false row'
             = Notification.set_read false row
           ∧ Notification.read row'
             = Notification.read row
               || bool_decide (Notification.id row = Some n))
  ∧ (∀ n d,
       let d' := (DatabaseManager.dismiss_notification n d).2 in
       DatabaseManager.businesses d' = DatabaseManager.businesses d
       ∧ DatabaseManager.monitoring_settings d'
         = DatabaseManager.monitoring_settings d
       ∧ DatabaseManager.scan_history d' = DatabaseManager.scan_history d
       ∧ length (DatabaseManager.notifications d')
         = length (DatabaseManager.notifications d)
       ∧ ∀ i row,
           DatabaseManager.notifications d !! i = Some row →
           ∃ row',
             DatabaseManager.notifications d' !! i = Some row'
             ∧ Notification.set_dismissed false row'
               = Notification.set_dismissed false row
             ∧ Notification.dismissed row'
               = Notification.dismissed row
                 || bool_decide (Notification.id row = Some n))
  ∧ (∀ n d,
       DatabaseManager.mark_notification_read n
         (DatabaseManager.mark_notification_read n d).2
       = DatabaseManager.mark_notification_read n d)
  ∧ (∀ n d,
       DatabaseManager.dismiss_notification n
         (DatabaseManager.dismiss_notification n d).2
       = DatabaseManager.dismiss_notification n d)
  ∧ (∀ n m d,
       DatabaseManager.dismiss_notification m
         (DatabaseManager.mark_notification_read n d).2
       = (true,
          (DatabaseManager.mark_notification_read n
             (DatabaseManager.dismiss_notification m d).2).2)).
Proof.
  split_and!.
  - intros n d. cbv zeta. simpl. split_and!; try done; [apply length_fmap|].
    intros i row Hrow. rewrite list_lookup_fmap, Hrow. simpl.
    eexists. split; [done|].
    destruct row as [id ty ti me bi bn ca rd di]. simpl.
    case_bool_decide; simpl; by rewrite ?orb_true_r, ?orb_false_r.
  - intros n d. cbv zeta. simpl. split_and!; try done; [apply length_fmap|].
    intros i row Hrow. rewrite list_lookup_fmap, Hrow. simpl.
    eexists. split; [done|].
    destruct row as [id ty ti me bi bn ca rd di]. simpl.
    case_bool_decide; simpl; by rewrite ?orb_true_r, ?orb_false_r.
  - intros n d. unfold DatabaseManager.mark_notification_read. simpl.
    do 2 f_equal. rewrite <- list_fmap_compose. apply list_fmap_ext.
    intros i row _. simpl. by repeat (case_bool_decide; simpl).
  - intros n d. unfold DatabaseManager.dismiss_notification. simpl.
    do 2 f_equal. rewrite <- list_fmap_compose. apply list_fmap_ext.
    intros i row _. simpl. by repeat (case_bool_decide; simpl).
  - intros n m d. unfold DatabaseManager.dismiss_notification,
      DatabaseManager.mark_notification_read. simpl.
    do 2 f_equal. rewrite <- !list_fmap_compose. apply list_fmap_ext.
    intros i row _. simpl. by repeat (case_bool_decide; simpl).
Qed.

(** ** DatabaseManager.get_businesses_within_radius *)

Lemma float_abs_zero lat :
  (Q2Qc 111 * DatabaseManager.float_abs lat)%Qc = 0%Qc ↔ lat = 0%Qc.
Proof.
  unfold DatabaseManager.float_abs. split.
  - intros H. apply Qcmult_integral in H as [H|H]; [done|].
    case_bool_decide; [|done].
    by rewrite <- (Qcopp_involutive lat), H.
  - intros ->. by vm_compute.
Qed.

Lemma in_bounding_box_true min_lat max_lat min_lng max_lng b :
  DatabaseManager.in_bounding_box min_lat max_lat min_lng max_lng b
  = Some true
  ↔ ∃ x y,
      Location.latitude (Business.location b) = PyNum x
      ∧ Location.longitude (Business.location b) = PyNum y
      ∧ (min_lat ≤ x)%Qc ∧ (x ≤ max_lat)%Qc
      ∧ (min_lng ≤ y)%Qc ∧ (y ≤ max_lng)%Qc.
Proof.
  unfold DatabaseManager.in_bounding_box, DatabaseManager.float_le_val,
    DatabaseManager.val_le_float.
  split.
  - intros H. repeat case_match; simplify_eq.
    repeat match goal with
    | H : bool_decide _ = true |- _ => apply bool_decide_eq_true in H
    end.
    eauto 10.
  - intros (x & y & -> & -> & H1 & H2 & H3 & H4).
    by rewrite !bool_decide_eq_true_2.
Qed.

Lemma in_bounding_box_numeric min_lat max_lat min_lng max_lng b x y :
  Location.latitude (Business.location b) = PyNum x →
  Location.longitude (Business.location b) = PyNum y →
  is_Some (DatabaseManager.in_bounding_box min_lat max_lat min_lng max_lng b).
Proof.
  intros Hx Hy. unfold DatabaseManager.in_bounding_box. rewrite Hx, Hy.
  simpl. repeat case_match; eauto.
Qed.

Lemma filter_in_box_sound min_lat max_lat min_lng max_lng l : ∀ res,
  DatabaseManager.filter_in_box min_lat max_lat min_lng max_lng l = Some res →
  ∀ b, b ∈ res ↔
       b ∈ l
       ∧ DatabaseManager.in_bounding_box min_lat max_lat min_lng max_lng b
         = Some true.
Proof.
  induction l as [|a l IH]; simpl; intros res Hres b.
  - injection Hres as <-. split; [by intros ?%elem_of_nil|].
    by intros [?%elem_of_nil _].
  - destruct (DatabaseManager.in_bounding_box _ _ _ _ a) as [inside|] eqn:Ha;
      [|done].
    destruct (DatabaseManager.filter_in_box _ _ _ _ l) as [rest|]; [|done].
    injection Hres as <-. specialize (IH rest eq_refl b).
    destruct inside; rewrite ?elem_of_cons, IH.
    + split; [intros [->|[? ?]]; auto|]. intros [[->|?] ?]; auto.
    + split; [intros [? ?]; auto|].
      intros [[->|?] ?]; [congruence|auto].
Qed.

Lemma filter_in_box_total min_lat max_lat min_lng max_lng l :
  (∀ b, b ∈ l →
     is_Some (DatabaseManager.in_bounding_box min_lat max_lat min_lng
                max_lng b)) →
  is_Some (DatabaseManager.filter_in_box min_lat max_lat min_lng max_lng l).
Proof.
  induction l as [|a l IH]; simpl; intros Hall; [eauto|].
  destruct (Hall a) as [inside ->]; [apply elem_of_cons; by left|].
  destruct IH as [rest ->]; [|eauto].
  intros b Hb. apply Hall, elem_of_cons. by right.
Qed.

Lemma filter_in_box_raises min_lat max_lat min_lng max_lng l b :
  b ∈ l →
  DatabaseManager.in_bounding_box min_lat max_lat min_lng max_lng b = None →
  DatabaseManager.filter_in_box min_lat max_lat min_lng max_lng l = None.
Proof.
  induction l as [|a l IH]; simpl; intros Hb Hnone;
    [by apply elem_of_nil in Hb|].
  apply elem_of_cons in Hb as [<-|Hb]; [by rewrite Hnone|].
  rewrite (IH Hb Hnone). by destruct (DatabaseManager.in_bounding_box _ _ _ _ a).
Qed.

(** X6. [get_businesses_within_radius] returns only stored businesses
    that lie in its box around the point.  Around a point of latitude 0
    it returns nothing, whatever is stored; so it does when a stored
    business has a latitude that is no number.  Around another point, and
    when the coordinates of all stored businesses are numbers, it returns
    exactly the stored businesses in the box. *)
Theorem get_businesses_within_radius_spec :
  (∀ lat lng radius_km d b,
     b ∈ DatabaseManager.get_businesses_within_radius lat lng radius_km d →
     b ∈ DatabaseManager.businesses d ∧ inside_box lat lng radius_km b)
  ∧ (∀ lng radius_km d,
       DatabaseManager.get_businesses_within_radius 0%Qc lng radius_km d
       = [])
  ∧ (∀ lat lng radius_km d b,
       b ∈ DatabaseManager.businesses d →
       (∀ x, Location.latitude (Business.location b) ≠ PyNum x) →
       DatabaseManager.get_businesses_within_radius lat lng radius_km d
       = [])
  ∧ (∀ lat lng radius_km d b,
       lat ≠ 0%Qc →
       numeric_coordinates d →
       b ∈ DatabaseManager.get_businesses_within_radius lat lng radius_km d
       ↔ b ∈ DatabaseManager.businesses d
         ∧ inside_box lat lng radius_km b).
Proof.
  split_and!.
  - intros lat lng r d b. unfold DatabaseManager.get_businesses_within_radius.
    cbv zeta. case_bool_decide; [by intros ?%elem_of_nil|].
    destruct (DatabaseManager.filter_in_box _ _ _ _ _) as [res|] eqn:Hres;
      [|by intros ?%elem_of_nil].
    simpl. rewrite (filter_in_box_sound _ _ _ _ _ _ Hres).
    by rewrite in_bounding_box_true.
  - intros lng r d. unfold DatabaseManager.get_businesses_within_radius.
    cbv zeta. by rewrite bool_decide_eq_true_2 by (by apply float_abs_zero).
  - intros lat lng r d b Hb Hnum.
    unfold DatabaseManager.get_businesses_within_radius.
    cbv zeta. case_bool_decide; [done|].
    erewrite filter_in_box_raises; [done|exact Hb|].
    unfold DatabaseManager.in_bounding_box, DatabaseManager.float_le_val.
    destruct (Location.latitude (Business.location b)); try done.
    by destruct (Hnum q).
  - intros lat lng r d b Hlat Hnum.
    unfold DatabaseManager.get_businesses_within_radius.
    cbv zeta. rewrite bool_decide_eq_false_2 by (by rewrite float_abs_zero).
    edestruct filter_in_box_total as [res Hres].
    { intros b' Hb'. destruct (Hnum b' Hb') as (x & y & Hx & Hy).
      by eapply in_bounding_box_numeric. }
    rewrite Hres. simpl. rewrite (filter_in_box_sound _ _ _ _ _ _ Hres).
    by rewrite in_bounding_box_true.
Qed.

(** ** FoursquareClient.search_nearby and get_place_details *)

Lemma category_names_spec categories names :
  FoursquareClient.category_names categories = Some names
  ↔ categories = Some <$> names.
Proof.
  revert names. induction categories as [|cat categories IH];
    intros names; simpl.
  - split; [by intros [= <-]|]. by destruct names.
  - destruct cat as [name|].
    + destruct (FoursquareClient.category_names categories) as [ns|].
      * split.
        -- intros [= <-]. simpl. f_equal. by apply IH.
        -- destruct names as [|n names]; [done|]. intros [= -> Heq].
           apply IH in Heq. by injection Heq as ->.
      * split; [done|]. destruct names as [|n names]; [done|].
        intros [= -> Heq]. by apply IH in Heq.
    + split; [done|]. by destruct names.
Qed.

Lemma category_names_is_Some categories :
  is_Some (FoursquareClient.category_names categories)
  ↔ Forall is_Some categories.
Proof.
  induction categories as [|cat categories IH]; simpl.
  - split; [constructor|eauto].
  - rewrite Forall_cons, <- IH. destruct cat as [name|].
    + destruct (FoursquareClient.category_names categories).
      * split; [eauto|eauto].
      * split; [by intros [? [=]]|]. by intros [_ [? [=]]].
    + split; [by intros [? [=]]|]. by intros [[? [=]] _].
Qed.

Lemma place_of_result_is_Some result :
  is_Some (FoursquareClient.place_of_result result) ↔ well_formed result.
Proof.
  unfold FoursquareClient.place_of_result, well_formed.
  rewrite <- category_names_is_Some.
  destruct (RawResult.fsq_id result) as [i|];
    [|split; [by intros [? [=]]|by intros ([? [=]] & _)]].
  destruct (RawResult.name result) as [n|];
    [|split; [by intros [? [=]]|by intros (_ & [? [=]] & _)]].
  destruct (FoursquareClient.category_names _) as [cs|];
    [|split; [by intros [? [=]]|by intros (_ & _ & [? [=]])]].
  split; eauto.
Qed.

Lemma place_of_result_fields result place :
  FoursquareClient.place_of_result result = Some place →
  RawResult.fsq_id result = Some (PlaceData.fsq_id place)
  ∧ RawResult.name result = Some (PlaceData.name place)
  ∧ default [] (RawResult.categories result)
    = Some <$> PlaceData.categories place
  ∧ PlaceData.location place = default ∅ (RawResult.location result)
  ∧ PlaceData.rating place = RawResult.rating result
  ∧ PlaceData.hours place = RawResult.hours result
  ∧ PlaceData.website place = RawResult.website result
  ∧ PlaceData.tel place = RawResult.tel result
  ∧ PlaceData.verified place = default false (RawResult.verified result)
  ∧ PlaceData.popularity place = RawResult.popularity result.
Proof.
  unfold FoursquareClient.place_of_result.
  destruct (RawResult.fsq_id result) as [i|]; [|done].
  destruct (RawResult.name result) as [n|]; [|done].
  destruct (FoursquareClient.category_names _) as [cs|] eqn:Hcs; [|done].
  intros [= <-]. apply category_names_spec in Hcs. by split_and!.
Qed.

Lemma omap_cons_match {A B} (f : A → option B) (x : A) (l : list A) :
  omap f (x :: l)
  = match f x with
    | Some y => y :: omap f l
    | None => omap f l
    end.
Proof. reflexivity. Qed.

Lemma omap_place_of_result_ids (rs : list RawResult.t) :
  PlaceData.fsq_id <$> omap FoursquareClient.place_of_result rs
  = omap RawResult.fsq_id (filter well_formed rs).
Proof.
  induction rs as [|r rs IH]; [done|].
  rewrite filter_cons, omap_cons_match.
  destruct (FoursquareClient.place_of_result r) as [p|] eqn:Hp.
  - rewrite decide_True by (apply place_of_result_is_Some; eauto).
    rewrite omap_cons_match.
    apply place_of_result_fields in Hp as (-> & _).
    by rewrite fmap_cons, IH.
  - rewrite decide_False; [done|].
    rewrite <- place_of_result_is_Some, Hp. by intros [? [=]].
Qed.

(** X7. [search_nearby] returns no place for a failed request or a body
    without results.  Otherwise it drops the place objects that lack an
    identifier, a name or the name of a category, and no others: the
    places returned are those of the well-formed objects, in their
    order, each with the fields of its object (no location read as the
    empty dict, no [verified] as false).  [get_place_details] accepts an
    object exactly when [search_nearby] keeps it. *)
Theorem search_nearby_spec :
  FoursquareClient.search_nearby None = []
  ∧ (∀ body,
       let rs := default [] (results body) in
       let places := FoursquareClient.search_nearby (Some body) in
       PlaceData.fsq_id <$> places
       = omap RawResult.fsq_id (filter well_formed rs)
       ∧ length places = length (filter well_formed rs)
       ∧ (length places ≤ length rs)%nat
       ∧ ∀ place,
           place ∈ places
           ↔ ∃ result,
               result ∈ rs
               ∧ FoursquareClient.get_place_details (Some result)
                 = Some place)
  ∧ (∀ result,
       is_Some (FoursquareClient.get_place_details (Some result))
       ↔ well_formed result)
  ∧ (∀ result place,
       FoursquareClient.get_place_details (Some result) = Some place →
       RawResult.fsq_id result = Some (PlaceData.fsq_id place)
       ∧ RawResult.name result = Some (PlaceData.name place)
       ∧ default [] (RawResult.categories result)
         = Some <$> PlaceData.categories place
       ∧ PlaceData.location place = default ∅ (RawResult.location result)
       ∧ PlaceData.rating place = RawResult.rating result
       ∧ PlaceData.hours place = RawResult.hours result
       ∧ PlaceData.website place = RawResult.website result
       ∧ PlaceData.tel place = RawResult.tel result
       ∧ PlaceData.verified place = default false (RawResult.verified result)
       ∧ PlaceData.popularity place = RawResult.popularity result).
Proof.
  split_and!; [done| |apply place_of_result_is_Some
              |apply place_of_result_fields].
  intros body. cbv zeta. unfold FoursquareClient.search_nearby.
  pose proof (omap_place_of_result_ids (default [] (results body))) as Hids.
  assert (length (omap FoursquareClient.place_of_result
                    (default [] (results body)))
          = length (filter well_formed (default [] (results body))))
    as Hlen.
  { apply (f_equal length) in Hids. rewrite length_fmap in Hids.
    rewrite Hids. clear Hids.
    induction (default [] (results body)) as [|r rs IH]; [done|].
    rewrite filter_cons. case_decide as Hwf; [|done].
    rewrite omap_cons_match. destruct Hwf as ([i ->] & _).
    simpl. by rewrite IH. }
  split_and!; [done|done| |].
  - rewrite Hlen. apply length_filter.
  - intros place. apply list_elem_of_omap.
Qed.

(** ** FoursquareClient._make_request: one attempt *)

Lemma make_request_attempt {Body} (server : nat → HttpOutcome Body)
    (endpoint : string) (params : list (string * string))
    (self : FoursquareClient.t) (fuel : nat) :
  is_429 (server (length (FoursquareClient.sent self))) = false →
  let ok := (RateLimiter.can_make_request
               (tick (FoursquareClient.clock self)).1
               (FoursquareClient.rate_limiter self)).1 in
  let r := FoursquareClient._make_request server (S fuel) endpoint params
             self in
  r.1 = Some (returned (server (length (FoursquareClient.sent self))))
  ∧ FoursquareClient.sent r.2
    = FoursquareClient.sent self ++ [(endpoint, params)]
  ∧ FoursquareClient.slept r.2
    = FoursquareClient.slept self ++ (if ok then [] else [60])
  ∧ elapsed (FoursquareClient.clock self) + (if ok then 0 else 60)
    ≤ elapsed (FoursquareClient.clock r.2)
  ∧ match server (length (FoursquareClient.sent self)) with
    | RequestException _ =>
      RateLimiter.requests (FoursquareClient.rate_limiter r.2)
      = kept_requests self
    | Response _ _ =>
      ∃ t, RateLimiter.requests (FoursquareClient.rate_limiter r.2)
           = kept_requests self ++ [t]
           ∧ elapsed (FoursquareClient.clock self) + (if ok then 0 else 60)
             ≤ t
    end.
Proof.
  intros Hans. cbv zeta. unfold kept_requests.
  cbn [FoursquareClient._make_request].
  destruct (tick (FoursquareClient.clock self)) as [now c] eqn:Ht.
  apply tick_inv in Ht as [Hm1 Hc]. cbn [fst].
  destruct (RateLimiter.can_make_request now _) as [ok rl] eqn:Hcan.
  cbn [fst snd].
  destruct (server (length (FoursquareClient.sent self)))
    as [status_code json|msg].
  - simpl in Hans. apply bool_decide_eq_false in Hans.
    destruct ok.
    + destruct (tick c) as [now' c2] eqn:Ht2.
      apply tick_inv in Ht2 as [Hm3 Hc2].
      case_bool_decide as H200.
      * subst status_code. simpl. rewrite app_nil_r.
        split_and!; try done; [lia|]. exists now'. split; [done|lia].
      * rewrite bool_decide_eq_false_2 by done. simpl. rewrite app_nil_r.
        split_and!; try done; [|lia|exists now'; split; [done|lia]].
        destruct status_code as [|[]|]; try done.
        repeat (match goal with |- context [match ?p with _ => _ end] =>
                  destruct p; try done end).
    + destruct (tick (sleep 60 c)) as [now' c2] eqn:Ht2.
      apply tick_inv in Ht2 as [Hm3 Hc2]. simpl in Hm3.
      case_bool_decide as H200.
      * subst status_code. simpl.
        split_and!; try done; [lia|]. exists now'. split; [done|lia].
      * rewrite bool_decide_eq_false_2 by done. simpl.
        split_and!; try done; [|lia|exists now'; split; [done|lia]].
        destruct status_code as [|[]|]; try done.
        repeat (match goal with |- context [match ?p with _ => _ end] =>
                  destruct p; try done end).
  - destruct ok; simpl; rewrite ?app_nil_r; split_and!; try done; lia.
Qed.

(** X8. The limiter delays a request and does not stop it: when it says
    no, [_make_request] sleeps 60 seconds once and sends the request
    without asking again, however long the window is.  When the request
    is answered it is recorded, and the limiter then holds more requests
    than its cap. *)
Theorem denied_request_is_sent {Body} (server : nat → HttpOutcome Body)
    (endpoint : string) (params : list (string * string))
    (self : FoursquareClient.t) (fuel : nat) :
  (RateLimiter.can_make_request (tick (FoursquareClient.clock self)).1
     (FoursquareClient.rate_limiter self)).1 = false →
  is_429 (server (length (FoursquareClient.sent self))) = false →
  let r := FoursquareClient._make_request server (S fuel) endpoint params
             self in
  r.1 = Some (returned (server (length (FoursquareClient.sent self))))
  ∧ FoursquareClient.sent r.2
    = FoursquareClient.sent self ++ [(endpoint, params)]
  ∧ FoursquareClient.slept r.2 = FoursquareClient.slept self ++ [60]
  ∧ elapsed (FoursquareClient.clock self) + 60
    ≤ elapsed (FoursquareClient.clock r.2)
  ∧ ∀ status_code json,
      server (length (FoursquareClient.sent self))
      = Response status_code json →
      RateLimiter.max_requests (FoursquareClient.rate_limiter self)
      < Z.of_nat (length (RateLimiter.requests
                            (FoursquareClient.rate_limiter r.2))).
Proof.
  intros Hno Hans.
  pose proof (make_request_attempt server endpoint params self fuel Hans)
    as (Hr & Hsent & Hslept & Hclock & Hrec).
  cbv zeta in *. rewrite Hno in Hslept, Hclock, Hrec.
  split_and!; try done.
  intros status_code json Hresp. rewrite Hresp in Hrec.
  destruct Hrec as (t & -> & _). rewrite length_app. simpl.
  rewrite can_make_request_answer in Hno.
  apply bool_decide_eq_false in Hno.
  unfold kept_requests. rewrite can_make_request_requests. lia.
Qed.

Lemma denied_request_is_sent_witness :
  (FoursquareClient._make_request always_ok 1 "search" [] spent_client).1
  = Some (Some "ok").
Proof.
  refine (proj1 (denied_request_is_sent always_ok "search" [] spent_client
                   0 _ _)); reflexivity.
Defined.

(** X9. Of one attempt the limiter records the request when the server
    answered, with the time after the answer, and records nothing when
    the session raised; in both cases the requests it had are pruned to
    those inside the window first. *)
Theorem attempt_is_recorded_when_answered {Body}
    (server : nat → HttpOutcome Body) (endpoint : string)
    (params : list (string * string)) (self : FoursquareClient.t)
    (fuel : nat) :
  is_429 (server (length (FoursquareClient.sent self))) = false →
  let r := FoursquareClient._make_request server (S fuel) endpoint params
             self in
  match server (length (FoursquareClient.sent self)) with
  | RequestException _ =>
    r.1 = Some None
    ∧ RateLimiter.requests (FoursquareClient.rate_limiter r.2)
      = kept_requests self
  | Response _ _ =>
    ∃ t, RateLimiter.requests (FoursquareClient.rate_limiter r.2)
         = kept_requests self ++ [t]
         ∧ elapsed (FoursquareClient.clock self) ≤ t
         ∧ t ≤ elapsed (FoursquareClient.clock r.2)
  end.
Proof.
  intros Hans.
  pose proof (make_request_attempt server endpoint params self fuel Hans)
    as (Hr & Hsent & Hslept & Hclock & Hrec).
  cbv zeta in *.
  destruct (server (length (FoursquareClient.sent self)))
    as [status_code json|msg] eqn:Hs; [|done].
  destruct Hrec as (t & Hreq & Ht). exists t. split; [done|].
  split; [destruct (RateLimiter.can_make_request _ _).1; lia|].
  clear Hr Hsent Hslept Hclock. revert Hreq.
  cbn [FoursquareClient._make_request]. rewrite Hs.
  destruct (tick (FoursquareClient.clock self)) as [now c].
  destruct (RateLimiter.can_make_request now _) as [ok rl].
  simpl in Hans. apply bool_decide_eq_false in Hans.
  destruct (if ok then _ else _) as [c1 naps].
  destruct (tick c1) as [now' c2] eqn:Ht2.
  apply tick_inv in Ht2 as [_ Hc2].
  case_bool_decide; [|rewrite bool_decide_eq_false_2 by done]; simpl;
    intros Heq; apply app_inj_tail in Heq as [_ <-]; lia.
Qed.

Lemma attempt_is_recorded_when_answered_witness :
  (FoursquareClient._make_request always_down 1 "search" [] spent_client).1
  = Some None
  ∧ RateLimiter.requests
      (FoursquareClient.rate_limiter
         (FoursquareClient._make_request always_down 1 "search" []
            spent_client).2)
    = kept_requests spent_client.
Proof.
  exact (attempt_is_recorded_when_answered always_down "search" []
           spent_client 0 eq_refl).
Defined.

(** ** A request that fails, seen from the scan *)

Lemma _generate_notifications_nil settings w :
  MonitoringService._generate_notifications [] [] settings w = w.
Proof.
  unfold MonitoringService._generate_notifications.
  by rewrite !andb_false_r.
Qed.

Lemma perform_scan_nil settings w :
  let r := MonitoringService.perform_scan settings (Return []) w in
  ScanHistory.success r.1 = true
  ∧ ScanHistory.error_message r.1 = None
  ∧ ScanHistory.businesses_found r.1 = 0%nat
  ∧ ScanHistory.new_businesses r.1 = 0%nat
  ∧ ScanHistory.updated_businesses r.1 = 0%nat
  ∧ businesses_of r.2 = businesses_of w
  ∧ notifications_of r.2 = notifications_of w.
Proof.
  cbv zeta. rewrite perform_scan_unfold. cbv zeta.
  cbn [MonitoringService.scan_try MonitoringService.scan_places fold_left
       MonitoringService.new_businesses MonitoringService.updated_businesses
       MonitoringService.world length fst snd].
  rewrite _generate_notifications_nil.
  pose proof (scan_handlers_spec (tick (clock w)).1 (Return ())
    (ScanHistory.set_success true
       (ScanHistory.set_updated_businesses 0
          (ScanHistory.set_new_businesses 0
             (ScanHistory.set_businesses_found 0
                (ScanHistory.init (tick (clock w)).2).1))))
    (scan_start w)) as (_ & Hb & Hn & Hf & Hnew & Hup & Hs & He).
  cbv zeta in *. rewrite Hb, Hn, Hf, Hnew, Hup, Hs, He.
  unfold ScanHistory.init. destruct (tick (tick (clock w)).2). done.
Qed.

(** X10. A request that fails is not a scan that fails: when the answer
    is an error status, a body that is no JSON or an exception of the
    session, [_make_request] returns [None], [search_nearby] makes the
    empty list of it, and the scan of that list reports success with no
    business found and changes no business and no notification. *)
Theorem failed_request_scans_nothing (server : nat → HttpOutcome SearchBody)
    (endpoint : string) (params : list (string * string))
    (self : FoursquareClient.t) (fuel : nat)
    (settings : MonitoringSettings.t) (w : World) :
  is_429 (server (length (FoursquareClient.sent self))) = false →
  returned (server (length (FoursquareClient.sent self))) = None →
  ∃ response,
    (FoursquareClient._make_request server (S fuel) endpoint params self).1
    = Some response
    ∧ FoursquareClient.search_nearby response = []
    ∧ let r := MonitoringService.perform_scan settings
                 (Return (FoursquareClient.search_nearby response)) w in
      ScanHistory.success r.1 = true
      ∧ ScanHistory.error_message r.1 = None
      ∧ ScanHistory.businesses_found r.1 = 0%nat
      ∧ ScanHistory.new_businesses r.1 = 0%nat
      ∧ ScanHistory.updated_businesses r.1 = 0%nat
      ∧ businesses_of r.2 = businesses_of w
      ∧ notifications_of r.2 = notifications_of w.
Proof.
  intros Hans Hret.
  pose proof (make_request_attempt server endpoint params self fuel Hans)
    as (Hr & _).
  cbv zeta in Hr. rewrite Hret in Hr.
  exists None. split; [done|]. split; [done|].
  apply perform_scan_nil.
Qed.

Lemma failed_request_scans_nothing_witness :
  ∃ response,
    (FoursquareClient._make_request search_down 1 "search" []
       (FoursquareClient.init clock0)).1 = Some response
    ∧ FoursquareClient.search_nearby response = []
    ∧ let r := MonitoringService.perform_scan some_settings
                 (Return (FoursquareClient.search_nearby response))
                 empty_world in
      ScanHistory.success r.1 = true
      ∧ ScanHistory.error_message r.1 = None
      ∧ ScanHistory.businesses_found r.1 = 0%nat
      ∧ ScanHistory.new_businesses r.1 = 0%nat
      ∧ ScanHistory.updated_businesses r.1 = 0%nat
      ∧ businesses_of r.2 = businesses_of empty_world
      ∧ notifications_of r.2 = notifications_of empty_world.
Proof.
  apply (failed_request_scans_nothing search_down "search" []
           (FoursquareClient.init clock0) 0 some_settings empty_world);
    reflexivity.
Defined.

(** ** MonitoringService._is_potential_competitor *)

Lemma monitored_check_spec place settings :
  existsb (MonitoringService.any_lower_in
             (MonitoringSettings.categories_to_monitor settings))
          (PlaceData.categories place) = true
  ↔ category_monitored place settings.
Proof.
  unfold category_monitored. rewrite existsb_exists. split.
  - intros (category & Hin & Hany).
    apply any_lower_in_spec in Hany as (monitored & Hm & Hc).
    exists category, monitored. split_and!; try done.
    by apply list_elem_of_In.
  - intros (category & monitored & Hin & Hm & Hc).
    exists category. split; [by apply list_elem_of_In|].
    apply any_lower_in_spec. eauto.
Qed.

(** X11. A place counts as a competitor exactly when no category is
    monitored, or when one of its categories contains a monitored one,
    whatever the case of the letters.  So under a list of monitored
    categories a place without categories is no competitor. *)
Theorem is_potential_competitor_spec (place : PlaceData.t)
    (settings : MonitoringSettings.t) :
  (MonitoringService._is_potential_competitor place settings = true
   ↔ MonitoringSettings.categories_to_monitor settings = []
     ∨ category_monitored place settings)
  ∧ (MonitoringSettings.categories_to_monitor settings ≠ [] →
     PlaceData.categories place = [] →
     MonitoringService._is_potential_competitor place settings = false).
Proof.
  assert (MonitoringService._is_potential_competitor place settings = true
          ↔ MonitoringSettings.categories_to_monitor settings = []
            ∨ category_monitored place settings) as Hiff.
  { unfold MonitoringService._is_potential_competitor.
    destruct (MonitoringSettings.categories_to_monitor settings)
      as [|m ms] eqn:Hm; simpl.
    - split; [by left|done].
    - rewrite <- Hm.
      destruct (existsb _ _) eqn:Hex.
      + split; [|done]. intros _. right. by apply monitored_check_spec.
      + split; [done|]. intros [Hnil|Hmon]; [by rewrite Hm in Hnil|].
        apply monitored_check_spec in Hmon. congruence. }
  split; [done|].
  intros Hne Hnil. apply not_true_is_false. rewrite Hiff.
  intros [?|(category & _ & Hin & _)]; [done|].
  rewrite Hnil in Hin. by apply elem_of_nil in Hin.
Qed.

(** ** MonitoringService._generate_notifications *)

Lemma notes_added_refl w : notes_added w w [].
Proof. unfold notes_added. by rewrite app_nil_r. Qed.

Lemma notes_added_trans w1 w2 w3 a b :
  notes_added w1 w2 a → notes_added w2 w3 b → notes_added w1 w3 (a ++ b).
Proof.
  unfold notes_added. intros (H1 & H2 & H3 & H4 & H5 & H6 & H7)
    (K1 & K2 & K3 & K4 & K5 & K6 & K7).
  rewrite K1, H1, app_assoc. split_and!; congruence.
Qed.

Lemma numbered_from_nil k : numbered_from k [].
Proof. intros i row Hi. by rewrite lookup_nil in Hi. Qed.

Lemma numbered_from_app k a b :
  numbered_from k a → numbered_from (k + length a) b →
  numbered_from k (a ++ b).
Proof.
  intros Ha Hb i row Hi. apply lookup_app_Some in Hi as [Hi|[Hle Hi]].
  - by apply Ha.
  - apply Hb in Hi. rewrite Hi. f_equal. lia.
Qed.

Lemma numbered_from_singleton k row :
  Notification.id row = Some (Z.of_nat k + 1) → numbered_from k [row].
Proof.
  intros Hid i r Hi. apply list_lookup_singleton_Some in Hi as [-> <-].
  rewrite Hid. f_equal. lia.
Qed.

Lemma sequential_ids_app rows added :
  sequential_ids rows → numbered_from (length rows) added →
  sequential_ids (rows ++ added).
Proof. intros Hs Ha. by apply (numbered_from_app 0). Qed.

Lemma notify_spec type title message business w :
  ∃ row,
    notes_added w (MonitoringService.notify type title message business w)
      [row]
    ∧ tells row (type, business)
    ∧ Notification.title row = title
    ∧ Notification.message row = message
    ∧ Notification.id row
      = Some (Z.of_nat (length (notifications_of w)) + 1).
Proof.
  unfold MonitoringService.notify, Notification.init.
  destruct (tick (clock w)) as [now c].
  destruct (tick c) as [current_timestamp c'].
  eexists. unfold notes_added, tells, notified. simpl.
  split_and!; reflexivity.
Qed.

(** A loop that stores a notification of the type [sel] gives for some
    of the businesses, and does nothing for the others. *)
Lemma fold_notify (f : World → Business.t → World)
    (sel : Business.t → option NotificationType) :
  (∀ w b,
     match sel b with
     | Some type =>
       ∃ row, notes_added w (f w b) [row] ∧ tells row (type, b)
              ∧ Notification.id row
                = Some (Z.of_nat (length (notifications_of w)) + 1)
     | None => f w b = w
     end) →
  ∀ (bs : list Business.t) w,
    ∃ added,
      notes_added w (fold_left f bs w) added
      ∧ Forall2 tells added (omap (λ b, (λ type, (type, b)) <$> sel b) bs)
      ∧ numbered_from (length (notifications_of w)) added.
Proof.
  intros Hf bs. induction bs as [|b bs IH]; intros w.
  - exists []. split_and!; [apply notes_added_refl|constructor|].
    apply numbered_from_nil.
  - cbn [fold_left]. specialize (Hf w b).
    rewrite omap_cons_match.
    destruct (sel b) as [type|]; simpl.
    + destruct Hf as (row & Hrow & Htells & Hid).
      destruct (IH (f w b)) as (added & Hadded & Hall & Hnum).
      exists (row :: added). split_and!.
      * apply (notes_added_trans w (f w b) _ [row] added); done.
      * by constructor.
      * apply (numbered_from_app _ [row] added).
        -- by apply numbered_from_singleton.
        -- destruct Hrow as (Hn & _). rewrite Hn, length_app in Hnum.
           done.
    + rewrite Hf. apply IH.
Qed.

Lemma omap_select (P : Business.t → bool) (type : NotificationType)
    (bs : list Business.t) :
  omap (λ b, (λ type, (type, b))
               <$> (if P b then Some type else None)) bs
  = (λ b, (type, b)) <$> filter (λ b, P b = true) bs.
Proof.
  induction bs as [|b bs IH]; [done|].
  rewrite omap_cons_match, filter_cons. destruct (P b) eqn:HP.
  - rewrite decide_True by done. simpl. by f_equal.
  - rewrite decide_False by done. exact IH.
Qed.

Lemma omap_all (type : NotificationType) (bs : list Business.t) :
  omap (λ b, (λ type, (type, b)) <$> Some type) bs
  = (λ b, (type, b)) <$> bs.
Proof.
  induction bs as [|b bs IH]; [done|].
  rewrite omap_cons_match. simpl. by f_equal.
Qed.

Lemma _generate_notifications_added new_bs updated_bs settings w :
  ∃ added,
    notes_added w
      (MonitoringService._generate_notifications new_bs updated_bs settings
         w) added
    ∧ Forall2 tells added (to_notify new_bs updated_bs settings)
    ∧ numbered_from (length (notifications_of w)) added.
Proof.
  unfold MonitoringService._generate_notifications, to_notify.
  set (step_new := λ (w : World) (business : Business.t),
         if Business.is_competitor business then _ else w).
  set (step_updated := λ (w : World) (business : Business.t),
         MonitoringService.notify BUSINESS_UPDATED _ _ business w).
  assert (∀ w, ∃ added,
            notes_added w
              (if MonitoringSettings.notify_new_businesses settings
                  && list_truthy new_bs
               then fold_left step_new new_bs w else w) added
            ∧ Forall2 tells added
                (if MonitoringSettings.notify_new_businesses settings
                 then (λ b, (NEW_BUSINESS, b))
                        <$> filter (λ b, Business.is_competitor b = true)
                                   new_bs
                 else [])
            ∧ numbered_from (length (notifications_of w)) added) as Hnew.
  { intros w0.
    destruct (MonitoringSettings.notify_new_businesses settings); simpl;
      [|exists []; split_and!;
        [apply notes_added_refl|constructor|apply numbered_from_nil]].
    destruct new_bs as [|b bs]; simpl list_truthy; cbv iota;
      [exists []; split_and!;
        [apply notes_added_refl|constructor|apply numbered_from_nil]|].
    rewrite <- (omap_select Business.is_competitor).
    apply (fold_notify step_new
             (λ b, if Business.is_competitor b then Some NEW_BUSINESS
                   else None)).
    intros w1 b1. unfold step_new.
    destruct (Business.is_competitor b1); [|done].
    destruct (notify_spec NEW_BUSINESS "New Competitor Detected"
                [PyStr "A new business '"; PyStr (Business.name b1);
                 PyStr "' has opened nearby in the ";
                 PyStr (MonitoringService.join_categories
                          (Business.categories b1));
                 PyStr " category."] b1 w1)
      as (row & ? & ? & _ & _ & ?).
    by exists row. }
  assert (∀ w, ∃ added,
            notes_added w
              (if MonitoringSettings.notify_rating_changes settings
                  && list_truthy updated_bs
               then fold_left step_updated updated_bs w else w) added
            ∧ Forall2 tells added
                (if MonitoringSettings.notify_rating_changes settings
                 then (λ b, (BUSINESS_UPDATED, b)) <$> updated_bs
                 else [])
            ∧ numbered_from (length (notifications_of w)) added) as Hupd.
  { intros w0.
    destruct (MonitoringSettings.notify_rating_changes settings); simpl;
      [|exists []; split_and!;
        [apply notes_added_refl|constructor|apply numbered_from_nil]].
    destruct updated_bs as [|b bs]; simpl list_truthy; cbv iota;
      [exists []; split_and!;
        [apply notes_added_refl|constructor|apply numbered_from_nil]|].
    rewrite <- (omap_all BUSINESS_UPDATED).
    apply (fold_notify step_updated (λ b, Some BUSINESS_UPDATED)).
    intros w1 b1. unfold step_updated.
    destruct (notify_spec BUSINESS_UPDATED "Competitor Updated"
                [PyStr "'"; PyStr (Business.name b1);
                 PyStr "' has updated information. Current rating: ";
                 if float_truthy (Business.rating b1)
                 then PyNum (default 0%Qc (Business.rating b1))
                 else PyStr "N/A"] b1 w1)
      as (row & ? & ? & _ & _ & ?).
    by exists row. }
  destruct (Hnew w) as (a1 & Ha1 & Ht1 & Hn1).
  match goal with
  | |- context [notes_added w (if _ then fold_left _ _ ?w1 else _)] =>
    destruct (Hupd w1) as (a2 & Ha2 & Ht2 & Hn2)
  end.
  exists (a1 ++ a2). split_and!.
  - eapply (notes_added_trans _ _ _ a1 a2); eassumption.
  - by apply Forall2_app.
  - apply numbered_from_app; [done|].
    destruct Ha1 as (Hn & _). by rewrite Hn, length_app in Hn2.
Qed.

(** X12. [_generate_notifications] stores one notification for each new
    business that is a competitor, when new businesses are to be
    notified, and then one for each updated business, when changes are;
    each is of its type, carries the identifier and the name of its
    business, and is unread and not dismissed.  The rows are appended
    with the next ids.  Nothing is shown on the desktop, and no other
    table is written. *)
Theorem generate_notifications_spec (new_bs updated_bs : list Business.t)
    (settings : MonitoringSettings.t) (w : World) :
  let w' := MonitoringService._generate_notifications new_bs updated_bs
              settings w in
  ∃ added,
    notifications_of w' = notifications_of w ++ added
    ∧ Forall2 tells added (to_notify new_bs updated_bs settings)
    ∧ (sequential_ids (notifications_of w) →
       sequential_ids (notifications_of w'))
    ∧ desktop w' = desktop w
    ∧ businesses_of w' = businesses_of w
    ∧ history_of w' = history_of w
    ∧ DatabaseManager.monitoring_settings (db w')
      = DatabaseManager.monitoring_settings (db w).
Proof.
  cbv zeta.
  destruct (_generate_notifications_added new_bs updated_bs settings w)
    as (added & (Hn & Hb & Hh & Hs & _ & _ & Hd) & Htells & Hnum).
  exists added. split_and!; try done.
  intros Hseq. rewrite Hn. by apply sequential_ids_app.
Qed.

(** ** MonitoringService.perform_scan: what a scan leaves alone *)

Lemma scan_place_count settings st place :
  let st' := MonitoringService.scan_place settings st place in
  (length (MonitoringService.new_businesses st')
   + length (MonitoringService.updated_businesses st')
   ≤ length (MonitoringService.new_businesses st)
     + length (MonitoringService.updated_businesses st) + 1)%nat.
Proof.
  cbv zeta. unfold MonitoringService.scan_place.
  destruct (MonitoringService._should_exclude_business place settings);
    [lia|].
  destruct (DatabaseManager.get_business _ _) as [existing|].
  - destruct (MonitoringService._update_existing_business _ _ _ _)
      as [[[] b'] c]; simpl; rewrite ?length_app; simpl; lia.
  - destruct (MonitoringService._create_business_from_place _ _ _)
      as [[nb|] c]; simpl; rewrite ?length_app; simpl; lia.
Qed.

Lemma scan_places_count settings (places : list PlaceData.t) : ∀ st,
  let st' := fold_left (MonitoringService.scan_place settings) places st in
  (length (MonitoringService.new_businesses st')
   + length (MonitoringService.updated_businesses st')
   ≤ length (MonitoringService.new_businesses st)
     + length (MonitoringService.updated_businesses st)
     + length places)%nat.
Proof.
  induction places as [|p places IH]; intros st; cbv zeta; simpl; [lia|].
  specialize (IH (MonitoringService.scan_place settings st p)).
  pose proof (scan_place_count settings st p). cbv zeta in *. lia.
Qed.

Lemma to_notify_length new_bs updated_bs settings :
  (length (to_notify new_bs updated_bs settings)
   ≤ length new_bs + length updated_bs)%nat.
Proof.
  unfold to_notify. rewrite length_app.
  pose proof (length_filter (λ b, Business.is_competitor b = true) new_bs).
  destruct (MonitoringSettings.notify_new_businesses settings),
    (MonitoringSettings.notify_rating_changes settings);
    rewrite ?length_fmap; simpl; lia.
Qed.

Lemma scan_handlers_frame start_time outcome scan_result w :
  let w' := (MonitoringService.scan_handlers start_time outcome scan_result
               w).2 in
  notifications_of w' = notifications_of w
  ∧ DatabaseManager.monitoring_settings (db w')
    = DatabaseManager.monitoring_settings (db w)
  ∧ jobs w' = jobs w ∧ threads w' = threads w ∧ desktop w' = desktop w.
Proof.
  cbv zeta. unfold MonitoringService.scan_handlers.
  destruct (tick (clock w)) as [now c]. destruct (tick c) as [ts c'].
  done.
Qed.

Lemma perform_scan_notes settings search_nearby w :
  let r := MonitoringService.perform_scan settings search_nearby w in
  ∃ added,
    notifications_of r.2 = notifications_of w ++ added
    ∧ numbered_from (length (notifications_of w)) added
    ∧ match search_nearby with
      | Return places =>
        let st := MonitoringService.scan_places settings places
                    (scan_start w) in
        Forall2 tells added
          (to_notify (MonitoringService.new_businesses st)
             (MonitoringService.updated_businesses st) settings)
      | Raise _ => added = []
      end
    ∧ DatabaseManager.monitoring_settings (db r.2)
      = DatabaseManager.monitoring_settings (db w)
    ∧ jobs r.2 = jobs w ∧ threads r.2 = threads w ∧ desktop r.2 = desktop w.
Proof.
  cbv zeta. rewrite perform_scan_unfold. cbv zeta.
  destruct search_nearby as [places|e];
    cbn [MonitoringService.scan_try fst snd].
  - match goal with
    | |- context [MonitoringService.scan_handlers ?t ?o ?s ?w1] =>
      destruct (scan_handlers_frame t o s w1) as (Hn & Hs & Hj & Ht & Hd)
    end.
    cbv zeta in *. rewrite Hn, Hs, Hj, Ht, Hd.
    destruct (scan_places_frame settings places (scan_start w))
      as (_ & Fn & Fs & Fj & Ft & Fd).
    cbv zeta in Fn, Fs, Fj, Ft, Fd.
    destruct (_generate_notifications_added
                (MonitoringService.new_businesses
                   (MonitoringService.scan_places settings places
                      (scan_start w)))
                (MonitoringService.updated_businesses
                   (MonitoringService.scan_places settings places
                      (scan_start w)))
                settings
                (MonitoringService.world
                   (MonitoringService.scan_places settings places
                      (scan_start w))))
      as (added & (Gn & _ & _ & Gs & Gj & Gt & Gd) & Htells & Hnum).
    exists added. rewrite Gn, Gs, Gj, Gt, Gd, Fn, Fs, Fj, Ft, Fd.
    rewrite Fn in Hnum. done.
  - exists []. rewrite app_nil_r.
    match goal with
    | |- context [MonitoringService.scan_handlers ?t ?o ?s ?w1] =>
      destruct (scan_handlers_frame t o s w1) as (Hn & Hs & Hj & Ht & Hd)
    end.
    cbv zeta in *. rewrite Hn, Hs, Hj, Ht, Hd.
    split_and!; first [done|apply numbered_from_nil].
Qed.

(** X13. A scan writes to the businesses, the notifications and the scan
    history and to nothing else: the settings, the schedule, the threads
    and the desktop are as before.  Its notifications are appended with
    the next ids, one
    for each new competitor and each updated business that the settings
    ask to be told of, so no more of them than businesses reported; and
    it reports no more new and updated businesses than it found. *)
Theorem scan_leaves_alone (settings : MonitoringSettings.t)
    (search_nearby : result (list PlaceData.t)) (w : World) :
  let r := MonitoringService.perform_scan settings search_nearby w in
  DatabaseManager.monitoring_settings (db r.2)
  = DatabaseManager.monitoring_settings (db w)
  ∧ jobs r.2 = jobs w ∧ threads r.2 = threads w ∧ desktop r.2 = desktop w
  ∧ (∃ added,
       notifications_of r.2 = notifications_of w ++ added
       ∧ (length added
          ≤ ScanHistory.new_businesses r.1
            + ScanHistory.updated_businesses r.1)%nat
       ∧ match search_nearby with
         | Return places =>
           let st := MonitoringService.scan_places settings places
                       (scan_start w) in
           Forall2 tells added
             (to_notify (MonitoringService.new_businesses st)
                (MonitoringService.updated_businesses st) settings)
         | Raise _ => added = []
         end)
  ∧ (sequential_ids (notifications_of w) →
     sequential_ids (notifications_of r.2))
  ∧ (ScanHistory.new_businesses r.1 + ScanHistory.updated_businesses r.1
     ≤ ScanHistory.businesses_found r.1)%nat.
Proof.
  cbv zeta.
  destruct (perform_scan_notes settings search_nearby w)
    as (added & Hn & Hnum & Hadded & Hs & Hj & Ht & Hd).
  cbv zeta in *. split_and!; try done.
  - exists added. split_and!; try done.
    destruct search_nearby as [places|e]; [|subst added; simpl; lia].
    destruct (perform_scan_counts settings places w) as [-> ->].
    rewrite (Forall2_length _ _ _ Hadded). apply to_notify_length.
  - intros Hseq. rewrite Hn. by apply sequential_ids_app.
  - destruct search_nearby as [places|e].
    + destruct (perform_scan_counts settings places w) as [-> ->].
      assert (ScanHistory.businesses_found
                (MonitoringService.perform_scan settings (Return places)
                   w).1 = length places) as ->.
      { rewrite perform_scan_unfold. cbv zeta.
        cbn [MonitoringService.scan_try fst snd].
        match goal with
        | |- context [MonitoringService.scan_handlers ?t ?o ?s ?w1] =>
          destruct (scan_handlers_spec t o s w1)
            as (_ & _ & _ & Hf & _)
        end.
        cbv zeta in Hf. rewrite Hf.
        unfold ScanHistory.init. by destruct (tick (tick (clock w)).2). }
      apply (scan_places_count settings places
               (MonitoringService.mkLoop [] [] (scan_start w))).
    + rewrite perform_scan_unfold. cbv zeta.
      cbn [MonitoringService.scan_try fst snd].
      match goal with
      | |- context [MonitoringService.scan_handlers ?t ?o ?s ?w1] =>
        destruct (scan_handlers_spec t o s w1)
          as (_ & _ & _ & _ & Hnew & Hup & _)
      end.
      cbv zeta in Hnew, Hup. rewrite Hnew, Hup.
      unfold ScanHistory.init. destruct (tick (tick (clock w)).2).
      simpl. lia.
Qed.

(** ** MonitoringService.perform_scan: the businesses it has stored *)

Lemma continues_refl b : continues b b.
Proof. by unfold continues. Qed.

Lemma continues_trans b1 b2 b3 :
  continues b1 b2 → continues b2 b3 → continues b1 b3.
Proof. unfold continues. intros (?&?&?&?&?) (?&?&?&?&?). split_and!; congruence. Qed.

Lemma update_from_api_data_continues b p c :
  continues b (Business.update_from_api_data b p c).1.2.
Proof.
  rewrite update_from_api_data_unfold.
  destruct (changed_flag b p); by unfold continues.
Qed.

Lemma scan_place_continues settings st place k b :
  DatabaseManager.get_business k (db (MonitoringService.world st)) = Some b →
  ∃ b',
    DatabaseManager.get_business k
      (db (MonitoringService.world
             (MonitoringService.scan_place settings st place))) = Some b'
    ∧ continues b b'.
Proof.
  intros Hb. unfold MonitoringService.scan_place.
  destruct (MonitoringService._should_exclude_business place settings);
    [exists b; split; [done|apply continues_refl]|].
  destruct (DatabaseManager.get_business (PlaceData.fsq_id place) _)
    as [existing|] eqn:Hex.
  - unfold MonitoringService._update_existing_business.
    pose proof (update_from_api_data_continues existing place
                  (clock (MonitoringService.world st))) as Hcont.
    destruct (Business.update_from_api_data _ _ _) as [[[] b'] c];
      [|exists b; split; [done|apply continues_refl]].
    simpl in Hcont. cbn [MonitoringService.world db set_db set_clock
                         DatabaseManager.save_business snd].
    destruct (get_business_elem _ _ _ Hex) as [_ Hid'].
    destruct (decide (k = Business.fsq_id b')) as [->|Hne].
    + assert (b = existing) as ->.
      { destruct Hcont as (Hid & _). rewrite Hid, Hid' in Hb. congruence. }
      rewrite get_business_find. cbn [DatabaseManager.businesses].
      rewrite find_insert_or_replace_eq. by exists b'.
    + rewrite get_business_find in *. cbn [DatabaseManager.businesses].
      rewrite find_insert_or_replace_ne by done.
      exists b. split; [done|apply continues_refl].
  - destruct (MonitoringService._create_business_from_place _ _ _)
      as [[nb|] c] eqn:Hnew;
      [|exists b; split; [done|apply continues_refl]].
    apply changed_flag_created in Hnew as [_ Hid].
    cbn [MonitoringService.world db set_db set_clock
         DatabaseManager.save_business snd].
    rewrite get_business_find in *. cbn [DatabaseManager.businesses].
    destruct (decide (k = Business.fsq_id nb)) as [->|Hne].
    + rewrite Hid in Hb. congruence.
    + rewrite find_insert_or_replace_ne by done.
      exists b. split; [done|apply continues_refl].
Qed.

Lemma scan_places_continues settings (places : list PlaceData.t) w k b :
  DatabaseManager.get_business k (db w) = Some b →
  ∃ b',
    DatabaseManager.get_business k
      (db (MonitoringService.world
             (MonitoringService.scan_places settings places w))) = Some b'
    ∧ continues b b'.
Proof.
  intros Hb. unfold MonitoringService.scan_places.
  apply (fold_left_preserve
           (λ st, ∃ b',
              DatabaseManager.get_business k
                (db (MonitoringService.world st)) = Some b'
              ∧ continues b b')).
  - intros st p (b1 & Hb1 & Hc1).
    destruct (scan_place_continues settings st p k b1 Hb1)
      as (b2 & Hb2 & Hc2).
    exists b2. split; [done|]. by apply (continues_trans b b1 b2).
  - exists b. split; [done|apply continues_refl].
Qed.

(** X14. A scan deletes no business and keeps what it does not fetch: a
    business found under an identifier before the scan is found under it
    afterwards, with the same time of first sight, the same competitor
    flag, whatever the settings of the scan say, and the same notes and
    hours.  A scan whose fetch raised leaves the business as it was. *)
Theorem scan_keeps_businesses (settings : MonitoringSettings.t)
    (search_nearby : result (list PlaceData.t)) (w : World) (k : string)
    (b : Business.t) :
  DatabaseManager.get_business k (db w) = Some b →
  let r := MonitoringService.perform_scan settings search_nearby w in
  ∃ b',
    DatabaseManager.get_business k (db r.2) = Some b'
    ∧ continues b b'
    ∧ match search_nearby with
      | Raise _ => b' = b
      | Return _ => True
      end.
Proof.
  intros Hb. cbv zeta. rewrite get_business_find.
  destruct search_nearby as [places|e].
  - pose proof (perform_scan_businesses settings places w) as Hbs.
    unfold businesses_of in Hbs. rewrite Hbs.
    destruct (scan_places_continues settings places (scan_start w) k b)
      as (b' & Hb' & Hc); [done|].
    rewrite get_business_find in Hb'. by exists b'.
  - rewrite perform_scan_unfold. cbv zeta.
    pose proof (scan_handlers_businesses (tick (clock w)).1 (Raise e)
                  (ScanHistory.init (tick (clock w)).2).1 (scan_start w))
      as Hbs.
    unfold businesses_of in Hbs.
    cbn [MonitoringService.scan_try fst snd]. rewrite Hbs.
    rewrite get_business_find in Hb.
    exists b. split_and!; [done|apply continues_refl|done].
Qed.

Lemma scan_keeps_businesses_witness :
  ∃ b',
    DatabaseManager.get_business "4b5a"
      (db (MonitoringService.perform_scan some_settings
             (Return [with_name "Corner Coffee" a_place]) stored_world).2)
    = Some b'
    ∧ continues stored_business b'
    ∧ True.
Proof.
  apply (scan_keeps_businesses some_settings
           (Return [with_name "Corner Coffee" a_place]) stored_world
           "4b5a" stored_business).
  reflexivity.
Defined.

Lemma filter_ne_notin (k : string) (rows : list Business.t) :
  k ∉ Business.fsq_id <$> rows →
  filter (λ r, Business.fsq_id r ≠ k) rows = rows.
Proof.
  induction rows as [|r rows IH]; [done|].
  rewrite fmap_cons, not_elem_of_cons. intros [Hne Hnot].
  rewrite filter_cons, decide_True by done. by rewrite IH.
Qed.

Lemma insert_or_replace_length_new b rows :
  Business.fsq_id b ∉ Business.fsq_id <$> rows →
  length (DatabaseManager.insert_or_replace b rows) = S (length rows).
Proof.
  intros Hnot. unfold DatabaseManager.insert_or_replace.
  rewrite filter_ne_notin by done. rewrite length_app. simpl. lia.
Qed.

Lemma insert_or_replace_length_old b rows :
  NoDup (Business.fsq_id <$> rows) →
  Business.fsq_id b ∈ Business.fsq_id <$> rows →
  length (DatabaseManager.insert_or_replace b rows) = length rows.
Proof.
  unfold DatabaseManager.insert_or_replace. rewrite length_app. simpl.
  induction rows as [|r rows IH]; [by intros _ ?%elem_of_nil|].
  rewrite fmap_cons, NoDup_cons. intros [Hnot Hnd].
  rewrite elem_of_cons, filter_cons. intros [Heq|Hin].
  - rewrite decide_False by (by intros ?; congruence).
    rewrite Heq, filter_ne_notin by done. simpl. lia.
  - rewrite decide_True by (intros Heq; by rewrite Heq in Hnot).
    simpl. rewrite <- IH by done. lia.
Qed.

Lemma get_business_None k d :
  DatabaseManager.get_business k d = None →
  k ∉ Business.fsq_id <$> DatabaseManager.businesses d.
Proof.
  unfold DatabaseManager.get_business. intros Hnone Hin.
  apply list_elem_of_fmap in Hin as (r & -> & Hr).
  apply list_elem_of_In in Hr.
  pose proof (find_none _ _ Hnone r Hr) as Hf. simpl in Hf.
  by apply bool_decide_eq_false in Hf.
Qed.

Lemma scan_place_grows settings st place :
  NoDup (business_ids (MonitoringService.world st)) →
  let st' := MonitoringService.scan_place settings st place in
  (length (businesses_of (MonitoringService.world st'))
   + length (MonitoringService.new_businesses st)
   = length (businesses_of (MonitoringService.world st))
     + length (MonitoringService.new_businesses st'))%nat.
Proof.
  intros Hnd. cbv zeta. unfold MonitoringService.scan_place.
  destruct (MonitoringService._should_exclude_business place settings);
    [done|].
  destruct (DatabaseManager.get_business _ _) as [existing|] eqn:Hex.
  - unfold MonitoringService._update_existing_business.
    pose proof (update_from_api_data_fsq_id existing place
                  (clock (MonitoringService.world st))) as Hid.
    destruct (Business.update_from_api_data _ _ _) as [[[] b'] c];
      [|done].
    simpl in Hid. unfold businesses_of. simpl.
    rewrite insert_or_replace_length_old; [done|done|].
    rewrite Hid. apply list_elem_of_fmap. exists existing.
    by destruct (get_business_elem _ _ _ Hex).
  - destruct (MonitoringService._create_business_from_place _ _ _)
      as [[nb|] c] eqn:Hnew; [|done].
    apply changed_flag_created in Hnew as [_ Hid].
    unfold businesses_of. simpl.
    rewrite insert_or_replace_length_new, length_app; [simpl; lia|].
    rewrite Hid. by apply get_business_None.
Qed.

Lemma scan_places_grows settings (places : list PlaceData.t) : ∀ st,
  NoDup (business_ids (MonitoringService.world st)) →
  let st' := fold_left (MonitoringService.scan_place settings) places st in
  (length (businesses_of (MonitoringService.world st'))
   + length (MonitoringService.new_businesses st)
   = length (businesses_of (MonitoringService.world st))
     + length (MonitoringService.new_businesses st'))%nat.
Proof.
  induction places as [|p places IH]; intros st Hnd; cbv zeta; simpl;
    [done|].
  pose proof (scan_place_grows settings st p Hnd) as Hstep.
  pose proof (IH _ (scan_place_ids_NoDup settings st p Hnd)) as Hrest.
  cbv zeta in *. lia.
Qed.

(** X15. The identifiers being distinct, the businesses table grows by
    exactly the number of businesses that the scan reports as new: an
    update replaces its row, and nothing is deleted. *)
Theorem scan_adds_the_new (settings : MonitoringSettings.t)
    (search_nearby : result (list PlaceData.t)) (w : World) :
  NoDup (business_ids w) →
  let r := MonitoringService.perform_scan settings search_nearby w in
  length (businesses_of r.2)
  = (length (businesses_of w) + ScanHistory.new_businesses r.1)%nat.
Proof.
  intros Hnd. cbv zeta. destruct search_nearby as [places|e].
  - destruct (perform_scan_counts settings places w) as [-> _].
    rewrite perform_scan_businesses.
    pose proof (scan_places_grows settings places
                  (MonitoringService.mkLoop [] [] (scan_start w)) Hnd)
      as Hg.
    cbv zeta in Hg. simpl in Hg. unfold MonitoringService.scan_places.
    destruct (scan_start_clock w) as [Hb _]. rewrite Hb in Hg. lia.
  - rewrite perform_scan_unfold. cbv zeta.
    cbn [MonitoringService.scan_try fst snd].
    match goal with
    | |- context [MonitoringService.scan_handlers ?t ?o ?s ?w1] =>
      destruct (scan_handlers_spec t o s w1)
        as (_ & Hb & _ & _ & Hnew & _)
    end.
    cbv zeta in Hb, Hnew. rewrite Hb, Hnew.
    destruct (scan_start_clock w) as [-> _].
    unfold ScanHistory.init. destruct (tick (tick (clock w)).2).
    simpl. lia.
Qed.

Lemma scan_adds_the_new_witness :
  length (businesses_of
            (MonitoringService.perform_scan some_settings
               (Return [a_place; another_place]) stored_world).2)
  = (length (businesses_of stored_world)
     + ScanHistory.new_businesses
         (MonitoringService.perform_scan some_settings
            (Return [a_place; another_place]) stored_world).1)%nat.
Proof.
  apply (scan_adds_the_new some_settings
           (Return [a_place; another_place]) stored_world).
  apply NoDup_singleton.
Defined.

(** ** MonitoringService.get_trending_businesses *)

Lemma trending_step_spec settings acc w place :
  let r := MonitoringService.trending_step settings (acc, w) place in
  ∃ b,
    r.1 = acc ++ [b]
    ∧ Business.fsq_id b = PlaceData.fsq_id place
    ∧ DatabaseManager.get_business (PlaceData.fsq_id place) (db r.2)
      = Some b
    ∧ (∀ k b0, DatabaseManager.get_business k (db w) = Some b0 →
               DatabaseManager.get_business k (db r.2) = Some b0)
    ∧ notifications_of r.2 = notifications_of w
    ∧ history_of r.2 = history_of w
    ∧ desktop r.2 = desktop w.
Proof.
  cbv zeta. unfold MonitoringService.trending_step.
  destruct (DatabaseManager.get_business _ _) as [business|] eqn:Hex.
  - exists business. destruct (get_business_elem _ _ _ Hex) as [_ Hid].
    simpl. split_and!; done.
  - destruct (MonitoringService._create_business_from_place _ _ _)
      as [[nb|] c] eqn:Hnew.
    + apply changed_flag_created in Hnew as [_ Hid].
      exists nb. simpl. rewrite !get_business_find.
      cbn [DatabaseManager.businesses]. rewrite <- Hid.
      rewrite find_insert_or_replace_eq. split_and!; try done.
      intros k b0 Hk. rewrite get_business_find in *.
      cbn [DatabaseManager.businesses].
      rewrite find_insert_or_replace_ne; [done|].
      intros ->. rewrite Hid in Hk. congruence.
    + unfold MonitoringService._create_business_from_place in Hnew.
      destruct (Business.init _ _ _ _ _ _ _ _ _ _ _ _ _ _ _). done.
Qed.

Lemma trending_fold settings (places : list PlaceData.t) : ∀ acc w,
  Forall (λ b, DatabaseManager.get_business (Business.fsq_id b) (db w)
               = Some b) acc →
  let r := fold_left (MonitoringService.trending_step settings) places
             (acc, w) in
  Business.fsq_id <$> r.1
  = (Business.fsq_id <$> acc) ++ (PlaceData.fsq_id <$> places)
  ∧ Forall (λ b, DatabaseManager.get_business (Business.fsq_id b) (db r.2)
                 = Some b) r.1
  ∧ (∀ k b0, DatabaseManager.get_business k (db w) = Some b0 →
             DatabaseManager.get_business k (db r.2) = Some b0)
  ∧ notifications_of r.2 = notifications_of w
  ∧ history_of r.2 = history_of w
  ∧ desktop r.2 = desktop w.
Proof.
  induction places as [|p places IH]; intros acc w Hacc; cbv zeta.
  - simpl. rewrite app_nil_r. done.
  - cbn [fold_left].
    destruct (trending_step_spec settings acc w p)
      as (b & Hr & Hid & Hget & Hkeep & Hn & Hh & Hd).
    cbv zeta in *.
    destruct (MonitoringService.trending_step settings (acc, w) p)
      as [acc' w'].
    simpl in Hr, Hget, Hkeep, Hn, Hh, Hd. subst acc'.
    destruct (IH (acc ++ [b]) w') as (Gids & Gall & Gkeep & Gn & Gh & Gd).
    { apply Forall_app. split.
      - eapply Forall_impl; [exact Hacc|]. intros b0 Hb0. by apply Hkeep.
      - apply Forall_singleton. by rewrite Hid. }
    cbv zeta in *. split_and!; try done; try congruence.
    + rewrite Gids, fmap_app, <- app_assoc. simpl. by rewrite Hid.
    + intros k b0 Hk. by apply Gkeep, Hkeep.
Qed.

(** X16. [get_trending_businesses] returns one business for each trending
    place, in the order of the places and under their identifiers, and
    each is the business that the database holds under its identifier
    afterwards.  A business that was stored is returned as it was stored
    and stays so: the fetched data of the place is not written to it.
    No notification and no history row is written. *)
Theorem get_trending_businesses_spec (settings : MonitoringSettings.t)
    (trending_places : list PlaceData.t) (w : World) :
  let r := MonitoringService.get_trending_businesses settings
             trending_places w in
  Business.fsq_id <$> r.1 = PlaceData.fsq_id <$> trending_places
  ∧ Forall (λ b, DatabaseManager.get_business (Business.fsq_id b) (db r.2)
                 = Some b) r.1
  ∧ (∀ k b, DatabaseManager.get_business k (db w) = Some b →
            DatabaseManager.get_business k (db r.2) = Some b)
  ∧ (∀ p b, p ∈ trending_places →
            DatabaseManager.get_business (PlaceData.fsq_id p) (db w)
            = Some b →
            b ∈ r.1)
  ∧ notifications_of r.2 = notifications_of w
  ∧ history_of r.2 = history_of w
  ∧ desktop r.2 = desktop w.
Proof.
  cbv zeta. unfold MonitoringService.get_trending_businesses.
  destruct (trending_fold settings trending_places [] w)
    as (Hids & Hall & Hkeep & Hn & Hh & Hd); [constructor|].
  cbv zeta in *. simpl in Hids. split_and!; try done.
  intros p b Hp Hb. apply Hkeep in Hb.
  assert (PlaceData.fsq_id p
          ∈ Business.fsq_id
              <$> (fold_left (MonitoringService.trending_step settings)
                     trending_places ([], w)).1) as Hin.
  { rewrite Hids. apply list_elem_of_fmap. by exists p. }
  apply list_elem_of_fmap in Hin as (b' & Hid & Hb').
  rewrite Forall_forall in Hall. specialize (Hall b' Hb').
  rewrite <- Hid in Hall. rewrite Hb in Hall. by injection Hall as ->.
Qed.

(** ** NotificationService *)

Lemma create_notification_row notification_type title message
    business_fsq_id business_name send_desktop self w :
  let r := NotificationService.create_notification notification_type title
             message business_fsq_id business_name send_desktop self w in
  ∃ created_at,
    notifications_of r.2
    = notifications_of w
      ++ [Notification.mk (Some r.1) notification_type title message
            business_fsq_id business_name created_at false false]
    ∧ r.1 = Z.of_nat (length (notifications_of w)) + 1
    ∧ businesses_of r.2 = businesses_of w
    ∧ history_of r.2 = history_of w
    ∧ DatabaseManager.monitoring_settings (db r.2)
      = DatabaseManager.monitoring_settings (db w)
    ∧ jobs r.2 = jobs w ∧ threads r.2 = threads w
    ∧ desktop r.2
      = desktop w
        ++ (if send_desktop
               && NotificationService.enable_desktop_notifications self
            then [(title, message)] else []).
Proof.
  cbv zeta. unfold NotificationService.create_notification,
    Notification.init, DatabaseManager.save_notification,
    NotificationService.send_desktop_notification,
    DatabaseManager.lastrowid.
  destruct (tick (clock w)) as [now c]. destruct (tick c) as [ts c'].
  rewrite (bool_decide_eq_false_2 (_ = 0)) by lia.
  exists ts.
  destruct send_desktop,
    (NotificationService.enable_desktop_notifications self); simpl;
    rewrite ?app_nil_r; done.
Qed.

(** X17. [create_notification] appends exactly one row, unread and not
    dismissed, with the values given, and returns its id, the next of
    the table.  The id is never 0, so the desktop notification is shown
    exactly when it is asked for and the service has the desktop
    enabled; no other table is written.  The two alert functions store
    one row about the business each; an alert for a rating that has not
    changed says that it decreased. *)
Theorem create_notification_spec :
  (∀ notification_type title message business_fsq_id business_name
     send_desktop self w,
     let r := NotificationService.create_notification notification_type
                title message business_fsq_id business_name send_desktop
                self w in
     r.1 ≠ 0
     ∧ (∃ created_at,
          notifications_of r.2
          = notifications_of w
            ++ [Notification.mk (Some r.1) notification_type title message
                  business_fsq_id business_name created_at false false])
     ∧ r.1 = Z.of_nat (length (notifications_of w)) + 1
     ∧ businesses_of r.2 = businesses_of w
     ∧ history_of r.2 = history_of w
     ∧ DatabaseManager.monitoring_settings (db r.2)
       = DatabaseManager.monitoring_settings (db w)
     ∧ desktop r.2
       = desktop w
         ++ (if send_desktop
                && NotificationService.enable_desktop_notifications self
             then [(title, message)] else []))
  ∧ (∀ business_name business_fsq_id alert_type self w,
       let r := NotificationService.create_competitor_alert business_name
                  business_fsq_id alert_type self w in
       ∃ row,
         notifications_of r.2 = notifications_of w ++ [row]
         ∧ Notification.id row = Some r.1
         ∧ Notification.business_fsq_id row = Some business_fsq_id
         ∧ Notification.business_name row = Some business_name
         ∧ (Notification.type row = COMPETITOR_ALERT
            ↔ alert_type ∉ ["new"; "updated"; "trending"]))
  ∧ (∀ business_name business_fsq_id old_rating new_rating self w,
       let r := NotificationService.create_rating_change_alert business_name
                  business_fsq_id old_rating new_rating self w in
       ∃ row,
         notifications_of r.2 = notifications_of w ++ [row]
         ∧ Notification.id row = Some r.1
         ∧ Notification.type row = RATING_CHANGE
         ∧ Notification.business_fsq_id row = Some business_fsq_id
         ∧ Notification.business_name row = Some business_name
         ∧ Notification.message row
           = NotificationService.rating_change_message business_name
               old_rating new_rating)
  ∧ (∀ business_name rating,
       NotificationService.rating_change_message business_name
         (Some rating) (Some rating) !! 3%nat
       = Some (PyStr "decreased")).
Proof.
  split_and!.
  - intros. subst r. cbv zeta.
    destruct (create_notification_row notification_type title message
                business_fsq_id business_name send_desktop self w)
      as (created_at & Hn & Hid & Hb & Hh & Hs & _ & _ & Hd).
    cbv zeta in *. split_and!; first [done|lia|by exists created_at].
  - intros. subst r. unfold NotificationService.create_competitor_alert.
    repeat (case_bool_decide; cbv beta iota); simplify_eq;
      match goal with
      | |- context [NotificationService.create_notification ?t ?ti ?m ?f ?n
                      ?s ?sv ?w0] =>
        destruct (create_notification_row t ti m f n s sv w0)
          as (created_at & Hn & _)
      end;
      cbv zeta in Hn; eexists; (split; [exact Hn|]); simpl;
      split_and!; try done;
      first [ by split; [|intros Hx; exfalso; apply Hx;
                          rewrite !elem_of_cons; naive_solver]
            | split; [intros _|done];
              rewrite !not_elem_of_cons; split_and!;
              first [done|apply not_elem_of_nil] ].
  - intros. subst r. cbv zeta. unfold NotificationService.create_rating_change_alert.
    match goal with
    | |- context [NotificationService.create_notification ?t ?ti ?m ?f ?n
                    ?s ?sv ?w0] =>
      destruct (create_notification_row t ti m f n s sv w0)
        as (created_at & Hn & _)
    end.
    cbv zeta in Hn. eexists. split; [exact Hn|]. done.
  - intros. unfold NotificationService.rating_change_message. cbv zeta.
    rewrite bool_decide_eq_false_2; [done|].
    unfold Qcminus. rewrite Qcplus_opp_r. intros Hlt.
    by apply Qclt_not_eq in Hlt.
Qed.




(** ** BackgroundMonitor: the monitor and its schedule *)

Lemma titles_of_created notification_type title message business_fsq_id
    business_name send_desktop self w :
  titles_of
    (NotificationService.create_notification notification_type title
       message business_fsq_id business_name send_desktop self w).2
  = titles_of w ++ [title].
Proof.
  destruct (create_notification_row notification_type title message
              business_fsq_id business_name send_desktop self w)
    as (created_at & Hn & _).
  cbv zeta in Hn. unfold titles_of. by rewrite Hn, fmap_app.
Qed.

Lemma stop_facts self w :
  let r := BackgroundMonitor.stop self w in
  BackgroundMonitor.is_running r.1 = false
  ∧ jobs r.2 = (if BackgroundMonitor.is_running self then [] else jobs w)
  ∧ BackgroundMonitor.current_settings r.1
    = BackgroundMonitor.current_settings self
  ∧ BackgroundMonitor.notification_service r.1
    = BackgroundMonitor.notification_service self
  ∧ DatabaseManager.monitoring_settings (db r.2)
    = DatabaseManager.monitoring_settings (db w)
  ∧ businesses_of r.2 = businesses_of w
  ∧ history_of r.2 = history_of w
  ∧ threads r.2 = threads w
  ∧ titles_of r.2
    = titles_of w
      ++ (if BackgroundMonitor.is_running self then ["Monitoring Stopped"]
          else []).
Proof.
  cbv zeta. unfold BackgroundMonitor.stop.
  destruct (BackgroundMonitor.is_running self) eqn:Hrun; simpl;
    [|by rewrite app_nil_r].
  match goal with
  | |- context [NotificationService.create_notification ?t ?ti ?m ?f ?n
                  ?s ?sv ?w0] =>
    pose proof (titles_of_created t ti m f n s sv w0) as Ht;
    destruct (create_notification_row t ti m f n s sv w0)
      as (created_at & _ & _ & Hb & Hh & Hs & Hj & Hth & _);
    destruct (NotificationService.create_notification t ti m f n s sv w0)
      as [notification_id w1]
  end.
  simpl in *. done.
Qed.

Lemma start_facts self w :
  let r := BackgroundMonitor.start self w in
  BackgroundMonitor.notification_service r.1.2
  = BackgroundMonitor.notification_service self
  ∧ DatabaseManager.monitoring_settings (db r.2)
    = DatabaseManager.monitoring_settings (db w)
  ∧ businesses_of r.2 = businesses_of w
  ∧ history_of r.2 = history_of w
  ∧ if BackgroundMonitor.is_running self then r = (false, self, w)
    else
      BackgroundMonitor.current_settings r.1.2
      = DatabaseManager.get_monitoring_settings (db w)
      ∧ match DatabaseManager.get_monitoring_settings (db w) with
        | Some settings =>
          if bool_decide (MonitoringSettings.status settings = ACTIVE) then
            r.1.1 = true
            ∧ BackgroundMonitor.is_running r.1.2 = true
            ∧ jobs r.2 = [MonitoringSettings.scan_interval_minutes settings]
            ∧ threads r.2 = S (threads w)
            ∧ titles_of r.2 = titles_of w ++ ["Monitoring Started"]
          else
            r.1.1 = false ∧ BackgroundMonitor.is_running r.1.2 = false
            ∧ r.2 = w
        | None =>
          r.1.1 = false ∧ BackgroundMonitor.is_running r.1.2 = false
          ∧ r.2 = w
        end.
Proof.
  cbv zeta. unfold BackgroundMonitor.start.
  destruct (BackgroundMonitor.is_running self) eqn:Hrun; [done|].
  cbn [BackgroundMonitor.set_current_settings
       BackgroundMonitor.current_settings].
  destruct (DatabaseManager.get_monitoring_settings (db w))
    as [settings|]; [|done].
  case_bool_decide as Hst.
  - rewrite bool_decide_eq_false_2 by done. by simpl.
  - rewrite bool_decide_eq_true_2 by done.
    match goal with
    | |- context [NotificationService.create_notification ?t ?ti ?m ?f ?n
                    ?s ?sv ?w0] =>
      pose proof (titles_of_created t ti m f n s sv w0) as Ht;
      destruct (create_notification_row t ti m f n s sv w0)
        as (created_at & _ & _ & Hb & Hh & Hs & Hj & Hth & _);
      destruct (NotificationService.create_notification t ti m f n s sv w0)
        as [notification_id w1]
    end.
    simpl in *. done.
Qed.

Lemma scheduled_stopped self w :
  BackgroundMonitor.is_running self = false → jobs w = [] →
  scheduled (self, w).
Proof. intros Hrun Hjobs. unfold scheduled. simpl. by rewrite Hrun. Qed.

Lemma stop_scheduled self w :
  scheduled (self, w) ∨ BackgroundMonitor.is_running self = true →
  scheduled (BackgroundMonitor.stop self w).
Proof.
  intros Hs. destruct (stop_facts self w) as (Hrun & Hjobs & _).
  cbv zeta in *. destruct (BackgroundMonitor.stop self w) as [self' w'].
  simpl in *. apply scheduled_stopped; [done|].
  rewrite Hjobs. destruct (BackgroundMonitor.is_running self) eqn:Hr;
    [done|].
  destruct Hs as [Hs|]; [|done]. unfold scheduled in Hs. simpl in Hs.
  by rewrite Hr in Hs.
Qed.

Lemma start_scheduled self w :
  scheduled (self, w) →
  scheduled ((BackgroundMonitor.start self w).1.2,
             (BackgroundMonitor.start self w).2).
Proof.
  intros Hs. destruct (start_facts self w) as (_ & _ & _ & _ & Hstart).
  cbv zeta in *.
  destruct (BackgroundMonitor.is_running self) eqn:Hrun;
    [by rewrite Hstart|].
  assert (jobs w = []) as Hjobs.
  { unfold scheduled in Hs. simpl in Hs. by rewrite Hrun in Hs. }
  destruct Hstart as (Hcur & Hcase).
  destruct (DatabaseManager.get_monitoring_settings (db w))
    as [settings|].
  - case_bool_decide as Hst.
    + destruct Hcase as (_ & Hr & Hj & _). unfold scheduled. simpl.
      rewrite Hr. by exists settings.
    + destruct Hcase as (_ & Hr & Hw). apply scheduled_stopped; [done|].
      by rewrite Hw.
  - destruct Hcase as (_ & Hr & Hw). apply scheduled_stopped; [done|].
    by rewrite Hw.
Qed.

Lemma scheduled_jobs self w w' :
  jobs w' = jobs w → scheduled (self, w) → scheduled (self, w').
Proof. unfold scheduled. simpl. by intros ->. Qed.

Lemma restart_scheduled self w :
  scheduled (self, w) ∨ BackgroundMonitor.is_running self = true →
  scheduled ((BackgroundMonitor.restart self w).1.2,
             (BackgroundMonitor.restart self w).2).
Proof.
  intros Hs. unfold BackgroundMonitor.restart.
  pose proof (stop_scheduled self w Hs) as Hstop.
  destruct (BackgroundMonitor.stop self w) as [self' w'].
  apply start_scheduled. revert Hstop. by apply scheduled_jobs.
Qed.

Lemma update_settings_scheduled new_settings self w :
  scheduled (self, w) →
  scheduled (BackgroundMonitor.update_settings new_settings self w).
Proof.
  intros Hs. unfold BackgroundMonitor.update_settings. cbv zeta.
  cbn [BackgroundMonitor.set_current_settings
       BackgroundMonitor.is_running].
  destruct (BackgroundMonitor.is_running self) eqn:Hrun; simpl.
  - unfold scheduled in Hs. simpl in Hs. rewrite Hrun in Hs.
    destruct Hs as (settings & Hcur & Hact & Hjobs). rewrite Hcur.
    destruct (bool_decide _ || bool_decide _) eqn:Hcond.
    + destruct (bool_decide (MonitoringSettings.status new_settings
                             = ACTIVE)).
      * pose proof (restart_scheduled
                      (BackgroundMonitor.set_current_settings
                         (Some new_settings) self) w) as Hre.
        unfold BackgroundMonitor.set_current_settings in Hre.
        destruct (BackgroundMonitor.restart _ w) as [[ok self'] w'].
        apply Hre. by right.
      * apply stop_scheduled. by right.
    + apply orb_false_iff in Hcond as [Hi Hst].
      apply bool_decide_eq_false in Hi, Hst.
      apply dec_stable in Hi, Hst.
      unfold scheduled. simpl. rewrite Hrun. exists new_settings.
      split_and!; [done|congruence|congruence].
  - apply scheduled_stopped; [done|].
    unfold scheduled in Hs. simpl in Hs. by rewrite Hrun in Hs.
Qed.

Lemma run_scheduled_scan_jobs search_nearby self w :
  jobs (BackgroundMonitor.run_scheduled_scan search_nearby self w) = jobs w.
Proof.
  unfold BackgroundMonitor.run_scheduled_scan.
  destruct (DatabaseManager.get_monitoring_settings (db w))
    as [settings|]; [|done].
  case_bool_decide; [done|].
  destruct (perform_scan_notes settings search_nearby w)
    as (added & _ & _ & _ & _ & Hj & _).
  cbv zeta in Hj.
  destruct (MonitoringService.perform_scan settings search_nearby w)
    as [scan_result w'].
  simpl in Hj.
  repeat case_match; try done;
    match goal with
    | |- context [NotificationService.create_notification ?t ?ti ?m ?f ?n
                    ?s ?sv ?w0] =>
      destruct (create_notification_row t ti m f n s sv w0)
        as (created_at & _ & _ & _ & _ & _ & Hj' & _)
    end;
    cbv zeta in Hj'; congruence.
Qed.

Lemma run_manual_scan_scheduled search_nearby self w :
  scheduled (self, w) →
  scheduled ((BackgroundMonitor.run_manual_scan search_nearby self w).1.2,
             (BackgroundMonitor.run_manual_scan search_nearby self w).2).
Proof.
  intros Hs. unfold BackgroundMonitor.run_manual_scan.
  destruct (BackgroundMonitor.current_settings self) as [settings|] eqn:Hc.
  - rewrite Hc.
    destruct (perform_scan_notes settings search_nearby w)
      as (added & _ & _ & _ & _ & Hj & _).
    cbv zeta in Hj.
    destruct (MonitoringService.perform_scan settings search_nearby w)
      as [scan_result w'].
    simpl in *. revert Hs. by apply scheduled_jobs.
  - assert (BackgroundMonitor.is_running self = false ∧ jobs w = [])
      as [Hrun Hjobs].
    { unfold scheduled in Hs. simpl in Hs.
      destruct (BackgroundMonitor.is_running self); [|done].
      destruct Hs as (settings & Hcur & _). congruence. }
    cbn [BackgroundMonitor.set_current_settings
         BackgroundMonitor.current_settings].
    destruct (DatabaseManager.get_monitoring_settings (db w))
      as [settings|]; [|by apply scheduled_stopped].
    destruct (perform_scan_notes settings search_nearby w)
      as (added & _ & _ & _ & _ & Hj & _).
    cbv zeta in Hj.
    destruct (MonitoringService.perform_scan settings search_nearby w)
      as [scan_result w'].
    simpl in *. apply scheduled_stopped; [done|congruence].
Qed.

Lemma monitor_call_scheduled call st :
  scheduled st → scheduled (monitor_call call st).
Proof.
  destruct st as [self w]. intros Hs.
  destruct call as [| | |new_settings|settings|search_nearby|search_nearby];
    cbn [monitor_call].
  - pose proof (start_scheduled self w Hs) as H.
    by destruct (BackgroundMonitor.start self w) as [[ok self'] w'].
  - apply stop_scheduled. by left.
  - pose proof (restart_scheduled self w (or_introl Hs)) as H.
    by destruct (BackgroundMonitor.restart self w) as [[ok self'] w'].
  - by apply update_settings_scheduled.
  - destruct (tick (clock w)) as [now c]. revert Hs.
    by apply scheduled_jobs.
  - revert Hs. apply scheduled_jobs. apply run_scheduled_scan_jobs.
  - pose proof (run_manual_scan_scheduled search_nearby self w Hs) as H.
    by destruct (BackgroundMonitor.run_manual_scan search_nearby self w)
      as [[ok self'] w'].
Qed.

(** X19. The monitor and the registry of jobs stay in step.  Whatever is
    called on a monitor, in whatever order (start, stop, restart, a
    change of settings, a save of settings, a scheduled or a manual
    scan), a running monitor has active settings cached and exactly one
    job, of their interval, and a stopped monitor has no job; so it is
    after every sequence of calls on a new monitor. *)
Theorem monitor_stays_scheduled :
  (∀ call st, scheduled st → scheduled (monitor_call call st))
  ∧ (∀ calls notification_service d c n shown,
       scheduled
         (monitor_calls calls
            (BackgroundMonitor.init notification_service,
             mkWorld d c [] n shown))).
Proof.
  split; [apply monitor_call_scheduled|].
  intros. unfold monitor_calls.
  apply (fold_left_preserve scheduled).
  - intros st call. apply monitor_call_scheduled.
  - by apply scheduled_stopped.
Qed.

(** X20. A change of settings that makes a running monitor restart does
    not put the new settings to work: the restart loads the settings
    that the database holds, so the monitor ends with those cached and,
    when they are active, with the job of their interval; when they are
    not, it ends stopped.  The new settings count only once they are
    saved. *)
Theorem update_settings_restarts_from_store
    (new_settings old_settings : MonitoringSettings.t)
    (self : BackgroundMonitor.t) (w : World) :
  BackgroundMonitor.is_running self = true →
  BackgroundMonitor.current_settings self = Some old_settings →
  MonitoringSettings.scan_interval_minutes new_settings
  ≠ MonitoringSettings.scan_interval_minutes old_settings
  ∨ MonitoringSettings.status new_settings
    ≠ MonitoringSettings.status old_settings →
  MonitoringSettings.status new_settings = ACTIVE →
  let r := BackgroundMonitor.update_settings new_settings self w in
  BackgroundMonitor.current_settings r.1
  = DatabaseManager.get_monitoring_settings (db w)
  ∧ (BackgroundMonitor.is_running r.1 = true ↔ startable w)
  ∧ jobs r.2
    = match DatabaseManager.get_monitoring_settings (db w) with
      | Some stored =>
        if bool_decide (MonitoringSettings.status stored = ACTIVE)
        then [MonitoringSettings.scan_interval_minutes stored] else []
      | None => []
      end
  ∧ titles_of r.2
    = titles_of w
      ++ "Monitoring Stopped"
         :: (if BackgroundMonitor.is_running r.1
             then ["Monitoring Started"] else []).
Proof.
  intros Hrun Hcur Hchange Hact. cbv zeta.
  unfold BackgroundMonitor.update_settings. cbv zeta.
  cbn [BackgroundMonitor.set_current_settings
       BackgroundMonitor.is_running].
  rewrite Hrun, Hcur.
  assert (bool_decide (MonitoringSettings.scan_interval_minutes new_settings
                       ≠ MonitoringSettings.scan_interval_minutes
                           old_settings)
          || bool_decide (MonitoringSettings.status new_settings
                          ≠ MonitoringSettings.status old_settings)
          = true) as ->.
  { apply orb_true_iff.
    destruct Hchange; [left|right]; by apply bool_decide_eq_true. }
  rewrite (bool_decide_eq_true_2 _ Hact). cbn [andb].
  unfold BackgroundMonitor.restart.
  match goal with
  | |- context [BackgroundMonitor.stop ?s w] =>
    destruct (stop_facts s w)
      as (Hr1 & Hj1 & _ & _ & Hs1 & _ & _ & _ & Ht1);
    destruct (BackgroundMonitor.stop s w) as [self1 w1]
  end.
  cbv zeta in *. simpl in Hr1, Hj1, Hs1, Ht1. rewrite Hrun in Ht1.
  destruct (start_facts self1 (set_clock (sleep 1 (clock w1)) w1))
    as (_ & _ & _ & _ & Hstart).
  cbv zeta in Hstart. rewrite Hr1 in Hstart.
  destruct (BackgroundMonitor.start self1 _) as [[ok self2] w2].
  simpl in Hstart. destruct Hstart as (Hc2 & Hcase).
  unfold DatabaseManager.get_monitoring_settings in *.
  rewrite Hs1 in Hc2, Hcase. unfold startable.
  unfold DatabaseManager.get_monitoring_settings. simpl.
  destruct (last (DatabaseManager.monitoring_settings (db w)))
    as [stored|].
  - case_bool_decide as Hst.
    + destruct Hcase as (_ & Hr2 & Hj2 & _ & Ht2).
      rewrite Hr2. split_and!; try done.
      rewrite Ht2.
      change (titles_of (set_clock (sleep 1 (clock w1)) w1))
        with (titles_of w1).
      by rewrite Ht1, <- app_assoc.
    + destruct Hcase as (_ & Hr2 & ->). rewrite Hr2.
      unfold titles_of, notifications_of in *. cbn [set_clock db jobs].
      rewrite Hj1, Hrun, Ht1. by split_and!.
  - destruct Hcase as (_ & Hr2 & ->). rewrite Hr2.
    unfold titles_of, notifications_of in *. cbn [set_clock db jobs].
    rewrite Hj1, Hrun, Ht1. by split_and!.
Qed.

Lemma update_settings_restarts_from_store_witness :
  BackgroundMonitor.current_settings
    (BackgroundMonitor.update_settings unsaved_settings running_monitor
       active_world).1
  = DatabaseManager.get_monitoring_settings (db active_world).
Proof.
  refine (proj1 (update_settings_restarts_from_store unsaved_settings
                   some_settings running_monitor active_world _ _ _ _));
    [reflexivity|reflexivity|left; simpl; lia|reflexivity].
Defined.

(** ** BackgroundMonitor: the scans *)

Lemma perform_scan_outcome settings search_nearby w :
  let r := MonitoringService.perform_scan settings search_nearby w in
  (∃ row, history_of r.2 = history_of w ++ [row] ∧ is_row_of r.1 row)
  ∧ match search_nearby with
    | Raise e =>
      ScanHistory.success r.1 = false
      ∧ ScanHistory.error_message r.1 = Some e
    | Return _ =>
      ScanHistory.success r.1 = true
      ∧ ScanHistory.error_message r.1 = None
    end.
Proof.
  cbv zeta. rewrite perform_scan_unfold. cbv zeta.
  destruct search_nearby as [places|e];
    cbn [MonitoringService.scan_try fst snd];
    match goal with
    | |- context [MonitoringService.scan_handlers ?t ?o ?s ?w1] =>
      destruct (scan_handlers_spec t o s w1)
        as (Hrow & _ & _ & _ & _ & _ & Hout)
    end;
    cbv zeta in Hrow, Hout.
  - rewrite _generate_notifications_history in Hrow.
    destruct (scan_places_frame settings places (scan_start w))
      as (Hh & _).
    cbv zeta in Hh. rewrite Hh in Hrow.
    split; [exact Hrow|]. destruct Hout as [-> ->].
    unfold ScanHistory.init. by destruct (tick (tick (clock w)).2).
  - split; [exact Hrow|done].
Qed.

(** X21. A scheduled scan reads the settings from the database, not from
    the monitor.  Without stored settings, or with stored settings that
    are not active, it does nothing at all.  Otherwise it scans with the
    stored settings and writes one history row; when the fetch raised it
    stores a notification "Scan Failed", when the scan reports a new
    business or more than five updated ones a notification "Scan
    Summary", and else none of its own. *)
Theorem scheduled_scan_spec
    (search_nearby : result (list PlaceData.t))
    (self : BackgroundMonitor.t) (w : World) :
  let w' := BackgroundMonitor.run_scheduled_scan search_nearby self w in
  (¬ startable w → w' = w)
  ∧ (startable w →
     ∃ settings,
       DatabaseManager.get_monitoring_settings (db w) = Some settings
       ∧ let r := MonitoringService.perform_scan settings search_nearby w in
         (∃ row, history_of w' = history_of w ++ [row]
                 ∧ is_row_of r.1 row)
         ∧ businesses_of w' = businesses_of r.2
         ∧ titles_of w'
           = titles_of r.2
             ++ match search_nearby with
                | Raise _ => ["Scan Failed"]
                | Return _ =>
                  if bool_decide
                       (0 < ScanHistory.new_businesses r.1
                        ∨ 5 < ScanHistory.updated_businesses r.1)%nat
                  then ["Scan Summary"] else []
                end).
Proof.
  cbv zeta. unfold BackgroundMonitor.run_scheduled_scan, startable.
  destruct (DatabaseManager.get_monitoring_settings (db w))
    as [settings|]; [|by split].
  case_bool_decide as Hst; [by split|].
  split; [done|]. intros _. exists settings. split; [done|].
  destruct (perform_scan_outcome settings search_nearby w)
    as (Hrow & Hout).
  cbv zeta in *.
  destruct (MonitoringService.perform_scan settings search_nearby w)
    as [scan_result w1].
  simpl in *.
  destruct search_nearby as [places|e]; destruct Hout as [Hsucc Herr];
    rewrite Hsucc.
  - destruct ((0 <? ScanHistory.new_businesses scan_result)%nat
              || (5 <? ScanHistory.updated_businesses scan_result)%nat)
      eqn:Hsum.
    + rewrite bool_decide_eq_true_2
        by (apply orb_true_iff in Hsum as [?%Nat.ltb_lt|?%Nat.ltb_lt];
            [by left|by right]).
      match goal with
      | |- context [NotificationService.create_notification ?t ?ti ?m ?f ?n
                      ?s ?sv ?w0] =>
        pose proof (titles_of_created t ti m f n s sv w0) as Ht;
        destruct (create_notification_row t ti m f n s sv w0)
          as (created_at & _ & _ & Hb & Hh & _)
      end.
      cbv zeta in *. by rewrite Ht, Hb, Hh.
    + rewrite bool_decide_eq_false_2
        by (apply orb_false_iff in Hsum as [?%Nat.ltb_ge ?%Nat.ltb_ge];
            lia).
      by rewrite app_nil_r.
  - match goal with
    | |- context [NotificationService.create_notification ?t ?ti ?m ?f ?n
                    ?s ?sv ?w0] =>
      pose proof (titles_of_created t ti m f n s sv w0) as Ht;
      destruct (create_notification_row t ti m f n s sv w0)
        as (created_at & _ & _ & Hb & Hh & _)
    end.
    cbv zeta in *. by rewrite Ht, Hb, Hh.
Qed.

(** X22. A manual scan uses the settings that the monitor has cached,
    and loads and caches the stored ones only when it has none; it does
    not ask whether they are active, so it scans where a scheduled scan
    would not.  With no settings at all it returns false and writes
    nothing.  Otherwise it is the scan itself, with its one history row
    and no notification beside those of the scan, and it returns true
    exactly when the fetch did not raise. *)
Theorem manual_scan_spec (search_nearby : result (list PlaceData.t))
    (self : BackgroundMonitor.t) (w : World) :
  let r := BackgroundMonitor.run_manual_scan search_nearby self w in
  BackgroundMonitor.current_settings r.1.2 = manual_settings self w
  ∧ BackgroundMonitor.is_running r.1.2 = BackgroundMonitor.is_running self
  ∧ match manual_settings self w with
    | None => r.1.1 = false ∧ r.2 = w
    | Some settings =>
      r.2 = (MonitoringService.perform_scan settings search_nearby w).2
      ∧ length (history_of r.2) = S (length (history_of w))
      ∧ (r.1.1 = true ↔ ∃ places, search_nearby = Return places)
    end.
Proof.
  cbv zeta. unfold BackgroundMonitor.run_manual_scan, manual_settings.
  assert (∀ settings,
            let s := MonitoringService.perform_scan settings search_nearby
                       w in
            length (history_of s.2) = S (length (history_of w))
            ∧ (ScanHistory.success s.1 = true
               ↔ ∃ places, search_nearby = Return places)) as Hscan.
  { intros settings. cbv zeta.
    destruct (perform_scan_outcome settings search_nearby w)
      as ((row & Hrow & _) & Hout).
    cbv zeta in *. rewrite Hrow, length_app. simpl.
    split; [lia|].
    destruct search_nearby as [places|e]; destruct Hout as [-> _].
    - split; [by exists places|done].
    - split; [done|]. by intros (places & ?). }
  destruct (BackgroundMonitor.current_settings self) as [settings|] eqn:Hc.
  - rewrite Hc. specialize (Hscan settings). cbv zeta in Hscan.
    destruct (MonitoringService.perform_scan settings search_nearby w)
      as [scan_result w1].
    simpl in *. done.
  - cbn [BackgroundMonitor.set_current_settings
         BackgroundMonitor.current_settings].
    destruct (DatabaseManager.get_monitoring_settings (db w))
      as [settings|]; [|done].
    specialize (Hscan settings). cbv zeta in Hscan.
    destruct (MonitoringService.perform_scan settings search_nearby w)
      as [scan_result w1].
    simpl in *. done.
Qed.

(** ** The enumerations *)

(** X23. The values of the members of [NotificationType] and of
    [MonitoringStatus] are distinct, so that a member written to the
    database by its value is the member read back; a string is the value
    of a member exactly when the lookup of the member succeeds, and one
    that differs in the case of a letter is none. *)
Theorem enum_value_round_trip :
  (∀ t, NotificationType_of_value (NotificationType_value t) = Some t)
  ∧ (∀ v t, NotificationType_of_value v = Some t
            ↔ NotificationType_value t = v)
  ∧ (∀ s, MonitoringStatus_of_value (MonitoringStatus_value s) = Some s)
  ∧ (∀ v s, MonitoringStatus_of_value v = Some s
            ↔ MonitoringStatus_value s = v)
  ∧ MonitoringStatus_of_value "Active" = None.
Proof.
  assert (∀ t, NotificationType_of_value (NotificationType_value t)
               = Some t) as Ht by (by intros []).
  assert (∀ s, MonitoringStatus_of_value (MonitoringStatus_value s)
               = Some s) as Hs by (by intros []).
  split_and!; try done.
  - intros v t. split; [|by intros <-].
    unfold NotificationType_of_value.
    repeat case_bool_decide; intros [= <-]; by subst.
  - intros v s. split; [|by intros <-].
    unfold MonitoringStatus_of_value.
    repeat case_bool_decide; intros [= <-]; by subst.
Qed.

(** ** BackgroundMonitor: start and stop *)

(** X24. Where the stored settings are active, a stopped monitor starts,
    and a second start is refused and changes nothing; stopping it then
    leaves it stopped with no job, the two notifications "Monitoring
    Started" and "Monitoring Stopped" stored in this order and one thread
    started, and a second stop changes nothing. *)
Theorem start_then_stop (self : BackgroundMonitor.t) (w : World) :
  BackgroundMonitor.is_running self = false →
  startable w →
  let r1 := BackgroundMonitor.start self w in
  let r2 := BackgroundMonitor.stop r1.1.2 r1.2 in
  r1.1.1 = true
  ∧ BackgroundMonitor.start r1.1.2 r1.2 = (false, r1.1.2, r1.2)
  ∧ BackgroundMonitor.is_running r2.1 = false
  ∧ jobs r2.2 = []
  ∧ threads r2.2 = S (threads w)
  ∧ titles_of r2.2
    = titles_of w ++ ["Monitoring Started"; "Monitoring Stopped"]
  ∧ businesses_of r2.2 = businesses_of w
  ∧ history_of r2.2 = history_of w
  ∧ BackgroundMonitor.stop r2.1 r2.2 = r2.
Proof.
  intros Hrun Hstartable. cbv zeta.
  destruct (start_facts self w) as (_ & _ & Hb1 & Hh1 & Hstart).
  cbv zeta in *. rewrite Hrun in Hstart. destruct Hstart as (_ & Hcase).
  unfold startable in Hstartable.
  destruct (DatabaseManager.get_monitoring_settings (db w))
    as [settings|]; [|done].
  rewrite bool_decide_eq_true_2 in Hcase by done.
  destruct Hcase as (Hok & Hr1 & _ & Hth1 & Ht1).
  destruct (BackgroundMonitor.start self w) as [[ok self1] w1].
  simpl in *.
  destruct (stop_facts self1 w1)
    as (Hr2 & Hj2 & _ & _ & _ & Hb2 & Hh2 & Hth2 & Ht2).
  cbv zeta in *. rewrite Hr1 in Hj2, Ht2.
  split_and!; try done; try congruence.
  - unfold BackgroundMonitor.start. by rewrite Hr1.
  - by rewrite Ht2, Ht1, <- app_assoc.
  - destruct (BackgroundMonitor.stop self1 w1) as [self2 w2].
    simpl in Hr2. unfold BackgroundMonitor.stop. simpl. by rewrite Hr2.
Qed.

Lemma start_then_stop_witness :
  (BackgroundMonitor.start
     (BackgroundMonitor.init (NotificationService.mk true))
     active_world).1.1 = true.
Proof.
  refine (proj1 (start_then_stop
                   (BackgroundMonitor.init (NotificationService.mk true))
                   active_world _ _)); reflexivity.
Defined.
